(** * BudgetTracker: bank-statement parsing and reconciliation

    A shallow embedding of the statement parser ([BankStatementParser]) and
    of the persistence operations ([BudgetTracker]) of [BudgetTracker.py],
    with the properties of the specification stated and proved over it.

    Conventions of the embedding.
    - Text is ASCII text ([string]); the Python predicates [str.isspace],
      [str.isdigit] and [str.lower] are modelled on ASCII code points.
    - A Python [float] is represented by the exact rational it denotes
      ([Q]); [float(s)] of a decimal literal is the rational the literal
      denotes (the rounding and the range of doubles are not modelled for
      literals).  [float(n)] of an [int] is the nearest double, ties to
      even, and an OverflowError from [2^1024 - 2^970] on
      ([float_of_int]); [str(n)] is the decimal text of [n], whatever its
      length.
    - A sheet is the list of its rows, a row the list of its cells;
      [pd.read_excel] takes the first row of the sheet for the column
      labels, so the DataFrame the parser works on is the list of the
      rows below it ([read_excel]).
    - The columns [date] and [amount] of the table have NUMERIC affinity:
      a text that SQLite reads as a number is stored and compared as that
      number.  Which texts these are, and how SUM adds doubles, is left
      to two parameters of the queries ([numeric], [float_sum]); the
      statements about reports hold for every choice of them, those
      that count days for every choice that keeps the ISO text of a date
      as text.  The two
      queries of the reconciliation ([find_matching_transactions] and the
      duplicate test) compare the column with texts written by
      [strftime]; they are modelled on the rows whose date is kept as
      text, as the dates the program itself stores are, and compare the
      dates as texts.
    - The connection follows the sqlite3 module in its default (legacy)
      transaction control: an INSERT or DELETE opens a transaction when
      none is open, [commit()] and [rollback()] close it, and the SQL
      statements BEGIN, COMMIT and ROLLBACK are errors when SQLite cannot
      honour them. *)

From Stdlib Require Import List String Ascii ZArith NArith QArith Lia Bool.
From Stdlib Require Import DecimalString Permutation Sorted.
Import ListNotations.

Local Open Scope string_scope.
Local Open Scope Z_scope.

(* ===================================================================== *)
(** ** Python strings *)
(* ===================================================================== *)

Module PyStr.

(** [c.isspace()] on ASCII: TAB..CR, FS..US and the blank. *)
Definition isspace (c : ascii) : bool :=
  let n := N_of_ascii c in
  (((9 <=? n) && (n <=? 13)) || ((28 <=? n) && (n <=? 32)))%N.

(** [c.isdigit()] on ASCII. *)
Definition isdigit (c : ascii) : bool :=
  let n := N_of_ascii c in ((48 <=? n) && (n <=? 57))%N.

Definition lower_char (c : ascii) : ascii :=
  let n := N_of_ascii c in
  if ((65 <=? n) && (n <=? 90))%N then ascii_of_N (n + 32) else c.

(** [s.lower()] *)
Fixpoint lower (s : string) : string :=
  match s with
  | EmptyString => EmptyString
  | String c r => String (lower_char c) (lower r)
  end.

Fixpoint lstrip (s : string) : string :=
  match s with
  | EmptyString => EmptyString
  | String c r => if isspace c then lstrip r else s
  end.

Fixpoint rstrip (s : string) : string :=
  match s with
  | EmptyString => EmptyString
  | String c r =>
      match rstrip r with
      | EmptyString => if isspace c then EmptyString else String c EmptyString
      | r' => String c r'
      end
  end.

(** [s.strip()] *)
Definition strip (s : string) : string := rstrip (lstrip s).

(** [''.join(c for c in s if p c)] *)
Fixpoint filter (p : ascii -> bool) (s : string) : string :=
  match s with
  | EmptyString => EmptyString
  | String c r => if p c then String c (filter p r) else filter p r
  end.

(** [needle in hay] *)
Fixpoint contains (needle hay : string) : bool :=
  String.prefix needle hay ||
  match hay with
  | EmptyString => false
  | String _ r => contains needle r
  end.

(** Truth value of a string: [bool(s)]. *)
Definition nonempty (s : string) : bool :=
  match s with EmptyString => false | _ => true end.

(** [sep.join(l)] *)
Definition join (sep : string) (l : list string) : string := String.concat sep l.

Fixpoint all_digits (s : string) : bool :=
  match s with
  | EmptyString => true
  | String c r => isdigit c && all_digits r
  end.

Fixpoint digits_val (acc : Z) (s : string) : Z :=
  match s with
  | EmptyString => acc
  | String c r => digits_val (10 * acc + (Z.of_N (N_of_ascii c) - 48)) r
  end.

(** The text before the first ['.'] and, when there is one, the text
    after it. *)
Fixpoint split_dot (s : string) : string * option string :=
  match s with
  | EmptyString => (EmptyString, None)
  | String c r =>
      if Ascii.eqb c "."%char then (EmptyString, Some r)
      else let (a, b) := split_dot r in (String c a, b)
  end.

(** [float(s)] for a text [s] over the digits and ['.'], the only texts
    the amount cleaner hands to [float]: [None] is [ValueError].  Python
    accepts [digits], [digits.], [.digits] and [digits.digits]. *)
Definition float_of_digits (s : string) : option Q :=
  match split_dot s with
  | (ip, None) =>
      if all_digits ip && nonempty ip then Some (digits_val 0 ip # 1) else None
  | (ip, Some fp) =>
      if all_digits ip && all_digits fp && (nonempty ip || nonempty fp)
      then Some (digits_val 0 (ip ++ fp) # Z.to_pos (10 ^ Z.of_nat (String.length fp)))
      else None
  end.

(** [str(n)] for an [int]. *)
Definition str_of_Z (n : Z) : string := NilZero.string_of_int (Z.to_int n).

(** [n] written with at least [w] digits, zero padded ([%02d], [%04d]). *)
Fixpoint zeros (n : nat) (s : string) : string :=
  match n with
  | O => s
  | S n' => String "0" (zeros n' s)
  end.

Definition zero_pad (w : nat) (s : string) : string :=
  zeros (w - String.length s) s.

Definition padded (w : nat) (n : Z) : string := zero_pad w (str_of_Z n).

End PyStr.

(* ===================================================================== *)
(** ** Values, exceptions and calendar dates *)
(* ===================================================================== *)

(** The exceptions the modelled code raises or meets. *)
Inductive exn : Type :=
| ValueError (msg : string)
| AttributeError (msg : string)
| StopIteration
| IndexError (msg : string)
| OverflowError (msg : string)
| IntegrityError (msg : string)
| OperationalError (msg : string).

(** [str(e)] *)
Definition exn_str (e : exn) : string :=
  match e with
  | ValueError m | AttributeError m | IndexError m | OverflowError m
  | IntegrityError m | OperationalError m => m
  | StopIteration => ""
  end.

(** The result of running a piece of code: a value or a raised exception. *)
Inductive outcome (A : Type) : Type :=
| Ret (a : A)
| Raise (e : exn).
Arguments Ret {A} a.
Arguments Raise {A} e.

Definition obind {A B} (m : outcome A) (k : A -> outcome B) : outcome B :=
  match m with
  | Ret a => k a
  | Raise e => Raise e
  end.

Declare Scope outcome_scope.
Delimit Scope outcome_scope with outcome.
Notation "x <- m ;; k" := (obind m (fun x => k))
  (at level 61, m at next level, right associativity) : outcome_scope.

(** [datetime.datetime] (microseconds and time zones are not modelled). *)
Record datetime : Type := mkdatetime {
  year : Z; month : Z; day : Z;
  hour : Z; minute : Z; second : Z
}.

Definition midnight (y m d : Z) : datetime := mkdatetime y m d 0 0 0.

Definition is_leap (y : Z) : bool :=
  ((y mod 4 =? 0) && negb (y mod 100 =? 0)) || (y mod 400 =? 0).

Definition days_in_month (y m : Z) : Z :=
  if m =? 2 then (if is_leap y then 29 else 28)
  else if (m =? 4) || (m =? 6) || (m =? 9) || (m =? 11) then 30
  else 31.

(** [d.toordinal()]: days since 0001-01-01 (which has ordinal 1), in the
    proleptic Gregorian calendar. *)
Definition toordinal (y m d : Z) : Z :=
  let y' := if m <=? 2 then y - 1 else y in
  let era := y' / 400 in
  let yoe := y' - era * 400 in
  let mp := if 2 <? m then m - 3 else m + 9 in
  let doy := (153 * mp + 2) / 5 + d - 1 in
  let doe := yoe * 365 + yoe / 4 - yoe / 100 + doy in
  era * 146097 + doe - 305.

(** [date.fromordinal(n)] as (year, month, day). *)
Definition fromordinal (n : Z) : Z * Z * Z :=
  let z := n + 305 in
  let era := z / 146097 in
  let doe := z - era * 146097 in
  let yoe := (doe - doe / 1460 + doe / 36524 - doe / 146096) / 365 in
  let doy := doe - (365 * yoe + yoe / 4 - yoe / 100) in
  let mp := (5 * doy + 2) / 153 in
  let d := doy - (153 * mp + 2) / 5 + 1 in
  let m := if mp <? 10 then mp + 3 else mp - 9 in
  let y := yoe + era * 400 in
  (if m <=? 2 then y + 1 else y, m, d).

(** [str(dt)], that is [dt.isoformat(sep=' ')]. *)
Definition datetime_str (dt : datetime) : string :=
  PyStr.padded 4 (year dt) ++ "-" ++ PyStr.padded 2 (month dt) ++ "-" ++
  PyStr.padded 2 (day dt) ++ " " ++ PyStr.padded 2 (hour dt) ++ ":" ++
  PyStr.padded 2 (minute dt) ++ ":" ++ PyStr.padded 2 (second dt).

(** [float(n)] for an [int]: the nearest double, a tie going to the even
    mantissa of 53 bits; [OverflowError] when that is beyond the largest
    double.  An [int] of at most 53 bits is kept as it is. *)
Definition float_of_int (n : Z) : outcome Q :=
  let a := Z.abs n in
  let e := Z.log2 a - 52 in
  if e <=? 0 then Ret (n # 1)
  else
    let q := a / 2 ^ e in
    let r := a mod 2 ^ e in
    let half := 2 ^ (e - 1) in
    let m := if (half <? r) || ((r =? half) && Z.odd q) then q + 1 else q in
    if 2 ^ 1024 <=? m * 2 ^ e
    then Raise (OverflowError "int too large to convert to float")
    else Ret (Z.sgn n * (m * 2 ^ e) # 1).

(** A cell of a sheet as pandas delivers it in an object column: [None],
    the float NaN of an empty cell, a text, an [int], a [float] (its value
    and the text [str] renders for it) or a [datetime]. *)
Inductive cell : Type :=
| CNone
| CNaN
| CStr (s : string)
| CInt (n : Z)
| CFloat (v : Q) (repr : string)
| CDateTime (dt : datetime).

(** [str(x)] *)
Definition cell_str (c : cell) : string :=
  match c with
  | CNone => "None"
  | CNaN => "nan"
  | CStr s => s
  | CInt n => PyStr.str_of_Z n
  | CFloat _ r => r
  | CDateTime dt => datetime_str dt
  end.

(** [pd.isna(x)] on a scalar. *)
Definition isna (c : cell) : bool :=
  match c with
  | CNone | CNaN => true
  | _ => false
  end.

Inductive kind : Type := debit | credit.

Definition kind_eqb (a b : kind) : bool :=
  match a, b with
  | debit, debit | credit, credit => true
  | _, _ => false
  end.

(** The dictionary the parser builds for a statement line. *)
Record transaction : Type := mktransaction {
  date : datetime;
  description : string;
  reference : string;
  type : kind;
  amount : Q;
  balance : Q
}.

(* ===================================================================== *)
(** ** class BankStatementParser *)
(* ===================================================================== *)

Module BankStatementParser.

Import PyStr.

(** The characters [clean_amount] keeps: [c.isdigit() or c == '.']. *)
Definition amount_char (c : ascii) : bool := isdigit c || Ascii.eqb c "."%char.

(** The body of [clean_amount], inside its [try]. *)
Definition clean_amount_body (amount_str : cell) : outcome Q :=
  if isna amount_str then Ret 0%Q
  else
    match amount_str with
    | CStr "" => Ret 0%Q
    | CInt n => float_of_int n
    | CFloat v _ => Ret v
    | _ =>
        let s := strip (cell_str amount_str) in
        let s := filter amount_char s in
        if nonempty s then
          match float_of_digits s with
          | Some q => Ret q
          | None => Raise (ValueError ("could not convert string to float: '" ++ s ++ "'"))
          end
        else Ret 0%Q
    end.

(** [clean_amount]: any exception of the body is caught and gives [0.0]. *)
Definition clean_amount (amount_str : cell) : Q :=
  match clean_amount_body amount_str with
  | Ret q => q
  | Raise _ => 0%Q
  end.

(** [q > 0] *)
Definition positive (q : Q) : bool := negb (Qle_bool q 0).

(** The text before the first [sep] and the text after it. *)
Fixpoint split_at (sep : ascii) (s : string) : option (string * string) :=
  match s with
  | EmptyString => None
  | String c r =>
      if Ascii.eqb c sep then Some (EmptyString, r)
      else match split_at sep r with
           | Some (a, b) => Some (String c a, b)
           | None => None
           end
  end.

Definition digit_of (c : ascii) : Z := Z.of_N (N_of_ascii c) - 48.

(** The directive [%d]: [3[0-1]|[1-2]\d|0[1-9]|[1-9]| [1-9]]. *)
Definition day_field (s : string) : option Z :=
  match s with
  | String a EmptyString =>
      if isdigit a && negb (Ascii.eqb a "0"%char) then Some (digit_of a) else None
  | String a (String b EmptyString) =>
      if Ascii.eqb a " "%char then
        (if isdigit b && negb (Ascii.eqb b "0"%char) then Some (digit_of b) else None)
      else if isdigit a && isdigit b then
        let v := 10 * digit_of a + digit_of b in
        if (1 <=? v) && (v <=? 31) then Some v else None
      else None
  | _ => None
  end.

(** The directive [%m]: [1[0-2]|0[1-9]|[1-9]]. *)
Definition month_field (s : string) : option Z :=
  match s with
  | String a EmptyString =>
      if isdigit a && negb (Ascii.eqb a "0"%char) then Some (digit_of a) else None
  | String a (String b EmptyString) =>
      if isdigit a && isdigit b then
        let v := 10 * digit_of a + digit_of b in
        if (1 <=? v) && (v <=? 12) then Some v else None
      else None
  | _ => None
  end.

(** The directive [%y]: two digits, 69..99 in the 1900s, 00..68 in the
    2000s. *)
Definition year2_field (s : string) : option Z :=
  match s with
  | String a (String b EmptyString) =>
      if isdigit a && isdigit b then
        let v := 10 * digit_of a + digit_of b in
        Some (if v <? 69 then 2000 + v else 1900 + v)
      else None
  | _ => None
  end.

(** The directive [%Y]: four digits. *)
Definition year4_field (s : string) : option Z :=
  match s with
  | String a (String b (String c (String d EmptyString))) =>
      if isdigit a && isdigit b && isdigit c && isdigit d
      then Some (digits_val 0 s) else None
  | _ => None
  end.

(** [datetime.strptime(s, '%d/%m/<year>')]; [None] is [ValueError]: the
    text does not match the format, text remains after the year, or the day
    does not exist in that month of that year. *)
Definition strptime (year_field : string -> option Z) (s : string) : option datetime :=
  match split_at "/" s with
  | None => None
  | Some (ds, rest) =>
      match split_at "/" rest with
      | None => None
      | Some (ms, ys) =>
          match day_field ds, month_field ms, year_field ys with
          | Some d, Some m, Some y =>
              if (1 <=? y) && (d <=? days_in_month y m)
              then Some (midnight y m d) else None
          | _, _, _ => None
          end
      end
  end.

(** [parse_date]: a [datetime] is returned as it is, a text is tried as
    [dd/mm/yy] and then as [dd/mm/yyyy]; anything else gives [None]. *)
Definition parse_date (date_val : cell) : option datetime :=
  match date_val with
  | CDateTime dt => Some dt
  | CStr s =>
      let date_str := strip s in
      match strptime year2_field date_str with
      | Some dt => Some dt
      | None => strptime year4_field date_str
      end
  | _ => None
  end.

(* --------------------------------------------------------------------- *)
(** *** parse_excel_statement *)

Definition row : Type := list cell.

(** [' '.join(str(x).lower() for x in row.values)] *)
Definition row_text (r : row) : string :=
  join " " (map (fun x => lower (cell_str x)) r).

Definition is_header_text (t : string) : bool :=
  contains "date" t && contains "narration" t &&
  (contains "withdrawal" t || contains "debit" t).

(** The search for the header row: the index of the first row whose text
    has the header keywords. *)
Fixpoint find_header (idx : nat) (rows : list row) : option nat :=
  match rows with
  | [] => None
  | r :: rest =>
      if is_header_text (row_text r) then Some idx else find_header (S idx) rest
  end.

(** A column label after [df.columns.str.strip().str.lower()]: the [.str]
    methods give NaN ([None] here) for a label that is not text. *)
Definition clean_label (c : cell) : option string :=
  match c with
  | CStr s => Some (lower (strip s))
  | _ => None
  end.

(** [next(col for col in df.columns if p(col.lower()))], as the position
    of the column found.  A NaN label met before a match has no [lower]
    ([AttributeError]); running out of labels is [StopIteration].  Labels
    are taken to be distinct where they are text, so that [row[col]]
    denotes the one cell of the column found. *)
Fixpoint next_col (p : string -> bool) (pos : nat) (labels : list (option string))
  : outcome nat :=
  match labels with
  | [] => Raise StopIteration
  | None :: _ => Raise (AttributeError "'float' object has no attribute 'lower'")
  | Some col :: rest =>
      if p (lower col) then Ret pos else next_col p (S pos) rest
  end.

Record columns : Type := mkcolumns {
  date_col : nat;
  narration_col : nat;
  ref_col : nat;
  withdrawal_col : nat;
  deposit_col : nat;
  balance_col : nat
}.

Local Open Scope outcome_scope.

Definition find_columns (labels : list (option string)) : outcome columns :=
  d <- next_col (fun c => contains "date" c && negb (contains "value" c)) 0 labels ;;
  n <- next_col (fun c => contains "narration" c) 0 labels ;;
  r <- next_col (fun c => contains "ref" c || contains "chq" c) 0 labels ;;
  w <- next_col (fun c => contains "withdrawal" c || contains "debit" c) 0 labels ;;
  p <- next_col (fun c => contains "deposit" c || contains "credit" c) 0 labels ;;
  b <- next_col (fun c => contains "balance" c) 0 labels ;;
  Ret (mkcolumns d n r w p b).

(** [row[col]]; a DataFrame is rectangular, the default is never met. *)
Definition get (r : row) (col : nat) : cell := nth col r CNaN.

(** The dictionary built for a dated row. *)
Definition make_transaction (cols : columns) (current_description : string)
  (date_obj : datetime) (r : row) : transaction :=
  let narration := cell_str (get r (narration_col cols)) in
  let description :=
    if nonempty current_description
    then current_description ++ " " ++ narration else narration in
  let withdrawal := clean_amount (get r (withdrawal_col cols)) in
  let deposit := clean_amount (get r (deposit_col cols)) in
  let balance := clean_amount (get r (balance_col cols)) in
  {| date := date_obj;
     description := strip description;
     reference := strip (cell_str (get r (ref_col cols)));
     type := if positive withdrawal then debit else credit;
     amount := if positive withdrawal then withdrawal else deposit;
     balance := balance |}.

(** The loop over the rows below the header; [current_description] is the
    loop's pending description.  The result is the list [transactions]. *)
Fixpoint process_rows (cols : columns) (current_description : string)
  (rows : list row) : list transaction :=
  match rows with
  | [] => []
  | r :: rest =>
      if contains "statement summary" (lower (cell_str (get r (narration_col cols))))
      then []                                            (* break *)
      else
        let date_val := get r (date_col cols) in
        if isna date_val then
          process_rows cols
            (if nonempty current_description
             then current_description ++ " " ++ cell_str (get r (narration_col cols))
             else current_description)
            rest                                          (* continue *)
        else
          match parse_date date_val with
          | None => process_rows cols current_description rest
          | Some date_obj =>
              make_transaction cols current_description date_obj r
                :: process_rows cols "" rest
          end
  end.

(** The body of [parse_excel_statement] below [pd.read_excel], on the
    DataFrame [df]. *)
Definition parse_excel_body (df : list row) : outcome (list transaction) :=
  match find_header 0 df with
  | None => Raise (ValueError "Could not find transaction table header")
  | Some header_row =>
      let labels := map clean_label (nth header_row df []) in
      cols <- find_columns labels ;;
      match process_rows cols "" (skipn (S header_row) df) with
      | [] => Raise (ValueError "No valid transactions found in the statement")
      | transactions => Ret transactions
      end
  end.

(** [pd.read_excel(BytesIO(file_content))] on the rows of the first
    worksheet: the first row gives the column labels of the DataFrame and
    is not one of its rows, the rows below it are the rows of the
    DataFrame (their cells as pandas delivers them). *)
Definition read_excel (sheet : list row) : list row := tl sheet.

(** [parse_excel_statement], from the rows of the sheet: every exception
    is re-raised as a [ValueError]. *)
Definition parse_excel_statement (sheet : list row) : outcome (list transaction) :=
  match parse_excel_body (read_excel sheet) with
  | Ret transactions => Ret transactions
  | Raise e => Raise (ValueError ("Error processing Excel statement: " ++ exn_str e))
  end.

(** The errors of the specification, as the code raises them. *)
Definition HeaderNotFound : exn :=
  ValueError "Error processing Excel statement: Could not find transaction table header".
Definition EmptyStatementError_excel : exn :=
  ValueError "Error processing Excel statement: No valid transactions found in the statement".
Definition EmptyStatementError_pdf : exn :=
  ValueError "Error processing PDF statement: No valid transactions found in the statement".

(* --------------------------------------------------------------------- *)
(** *** parse_pdf_statement *)

(** A table as [page.extract_tables()] gives it: rows of cells, a cell a
    text or [None]. *)
Definition pdf_row : Type := list (option string).
Definition pdf_table : Type := list pdf_row.

(** [[str(cell).strip() if cell is not None else '' for cell in row]] *)
Definition clean_pdf_row (r : pdf_row) : list string :=
  map (fun c => match c with Some s => strip s | None => "" end) r.

(** [row[i]] on a list. *)
Definition index (r : list string) (i : nat) : outcome string :=
  match nth_error r i with
  | Some s => Ret s
  | None => Raise (IndexError "list index out of range")
  end.

(** The [try] block for one row below the header: [Ret None] is a
    [continue], [Ret (Some t)] the transaction appended. *)
Definition pdf_row_body (r : list string) : outcome (option transaction) :=
  r0 <- index r 0 ;;
  if negb (nonempty r0) || contains "statement summary" (lower (join " " r))
  then Ret None
  else
    match parse_date (CStr r0) with
    | None => Ret None
    | Some date_obj =>
        r4 <- index r 4 ;;
        let withdrawal := clean_amount (CStr r4) in
        r5 <- index r 5 ;;
        let deposit := clean_amount (CStr r5) in
        r1 <- index r 1 ;;
        r2 <- index r 2 ;;
        r6 <- index r 6 ;;
        Ret (Some {| date := date_obj;
                     description := strip r1;
                     reference := strip r2;
                     type := if positive withdrawal then debit else credit;
                     amount := if positive withdrawal then withdrawal else deposit;
                     balance := clean_amount (CStr r6) |})
    end.

(** The loop over the rows of one table; an exception in the [try] block
    skips the row. *)
Fixpoint process_table (header_found : bool) (table : pdf_table) : list transaction :=
  match table with
  | [] => []
  | raw :: rest =>
      let r := clean_pdf_row raw in
      let row_text := lower (join " " r) in
      if is_header_text row_text then process_table true rest
      else if negb header_found then process_table header_found rest
      else
        match pdf_row_body r with
        | Ret (Some t) => t :: process_table header_found rest
        | Ret None | Raise _ => process_table header_found rest
        end
  end.

(** The transactions of all tables of all pages, in order. *)
Definition pdf_transactions (pages : list (list pdf_table)) : list transaction :=
  flat_map (fun tables => flat_map (process_table false) tables) pages.

(** [parse_pdf_statement], from the tables of the pages of the file. *)
Definition parse_pdf_statement (pages : list (list pdf_table)) : outcome (list transaction) :=
  match pdf_transactions pages with
  | [] => Raise (ValueError ("Error processing PDF statement: " ++
                             "No valid transactions found in the statement"))
  | transactions => Ret transactions
  end.

End BankStatementParser.

(* ===================================================================== *)
(** ** The SQLite connection *)
(* ===================================================================== *)

(** A row of the table [transactions] (the columns [tags] and
    [created_at], which no modelled statement reads, are left out). *)
Record transaction_row : Type := mkrow {
  row_id : Z;
  row_date : string;
  row_description : string;
  row_reference_no : option string;
  row_type : string;
  row_amount : Q;
  row_balance : Q;
  row_category : option string;
  row_source : string
}.

(** A row of the table [validated_expenses] (without its timestamp). *)
Record validation_row : Type := mkvalidation {
  validation_id : Z;
  manual_transaction_id : Z;
  bank_transaction_id : option Z;
  is_validated : bool
}.

(** The two tables and their AUTOINCREMENT counters (the largest id ever
    given out). *)
Record tables : Type := mktables {
  transactions : list transaction_row;
  validated_expenses : list validation_row;
  transactions_seq : Z;
  validated_expenses_seq : Z
}.

(** A connection: the committed database and, while a transaction is
    open, the working copy the statements of the transaction see. *)
Record connection : Type := mkconn {
  committed : tables;
  pending : option tables
}.

Definition view (c : connection) : tables :=
  match pending c with
  | Some t => t
  | None => committed c
  end.

(** Code that runs against the connection and may raise. *)
Definition db (A : Type) : Type := connection -> outcome A * connection.

Definition dret {A} (a : A) : db A := fun c => (Ret a, c).
Definition draise {A} (e : exn) : db A := fun c => (Raise e, c).
Definition dbind {A B} (m : db A) (k : A -> db B) : db B :=
  fun c => match m c with
           | (Ret a, c') => k a c'
           | (Raise e, c') => (Raise e, c')
           end.

(** [try: m except Exception as e: h e] *)
Definition try_except {A} (m : db A) (h : exn -> db A) : db A :=
  fun c => match m c with
           | (Ret a, c') => (Ret a, c')
           | (Raise e, c') => h e c'
           end.

Declare Scope db_scope.
Delimit Scope db_scope with db.
Notation "x <- m ;; k" := (dbind m (fun x => k))
  (at level 61, m at next level, right associativity) : db_scope.
Notation "m ;;; k" := (dbind m (fun _ => k))
  (at level 61, right associativity) : db_scope.

(** [cursor.execute] of a SELECT: reads what the connection sees. *)
Definition select {A} (q : tables -> A) : db A := fun c => (Ret (q (view c)), c).

(** [cursor.execute] of an INSERT or DELETE: the sqlite3 module opens a
    transaction first when none is open, then the statement changes the
    working copy; a violated constraint raises and changes nothing. *)
Definition execute_dml (stmt : tables -> outcome tables) : db unit :=
  fun c => match stmt (view c) with
           | Ret t => (Ret tt, mkconn (committed c) (Some t))
           | Raise e => (Raise e, mkconn (committed c) (Some (view c)))
           end.

(** [cursor.execute('BEGIN TRANSACTION')] *)
Definition execute_begin : db unit :=
  fun c => match pending c with
           | None => (Ret tt, mkconn (committed c) (Some (committed c)))
           | Some _ => (Raise (OperationalError
                          "cannot start a transaction within a transaction"), c)
           end.

(** [cursor.execute('COMMIT')] *)
Definition execute_commit : db unit :=
  fun c => match pending c with
           | Some t => (Ret tt, mkconn t None)
           | None => (Raise (OperationalError
                        "cannot commit - no transaction is active"), c)
           end.

(** [cursor.execute('ROLLBACK')] *)
Definition execute_rollback : db unit :=
  fun c => match pending c with
           | Some _ => (Ret tt, mkconn (committed c) None)
           | None => (Raise (OperationalError
                        "cannot rollback - no transaction is active"), c)
           end.

(** [conn.commit()]: does nothing when no transaction is open. *)
Definition conn_commit : db unit :=
  fun c => match pending c with
           | Some t => (Ret tt, mkconn t None)
           | None => (Ret tt, c)
           end.

(** [conn.rollback()]: does nothing when no transaction is open. *)
Definition conn_rollback : db unit :=
  fun c => (Ret tt, mkconn (committed c) None).

(* ===================================================================== *)
(** ** class BudgetTracker *)
(* ===================================================================== *)

Module BudgetTracker.

Import PyStr BankStatementParser.
Local Open Scope db_scope.

(** [dt.strftime('%Y-%m-%d')], the year written with four digits as
    documented (some C libraries leave a year below 1000 unpadded). *)
Definition strftime_ymd (y m d : Z) : string :=
  padded 4 y ++ "-" ++ padded 2 m ++ "-" ++ padded 2 d.

Definition strftime (dt : datetime) : string :=
  strftime_ymd (year dt) (month dt) (day dt).

(** [datetime.strptime(s, '%Y-%m-%d').date()]; [None] is [ValueError]. *)
Definition strptime_iso (s : string) : option (Z * Z * Z) :=
  match split_at "-" s with
  | None => None
  | Some (ys, rest) =>
      match split_at "-" rest with
      | None => None
      | Some (ms, ds) =>
          match year4_field ys, month_field ms, day_field ds with
          | Some y, Some m, Some d =>
              if (1 <=? y) && (d <=? days_in_month y m)
              then Some (y, m, d) else None
          | _, _, _ => None
          end
      end
  end.

(** [(base_date + timedelta(days=n)).strftime('%Y-%m-%d')]; a date outside
    the years 1..9999 is an [OverflowError]. *)
Definition shifted_date (base_date : Z * Z * Z) (n : Z) : outcome string :=
  let '(y, m, d) := base_date in
  let o := toordinal y m d + n in
  if (1 <=? o) && (o <=? 3652059) then
    let '(y', m', d') := fromordinal o in Ret (strftime_ymd y' m' d')
  else Raise (OverflowError "date value out of range").

(** The ids the sub-query of [find_matching_transactions] selects:
    [bank_transaction_id] of every validation row where it is not NULL. *)
Definition validated_bank_ids (t : tables) : list Z :=
  flat_map (fun v => match bank_transaction_id v with
                     | Some b => [b]
                     | None => []
                     end) (validated_expenses t).

(** The WHERE clause of the query of [find_matching_transactions]. *)
Definition matches_query (amount : Q) (start_date end_date : string)
  (t : tables) (r : transaction_row) : bool :=
  (row_type r =? "debit")%string &&
  Qeq_bool (row_amount r) amount &&
  (String.leb start_date (row_date r) && String.leb (row_date r) end_date) &&
  (row_source r =? "bank_statement")%string &&
  negb (existsb (Z.eqb (row_id r)) (validated_bank_ids t)).

(** [find_matching_transactions(amount, date, description, tolerance_days)]
    for a [date] given as text; the rows selected stand for the tuples
    [(id, date, description, amount, reference_no, source)] returned. *)
Definition find_matching_transactions (amount : Q) (date : string)
  (tolerance_days : Z) : db (list transaction_row) :=
  match strptime_iso date with
  | None => draise (ValueError "time data does not match format '%Y-%m-%d'")
  | Some base_date =>
      match shifted_date base_date (- tolerance_days) with
      | Raise e => draise e
      | Ret start_date =>
          match shifted_date base_date tolerance_days with
          | Raise e => draise e
          | Ret end_date =>
              select (fun t =>
                List.filter (matches_query amount start_date end_date t)
                            (transactions t))
          end
      end
  end.

(** [INSERT INTO validated_expenses ...] *)
Definition insert_validation (manual_id : Z) (bank_id : option Z)
  (accepted : bool) (t : tables) : outcome tables :=
  let id := validated_expenses_seq t + 1 in
  Ret (mktables (transactions t)
         (validated_expenses t ++ [mkvalidation id manual_id bank_id accepted])
         (transactions_seq t) id).

(** [validate_expense(manual_transaction_id, bank_transaction_id,
    is_validated)] *)
Definition validate_expense (manual_id : Z) (bank_id : option Z)
  (accepted : bool) : db unit :=
  try_except
    (execute_dml (insert_validation manual_id
                    (if accepted then bank_id else None) accepted) ;;;
     conn_commit)
    (fun e => conn_rollback ;;; draise e).

Definition type_str (k : kind) : string :=
  match k with debit => "debit" | credit => "credit" end.

(** [INSERT INTO transactions ...]; the CHECK constraint on [type] raises
    an [IntegrityError]. *)
Definition insert_transaction (date description : string)
  (reference_no : option string) (type : string) (amount balance : Q)
  (category : option string) (source : string) (t : tables) : outcome tables :=
  if (type =? "debit")%string || (type =? "credit")%string then
    let id := transactions_seq t + 1 in
    Ret (mktables
           (transactions t ++
              [mkrow id date description reference_no type amount balance
                     category source])
           (validated_expenses t) id (validated_expenses_seq t))
  else Raise (IntegrityError "CHECK constraint failed: type IN ('debit', 'credit')").

(** The duplicate test of [process_bank_statement]:
    [SELECT COUNT( * ) FROM transactions WHERE date = ? AND description = ?
    AND amount = ? AND type = ?]. *)
Definition same_transaction (tx : transaction) (r : transaction_row) : bool :=
  (row_date r =? strftime (date tx))%string &&
  (row_description r =? description tx)%string &&
  Qeq_bool (row_amount r) (amount tx) &&
  (row_type r =? type_str (type tx))%string.

Definition count_duplicates (tx : transaction) (t : tables) : Z :=
  Z.of_nat (List.length (List.filter (same_transaction tx) (transactions t))).

(** The body of the loop of [process_bank_statement] for one parsed
    transaction; [counts] is ([transactions_added], [duplicates_found]). *)
Definition ingest_row (counts : Z * Z) (tx : transaction) : db (Z * Z) :=
  n <- select (count_duplicates tx) ;;
  if n =? 0 then
    execute_dml (insert_transaction (strftime (date tx)) (description tx)
                   (Some (reference tx)) (type_str (type tx)) (amount tx)
                   (balance tx) None "bank_statement") ;;;
    dret (fst counts + 1, snd counts)
  else dret (fst counts, snd counts + 1).

Fixpoint ingest_rows (counts : Z * Z) (df : list transaction) : db (Z * Z) :=
  match df with
  | [] => dret counts
  | tx :: rest => counts' <- ingest_row counts tx ;; ingest_rows counts' rest
  end.

(** An uploaded statement with the format the caller names for it. *)
Inductive statement_file : Type :=
| PdfFile (pages : list (list pdf_table))
| ExcelFile (sheet : list row).

Definition parse_statement (file : statement_file) : outcome (list transaction) :=
  match file with
  | PdfFile pages => parse_pdf_statement pages
  | ExcelFile sheet => parse_excel_statement sheet
  end.

Definition ingest_message (counts : Z * Z) : string :=
  let message := "Successfully processed " ++ str_of_Z (fst counts) ++
                 " new transaction(s)" in
  if 0 <? snd counts
  then message ++ " and skipped " ++ str_of_Z (snd counts) ++ " duplicate(s)"
  else message.

(** [process_bank_statement(file, file_type)] *)
Definition process_bank_statement (file : statement_file) : db (bool * string) :=
  try_except
    (match parse_statement file with
     | Raise e => draise e
     | Ret df =>
         counts <- ingest_rows (0, 0) df ;;
         conn_commit ;;;
         dret (true, ingest_message counts)
     end)
    (fun e => dret (false, exn_str e)).

(** [add_manual_transaction(date, description, amount, category,
    transaction_type, reference_no)] *)
Definition add_manual_transaction (date description : string) (amount : Q)
  (category : option string) (transaction_type : string)
  (reference_no : option string) : db (Z * list transaction_row) :=
  try_except
    (execute_dml (insert_transaction date description reference_no
                    transaction_type amount 0 category "manual") ;;;
     transaction_id <- select transactions_seq ;;
     matches <- (if (transaction_type =? "debit")%string
                 then find_matching_transactions amount date 5
                 else dret []) ;;
     conn_commit ;;;
     dret (transaction_id, matches))
    (fun e => conn_rollback ;;; draise e).

(** [SELECT source FROM transactions WHERE id = ?], [fetchone()]. *)
Definition source_of (transaction_id : Z) (t : tables) : option string :=
  option_map row_source
    (List.find (fun r => row_id r =? transaction_id) (transactions t)).

(** [DELETE FROM validated_expenses WHERE manual_transaction_id = ?] *)
Definition delete_validations (transaction_id : Z) (t : tables) : outcome tables :=
  Ret (mktables (transactions t)
         (List.filter (fun v => negb (manual_transaction_id v =? transaction_id))
                      (validated_expenses t))
         (transactions_seq t) (validated_expenses_seq t)).

(** [DELETE FROM transactions WHERE id = ? AND source = 'manual'] *)
Definition delete_transaction (transaction_id : Z) (t : tables) : outcome tables :=
  Ret (mktables
         (List.filter (fun r => negb ((row_id r =? transaction_id) &&
                                      (row_source r =? "manual")%string))
                      (transactions t))
         (validated_expenses t) (transactions_seq t) (validated_expenses_seq t)).

(** [delete_manual_transaction(transaction_id)] *)
Definition delete_manual_transaction (transaction_id : Z) : db (bool * string) :=
  try_except
    (result <- select (source_of transaction_id) ;;
     let not_manual :=
       match result with
       | None => true                                (* not result *)
       | Some source => negb (source =? "manual")%string
       end in
     if not_manual
     then draise (ValueError "Only manually entered transactions can be deleted")
     else
       execute_begin ;;;
       execute_dml (delete_validations transaction_id) ;;;
       execute_dml (delete_transaction transaction_id) ;;;
       execute_commit ;;;
       dret (true, "Transaction deleted successfully"))
    (fun e => execute_rollback ;;;
              dret (false, "Error deleting transaction: " ++ exn_str e)).

(** The operations the user interface calls. *)
Inductive operation : Type :=
| Ingest (file : statement_file)
| AddManual (date description : string) (amount : Q) (category : option string)
            (transaction_type : string) (reference_no : option string)
| FindMatches (amount : Q) (date : string) (tolerance_days : Z)
| Validate (manual_id : Z) (bank_id : option Z) (accepted : bool)
| DeleteManual (transaction_id : Z).

(** The connection after an operation, whatever it returned or raised. *)
Definition step (c : connection) (o : operation) : connection :=
  match o with
  | Ingest file => snd (process_bank_statement file c)
  | AddManual d s a cat ty ref => snd (add_manual_transaction d s a cat ty ref c)
  | FindMatches a d tol => snd (find_matching_transactions a d tol c)
  | Validate m b acc => snd (validate_expense m b acc c)
  | DeleteManual id => snd (delete_manual_transaction id c)
  end.

Definition run (ops : list operation) (c : connection) : connection :=
  fold_left step ops c.

(** The connection [__init__] opens on a new database file. *)
Definition fresh : connection := mkconn (mktables [] [] 0 0) None.

(** The stores the public operations can reach. *)
Definition reachable (c : connection) : Prop := exists ops, c = run ops fresh.

End BudgetTracker.

(* ===================================================================== *)
(** ** The operations as the specification words them *)
(* ===================================================================== *)

Module Spec.

Import PyStr BankStatementParser.

(** Amount cleaning in the specification's words: every character of the
    cell's text that is not a digit or a decimal point is stripped, the
    rest is read as a decimal, and what cannot be read (or is empty)
    is 0. *)
Definition cleaned_amount (c : cell) : Q :=
  match float_of_digits (filter amount_char (cell_str c)) with
  | Some q => q
  | None => 0%Q
  end.

(** A row contains a label with the keyword [k], whatever the case. *)
Definition has_label (k : string) (r : row) : bool :=
  existsb (fun x => contains k (lower (cell_str x))) r.

(** The header test in the specification's words: a date-like label, a
    narration label and one of withdrawal and debit. *)
Definition qualifies (r : row) : bool :=
  has_label "date" r && has_label "narration" r &&
  (has_label "withdrawal" r || has_label "debit" r).

(** The rule that gives a transaction its kind and its amount from the
    cleaned withdrawal and deposit amounts of its row. *)
Definition amount_rule (withdrawal deposit : Q) (t : transaction) : Prop :=
  (type t = debit <-> (0 < withdrawal)%Q) /\
  (type t = debit \/ type t = credit) /\
  ((0 < withdrawal)%Q -> amount t = withdrawal) /\
  (~ (0 < withdrawal)%Q -> amount t = deposit).

(** The cell is a number below zero. *)
Definition negative_number (c : cell) : bool :=
  match c with
  | CInt n => n <? 0
  | CFloat v _ => negb (Qle_bool 0 v)
  | _ => false
  end.

(** What a transaction holds apart from its description. *)
Definition core (t : transaction) : datetime * string * kind * Q * Q :=
  (date t, reference t, type t, amount t, balance t).

(** The statement-summary marker in a text, whatever the case. *)
Definition has_summary_marker (s : string) : bool :=
  contains "statement summary" (lower s).

(** A persisted row is identical to a parsed transaction in date,
    description, amount and kind. *)
Definition same_key (tx : transaction) (r : transaction_row) : Prop :=
  row_date r = BudgetTracker.strftime (date tx) /\
  row_description r = description tx /\
  (row_amount r == amount tx)%Q /\
  row_type r = BudgetTracker.type_str (type tx).

(** The row [process_bank_statement] inserts for a parsed transaction when
    [seq] is the largest id given out so far. *)
Definition bank_row (seq : Z) (tx : transaction) : transaction_row :=
  mkrow (seq + 1) (BudgetTracker.strftime (date tx)) (description tx)
        (Some (reference tx)) (BudgetTracker.type_str (type tx)) (amount tx)
        (balance tx) None "bank_statement".

(** Every validation row that refers to a bank row is an accepted one. *)
Definition accepted_only (t : tables) : Prop :=
  forall v b,
    In v (validated_expenses t) -> bank_transaction_id v = Some b ->
    is_validated v = true.

(** The tables after both deletions of [delete_manual_transaction]. *)
Definition without_manual (transaction_id : Z) (t : tables) : tables :=
  mktables
    (List.filter (fun r => negb ((row_id r =? transaction_id) &&
                                 (row_source r =? "manual")%string))
                 (transactions t))
    (List.filter (fun v => negb (manual_transaction_id v =? transaction_id))
                 (validated_expenses t))
    (transactions_seq t) (validated_expenses_seq t).

End Spec.

(* ===================================================================== *)
(** ** Example documents and stores *)
(* ===================================================================== *)

Module Examples.

Import BankStatementParser BudgetTracker.

(** A title line, as a statement carries above its table. *)
Definition title_row : row :=
  [CStr "Statement of account"; CNaN; CNaN; CNaN; CNaN; CNaN].

(** The rows of the specification's example, as written there. *)
Definition spec_rows : list row :=
  [ [CStr "Date"; CStr "Narration"; CStr "Withdrawal"; CStr "Deposit"; CStr "Balance"];
    [CStr "01/02/24"; CStr "Rent"; CInt 1000; CInt 0; CInt 5000];
    [CStr ""; CStr "(cont'd) paid late"; CInt 0; CInt 0; CInt 5000] ].

(** The same rows with the empty date cell as pandas reads it (NaN). *)
Definition spec_rows_nan : list row :=
  [ [CStr "Date"; CStr "Narration"; CStr "Withdrawal"; CStr "Deposit"; CStr "Balance"];
    [CStr "01/02/24"; CStr "Rent"; CInt 1000; CInt 0; CInt 5000];
    [CNaN; CStr "(cont'd) paid late"; CInt 0; CInt 0; CInt 5000] ].

(** The example with the cheque/reference column of a statement. *)
Definition rows_with_reference : list row :=
  [ [CStr "Date"; CStr "Narration"; CStr "Chq./Ref.No."; CStr "Withdrawal";
     CStr "Deposit"; CStr "Balance"];
    [CStr "01/02/24"; CStr "Rent"; CStr "REF1"; CInt 1000; CInt 0; CInt 5000];
    [CNaN; CStr "(cont'd) paid late"; CNaN; CInt 0; CInt 0; CInt 5000] ].

Definition reference_columns : columns := mkcolumns 0 1 2 3 4 5.

(** A statement with a negative number in the deposit cell. *)
Definition negative_deposit_rows : list row :=
  [ [CStr "Date"; CStr "Narration"; CStr "Chq./Ref.No."; CStr "Withdrawal";
     CStr "Deposit"; CStr "Balance"];
    [CStr "01/02/24"; CStr "Reversal"; CStr "REF2"; CInt 0; CInt (-50); CInt 4950] ].

Definition pdf_header : pdf_row :=
  [Some "Date"; Some "Narration"; Some "Chq./Ref.No."; Some "Value Dt";
   Some "Withdrawal Amt."; Some "Deposit Amt."; Some "Closing Balance"].

Definition pdf_summary_row : pdf_row :=
  [Some "31/01/24"; Some "STATEMENT SUMMARY"; None; None; None; None; None].

Definition pdf_rent_row : pdf_row :=
  [Some "01/02/24"; Some "Rent"; Some "REF1"; Some "01/02/24";
   Some "1,000.00"; None; Some "5,000.00"].

(** A table with a dated row below a statement-summary row. *)
Definition pdf_summary_table : pdf_table :=
  [pdf_header; pdf_summary_row; pdf_rent_row].

Definition rent_sheet : transaction :=
  {| date := midnight 2024 2 1; description := "Rent"; reference := "REF1";
     type := debit; amount := 1000%Q; balance := 5000%Q |}.

Definition reversal : transaction :=
  {| date := midnight 2024 2 1; description := "Reversal"; reference := "REF2";
     type := credit; amount := (-50)%Q; balance := 4950%Q |}.

Definition rent : transaction :=
  {| date := midnight 2024 2 1; description := "Rent"; reference := "REF1";
     type := debit; amount := 1000.00%Q; balance := 5000.00%Q |}.

(** The store after the example statement, a sheet with the title line
    above the table, was ingested: one bank row, with id 1. *)
Definition ingested : connection :=
  run [Ingest (ExcelFile (title_row :: rows_with_reference))] fresh.

(** Then a manual expense (id 2) is entered and matched with the bank
    row. *)
Definition reconciled : connection :=
  run [AddManual "2024-02-03" "Rent" 1000 None "debit" None;
       Validate 2 (Some 1) true] ingested.

(** The manual expense was declined instead. *)
Definition declined : connection :=
  run [AddManual "2024-02-03" "Rent" 1000 None "debit" None;
       Validate 2 None false] ingested.

(** A statement with the rent debited twice, on two days. *)
Definition two_rent_rows : list row :=
  [ [CStr "Date"; CStr "Narration"; CStr "Chq./Ref.No."; CStr "Withdrawal";
     CStr "Deposit"; CStr "Balance"];
    [CStr "01/02/24"; CStr "Rent"; CStr "REF1"; CInt 1000; CInt 0; CInt 5000];
    [CStr "02/02/24"; CStr "Rent"; CStr "REF3"; CInt 1000; CInt 0; CInt 4000] ].

(** Bank rows 1 and 2 and the manual expense 3. *)
Definition two_rents : connection :=
  run [Ingest (ExcelFile (title_row :: two_rent_rows));
       AddManual "2024-02-03" "Rent" 1000 None "debit" None] fresh.

Definition second_rent_row : transaction_row :=
  mkrow 2 "2024-02-02" "Rent" (Some "REF3") "debit" 1000 4000 None "bank_statement".

Definition bank_rent_row : transaction_row :=
  mkrow 1 "2024-02-01" "Rent" (Some "REF1") "debit" 1000 5000 None "bank_statement".

End Examples.

(* ===================================================================== *)
(** ** SQLite: the values of the column [date] *)
(* ===================================================================== *)

(** The column [date] is declared [DATE], which gives it NUMERIC
    affinity: a text that is a number is stored as that number, any other
    text as the text, and a text compared with the column is converted in
    the same way first.  Numbers sort before texts, numbers by their
    value, texts byte by byte. *)
Module Sqlite.

(** A number as SQLite holds it: an integer or a double, which may be
    infinite. *)
Inductive number : Type :=
| NegInf
| Finite (q : Q)
| PosInf.

Definition number_compare (a b : number) : comparison :=
  match a, b with
  | NegInf, NegInf => Eq
  | NegInf, _ => Lt
  | Finite _, NegInf => Gt
  | Finite x, Finite y => Qcompare x y
  | Finite _, PosInf => Lt
  | PosInf, PosInf => Eq
  | PosInf, _ => Gt
  end.

(** What the column holds for a text. *)
Inductive value : Type :=
| VNumber (n : number)
| VText (s : string).

Definition value_compare (a b : value) : comparison :=
  match a, b with
  | VNumber x, VNumber y => number_compare x y
  | VNumber _, VText _ => Lt
  | VText _, VNumber _ => Gt
  | VText s, VText t => String.compare s t
  end.

Section Affinity.

(** The conversion SQLite applies to a text under NUMERIC affinity: the
    number the text is converted to, or [None] when the text stays a
    text.  It is SQLite's own (which texts are numbers, and how a decimal
    is rounded to a double, is its business); the statements below hold
    whatever it is, some of them given that it keeps the ISO text of a
    date as text. *)
Variable numeric : string -> option number.

Definition stored (s : string) : value :=
  match numeric s with
  | Some n => VNumber n
  | None => VText s
  end.

(** [a <= b], for a value of the column and a text parameter, either
    way round. *)
Definition le (a b : string) : bool :=
  match value_compare (stored a) (stored b) with
  | Gt => false
  | _ => true
  end.

End Affinity.

(** The ISO text of a date is not a number: it is kept as text. *)
Definition keeps_iso_dates (numeric : string -> option number) : Prop :=
  forall y m d, numeric (BudgetTracker.strftime_ymd y m d) = None.

(** For the examples: a conversion that takes the texts made of digits
    for the numbers they write and keeps every other text (SQLite's
    conversion does the same with these texts, and converts more). *)
Definition plain_integer (s : string) : option number :=
  if PyStr.nonempty s && PyStr.all_digits s
  then Some (Finite (PyStr.digits_val 0 s # 1))
  else None.

(** For the examples: sums added exactly (as SQLite's are for whole
    amounts of moderate size). *)
Definition exact_sum (l : list Q) : outcome number :=
  Ret (Finite (fold_right Qplus 0%Q l)).

End Sqlite.

(* ===================================================================== *)
(** ** BudgetTracker: the read-only queries *)
(* ===================================================================== *)

Module Reports.

Import PyStr BankStatementParser BudgetTracker.

Section Queries.

(** SQLite's conversion of a text of the column [date] to a number. *)
Variable numeric : string -> option Sqlite.number.

(** [float(SUM(x))] as SQLite and Python compute it for the values [x] of
    one or more rows, in the order of the rows: whole numbers within 64
    bits are added as integers, an overflow of which is an
    [OperationalError]; otherwise doubles are added, with their
    rounding. *)
Variable float_sum : list Q -> outcome Sqlite.number.

(** The value the column [date] holds for a row. *)
Definition date_value (r : transaction_row) : Sqlite.value :=
  Sqlite.stored numeric (row_date r).

(** [ORDER BY date DESC, id DESC]: the row [a] is not after the row [b]. *)
Definition comes_first (a b : transaction_row) : bool :=
  match Sqlite.value_compare (date_value a) (date_value b) with
  | Gt => true
  | Lt => false
  | Eq => row_id b <=? row_id a
  end.

Fixpoint insert_row (r : transaction_row) (l : list transaction_row)
  : list transaction_row :=
  match l with
  | [] => [r]
  | x :: rest => if comes_first r x then r :: l else x :: insert_row r rest
  end.

(** The rows in the order of [ORDER BY date DESC, id DESC]. *)
Definition order_rows (l : list transaction_row) : list transaction_row :=
  fold_right insert_row [] l.

(** An optional parameter that passes the test [if param:]: a text given
    and not empty. *)
Definition given (param : option string) : option string :=
  match param with
  | Some s => if nonempty s then Some s else None
  | None => None
  end.

(** The WHERE clause [get_transactions] builds: one condition for each
    parameter given. *)
Definition transactions_where (start_date end_date category transaction_type
  : option string) (r : transaction_row) : bool :=
  match given start_date with
  | Some s => Sqlite.le numeric s (row_date r)        (* date >= ? *)
  | None => true
  end &&
  match given end_date with
  | Some e => Sqlite.le numeric (row_date r) e        (* date <= ? *)
  | None => true
  end &&
  match given category with
  | Some k => match row_category r with               (* category = ? *)
              | Some c => (c =? k)%string
              | None => false
              end
  | None => true
  end &&
  match given transaction_type with
  | Some ty => (row_type r =? ty)%string              (* type = ? *)
  | None => true
  end.

(** A row as [fetchall()] gives it: the value the column [date] holds,
    and the other columns as they were inserted. *)
Definition fetched (r : transaction_row) : Sqlite.value * transaction_row :=
  (date_value r, r).

(** [get_transactions(start_date, end_date, category, transaction_type)];
    a date given as a [date] object reaches SQLite as its ISO text. *)
Definition get_transactions (start_date end_date category transaction_type
  : option string) : db (list (Sqlite.value * transaction_row)) :=
  select (fun t =>
    map fetched
      (order_rows
         (List.filter
            (transactions_where start_date end_date category transaction_type)
            (transactions t)))).

(** [date BETWEEN ? AND ?] *)
Definition between (start_date end_date : string) (r : transaction_row) : bool :=
  Sqlite.le numeric start_date (row_date r) &&
  Sqlite.le numeric (row_date r) end_date.

(** The values of [CASE WHEN type = ty THEN amount ELSE 0 END]. *)
Definition amounts_of_type (ty : string) (l : list transaction_row) : list Q :=
  map (fun r => if (row_type r =? ty)%string then row_amount r else 0%Q) l.

(** [float(COALESCE(SUM(CASE WHEN type = ty THEN amount ELSE 0 END), 0)
    or 0)]: without rows the sum is NULL. *)
Definition sum_of_type (ty : string) (l : list transaction_row)
  : outcome Sqlite.number :=
  match l with
  | [] => Ret (Sqlite.Finite 0)
  | _ => float_sum (amounts_of_type ty l)
  end.

(** The rows dated [end_date] or before. *)
Definition dates_up_to (end_date : string) (t : tables) : list transaction_row :=
  List.filter (fun r => Sqlite.le numeric (row_date r) end_date) (transactions t).

(** [SELECT balance FROM transactions WHERE date <= ? ORDER BY date DESC,
    id DESC LIMIT 1], with [COALESCE(..., 0)]. *)
Definition closing_balance (end_date : string) (t : tables) : Q :=
  match order_rows (dates_up_to end_date t) with
  | r :: _ => row_balance r
  | [] => 0%Q
  end.

(** [d.isoformat()], the text SQLite receives for a [date] parameter. *)
Definition isoformat (d : Z * Z * Z) : string :=
  let '(y, m, dd) := d in strftime_ymd y m dd.

(** [get_transaction_summary(start_date, end_date)] for dates given as
    [date] objects; [today] is [datetime.now().date()].  The result is
    (number of transactions, total debits, total credits, closing
    balance); an error of the query leaves the function. *)
Definition get_transaction_summary (today : Z * Z * Z)
  (start_date end_date : option (Z * Z * Z))
  : db (Z * Sqlite.number * Sqlite.number * Q) :=
  let end_date := match end_date with Some d => d | None => today end in
  match (match start_date with
         | Some d => Ret (isoformat d)
         | None => shifted_date end_date (-30)
         end) with
  | Raise e => draise e
  | Ret start_text =>
      let end_text := isoformat end_date in
      fun c =>
        let rows := List.filter (between start_text end_text)
                                (transactions (view c)) in
        match sum_of_type "debit" rows with
        | Raise e => (Raise e, c)
        | Ret debits =>
            match sum_of_type "credit" rows with
            | Raise e => (Raise e, c)
            | Ret credits =>
                (Ret (Z.of_nat (List.length rows), debits, credits,
                      closing_balance end_text (view c)), c)
            end
        end
  end.

End Queries.

End Reports.

(* ===================================================================== *)
(** ** BudgetTracker.setup_database: the default categories *)
(* ===================================================================== *)

Module Categories.

(** A row of the table [categories] (without its timestamp). *)
Record category_row : Type := mkcategory {
  category_id : Z;
  category_name : string;
  category_type : string;
  category_description : string
}.

(** The table and its AUTOINCREMENT counter. *)
Record category_table : Type := mkcategories {
  categories : list category_row;
  categories_seq : Z
}.

Definition default_categories : list (string * string * string) :=
  [ ("Salary", "income", "Regular salary income");
    ("Sales Revenue", "income", "Income from sales");
    ("Office Supplies", "expense", "Office supplies and stationery");
    ("Utilities", "expense", "Electricity, water, internet, etc.");
    ("Marketing", "expense", "Marketing and advertising expenses");
    ("Travel", "expense", "Business travel expenses");
    ("Transfer", "transfer", "Internal transfers");
    ("Other", "expense", "Miscellaneous expenses") ].

(** [INSERT OR IGNORE INTO categories (name, type, description)]: a row
    whose name is taken (UNIQUE) or whose type fails the CHECK is skipped.
    The id of the row is taken from the AUTOINCREMENT counter before the
    constraints are checked: the counter advances for a skipped row too. *)
Definition insert_or_ignore (t : category_table) (c : string * string * string)
  : category_table :=
  let '(name, type, description) := c in
  let id := categories_seq t + 1 in
  if existsb (fun r => (category_name r =? name)%string) (categories t)
  then mkcategories (categories t) id
  else if (type =? "expense")%string || (type =? "income")%string ||
          (type =? "transfer")%string
  then mkcategories (categories t ++ [mkcategory id name type description]) id
  else mkcategories (categories t) id.

(** The names in the table. *)
Definition names (t : category_table) : list string :=
  map category_name (categories t).

(** The [executemany] of [setup_database] on the table [categories]. *)
Definition seed_categories (t : category_table) : category_table :=
  fold_left insert_or_ignore default_categories t.

End Categories.

(* ===================================================================== *)
(** ** Calendar dates and their ISO texts *)
(* ===================================================================== *)

Module Calendar.

Import BudgetTracker.

(** The character of the decimal digit [k]. *)
Definition digit_char (k : Z) : ascii := ascii_of_N (48 + Z.to_N k).

(** A number below 100 written with two digits. *)
Definition two_digits (n : Z) : string :=
  String (digit_char (n / 10)) (String (digit_char (n mod 10)) "").

(** A number below 10000 written with four digits. *)
Definition four_digits (n : Z) : string :=
  String (digit_char (n / 1000))
    (String (digit_char (n / 100 mod 10))
       (String (digit_char (n / 10 mod 10))
          (String (digit_char (n mod 10)) ""))).

(** A month and a day of it, in the year [y]. *)
Definition valid_day (y m d : Z) : Prop :=
  1 <= m <= 12 /\ 1 <= d <= days_in_month y m.

(** [d.toordinal()] of a date given as (year, month, day). *)
Definition ordinal (d : Z * Z * Z) : Z :=
  let '(y, m, dd) := d in toordinal y m dd.

(** The order of dates: by year, then month, then day. *)
Definition date_compare (a b : Z * Z * Z) : comparison :=
  let '(y1, m1, d1) := a in
  let '(y2, m2, d2) := b in
  match y1 ?= y2 with
  | Eq => match m1 ?= m2 with
          | Eq => d1 ?= d2
          | c => c
          end
  | c => c
  end.

(** [f] holds of the [n] numbers from [start] on. *)
Fixpoint all_from (f : Z -> bool) (start : Z) (n : nat) : bool :=
  match n with
  | O => true
  | S k => f start && all_from f (start + 1) k
  end.

(** The pieces of [toordinal] and [fromordinal]: the days of a period of
    400 years that come before its year [yoe] (years run from March), the
    year a day of the period falls in, a leap day as a number, and the
    days of a year before its month [m]. *)
Definition days_before (yoe : Z) : Z := yoe * 365 + yoe / 4 - yoe / 100.

Definition year_of_era (doe : Z) : Z :=
  (doe - doe / 1460 + doe / 36524 - doe / 146096) / 365.

Definition leap_flag (y : Z) : Z := if is_leap y then 1 else 0.

Definition month_days (y m : Z) : Z :=
  if m <=? 2 then 31 * (m - 1)
  else 59 + leap_flag y + (153 * (m - 3) + 2) / 5.

(** Arithmetic with the divisions of the calendar written as equations. *)
Ltac dlia := Z.div_mod_to_equations; lia.

(** The twelve months, one by one. *)
Ltac month_cases m :=
  let Hc := fresh "Hc" in
  assert (Hc : m = 1 \/ m = 2 \/ m = 3 \/ m = 4 \/ m = 5 \/ m = 6 \/ m = 7 \/
               m = 8 \/ m = 9 \/ m = 10 \/ m = 11 \/ m = 12) by lia;
  repeat (destruct Hc as [Hc | Hc]); subst m.

(** The outcomes of the comparisons of the goal, the impossible ones
    closed. *)
Ltac split_tests :=
  repeat (match goal with
          | |- context [Z.leb ?a ?b] => destruct (Z.leb_spec a b)
          | |- context [Z.ltb ?a ?b] => destruct (Z.ltb_spec a b)
          | |- context [Z.eqb ?a ?b] => destruct (Z.eqb_spec a b)
          end; try (exfalso; lia)); cbn [orb andb negb].

End Calendar.


(* ===================================================================== *)
(** ** What the loops compute, row by row *)
(* ===================================================================== *)

Module Rowwise.

Import PyStr BankStatementParser BudgetTracker.

(** The narration of the sheet row holds the statement-summary marker. *)
Definition is_summary_row (cols : columns) (r : row) : bool :=
  contains "statement summary" (lower (cell_str (get r (narration_col cols)))).

(** The rows above the first summary row. *)
Fixpoint before_summary (cols : columns) (rows : list row) : list row :=
  match rows with
  | [] => []
  | r :: rest => if is_summary_row cols r then [] else r :: before_summary cols rest
  end.

(** The transaction of a sheet row taken alone: none when the date cell is
    empty or cannot be read. *)
Definition row_transaction (cols : columns) (r : row) : list transaction :=
  if isna (get r (date_col cols)) then []
  else match parse_date (get r (date_col cols)) with
       | Some date_obj => [make_transaction cols "" date_obj r]
       | None => []
       end.

(** A calendar date at midnight, in the years 1 to 9999. *)
Definition valid_date (dt : datetime) : Prop :=
  1 <= year dt <= 9999 /\ 1 <= month dt <= 12 /\
  1 <= day dt <= days_in_month (year dt) (month dt) /\
  hour dt = 0 /\ minute dt = 0 /\ second dt = 0.

(** The label of a column is a text that passes the test [p]. *)
Definition label_passes (p : string -> bool) (labels : list (option string))
  (i : nat) : Prop :=
  exists col, nth_error labels i = Some (Some col) /\ p (lower col) = true.

(** The label of a column is a text that fails the test [p]. *)
Definition label_fails (p : string -> bool) (labels : list (option string))
  (i : nat) : Prop :=
  exists col, nth_error labels i = Some (Some col) /\ p (lower col) = false.

(** The column [i] is the first, from the left, whose label passes [p]. *)
Definition first_label (p : string -> bool) (labels : list (option string))
  (i : nat) : Prop :=
  label_passes p labels i /\ forall j, (j < i)%nat -> label_fails p labels j.

(** No label of the header passes the test [p]. *)
Definition no_label (p : string -> bool) (labels : list (option string)) : Prop :=
  forall col, In (Some col) labels -> p (lower col) = false.

(** The rows of the store are well formed: ids are distinct, positive and
    at most the counter, kinds and sources are the ones the schema and the
    code allow. *)
Definition well_formed (t : tables) : Prop :=
  NoDup (map row_id (transactions t)) /\
  NoDup (map validation_id (validated_expenses t)) /\
  (forall r, In r (transactions t) ->
     1 <= row_id r <= transactions_seq t /\
     (row_type r = "debit" \/ row_type r = "credit") /\
     (row_source r = "manual" \/ row_source r = "bank_statement")) /\
  (forall v, In v (validated_expenses t) ->
     1 <= validation_id v <= validated_expenses_seq t) /\
  0 <= transactions_seq t /\ 0 <= validated_expenses_seq t.

(** The store with one more manual row. *)
Definition with_manual_row (date description : string) (amount : Q)
  (category : option string) (transaction_type : string)
  (reference_no : option string) (t : tables) : tables :=
  mktables
    (transactions t ++
       [mkrow (transactions_seq t + 1) date description reference_no
              transaction_type amount 0 category "manual"])
    (validated_expenses t) (transactions_seq t + 1) (validated_expenses_seq t).

End Rowwise.

(* ===================================================================== *)
(** ** Facts about the string functions *)
(* ===================================================================== *)

Module PyStrFacts.

Import PyStr.

Section Filter.

Variable p : ascii -> bool.
Hypothesis p_drops_space : forall c, isspace c = true -> p c = false.

Lemma filter_lstrip (s : string) : filter p (lstrip s) = filter p s.
Proof.
  induction s as [|c r IH]; simpl; [reflexivity|].
  destruct (isspace c) eqn:E.
  - rewrite (p_drops_space c E). exact IH.
  - reflexivity.
Qed.

Lemma filter_rstrip (s : string) : filter p (rstrip s) = filter p s.
Proof.
  induction s as [|c r IH]; simpl; [reflexivity|].
  destruct (rstrip r) as [|x y] eqn:R.
  - simpl in IH. rewrite <- IH.
    destruct (isspace c) eqn:E.
    + rewrite (p_drops_space c E). reflexivity.
    + simpl. destruct (p c); reflexivity.
  - change (filter p (String c (String x y)))
      with (if p c then String c (filter p (String x y)) else filter p (String x y)).
    rewrite IH. reflexivity.
Qed.

Lemma filter_strip (s : string) : filter p (strip s) = filter p s.
Proof. unfold strip. rewrite filter_rstrip. apply filter_lstrip. Qed.

End Filter.

Lemma all_digits_app (a b : string) :
  all_digits (a ++ b) = all_digits a && all_digits b.
Proof.
  induction a as [|c r IH]; simpl; [reflexivity|].
  rewrite IH. apply andb_assoc.
Qed.

Lemma isdigit_val (c : ascii) :
  isdigit c = true -> 0 <= Z.of_N (N_of_ascii c) - 48 <= 9.
Proof.
  unfold isdigit. intros H. apply andb_prop in H. destruct H as [H1 H2].
  apply N.leb_le in H1. apply N.leb_le in H2. lia.
Qed.

Lemma digits_val_nonneg (s : string) :
  forall acc, 0 <= acc -> all_digits s = true -> 0 <= digits_val acc s.
Proof.
  induction s as [|c r IH]; cbn [digits_val all_digits]; intros acc Hacc H;
    [exact Hacc|].
  apply andb_prop in H. destruct H as [Hc Hr].
  apply IH; [|exact Hr]. pose proof (isdigit_val c Hc). lia.
Qed.

(** What [float] reads from digits and points is never negative. *)
Lemma float_of_digits_nonneg (s : string) (q : Q) :
  float_of_digits s = Some q -> (0 <= q)%Q.
Proof.
  unfold float_of_digits. destruct (split_dot s) as [ip [fp|]].
  - destruct (all_digits ip && all_digits fp && (nonempty ip || nonempty fp)) eqn:E;
      [|discriminate].
    intros H. injection H as <-.
    apply andb_prop in E. destruct E as [E _].
    unfold Qle. simpl. rewrite Z.mul_1_r.
    apply digits_val_nonneg; [lia|]. rewrite all_digits_app. exact E.
  - destruct (all_digits ip && nonempty ip) eqn:E; [|discriminate].
    intros H. injection H as <-.
    apply andb_prop in E. destruct E as [E _].
    unfold Qle. simpl. rewrite Z.mul_1_r.
    apply digits_val_nonneg; [lia|exact E].
Qed.

Lemma prefix_app_sep (k : string) (c : ascii) :
  forall a b, existsb (Ascii.eqb c) (list_ascii_of_string k) = false ->
  String.prefix k (a ++ String c b) = String.prefix k a.
Proof.
  induction k as [|k0 k' IH]; intros a b H.
  - destruct a; reflexivity.
  - simpl in H. apply orb_false_elim in H. destruct H as [H0 H'].
    destruct a as [|x a']; simpl.
    + destruct (ascii_dec k0 c) as [->|_]; [|reflexivity].
      rewrite Ascii.eqb_refl in H0. discriminate.
    + destruct (ascii_dec k0 x); [|reflexivity]. apply IH. exact H'.
Qed.

(** A keyword without the separator [c] occurs in [a ++ c ++ b] exactly
    when it occurs in [a] or in [b]. *)
Lemma contains_app_sep (k : string) (c : ascii) (a b : string) :
  nonempty k = true ->
  existsb (Ascii.eqb c) (list_ascii_of_string k) = false ->
  contains k (a ++ String c b) = contains k a || contains k b.
Proof.
  intros Hk Hc. induction a as [|x a' IH].
  - simpl (EmptyString ++ _). 
    change (contains k (String c b))
      with (String.prefix k (String c b) || contains k b).
    replace (String.prefix k (String c b)) with (String.prefix k EmptyString)
      by (symmetry; apply (prefix_app_sep k c EmptyString b Hc)).
    destruct k; [discriminate|]. reflexivity.
  - change (contains k (String x a' ++ String c b))
      with (String.prefix k (String x a' ++ String c b)
            || contains k (a' ++ String c b)).
    rewrite IH. rewrite (prefix_app_sep k c (String x a') b Hc).
    change (contains k (String x a'))
      with (String.prefix k (String x a') || contains k a').
    rewrite orb_assoc. reflexivity.
Qed.

(** A keyword without blanks occurs in [' '.join(l)] exactly when it occurs
    in one of the texts joined. *)
Lemma contains_join (k : string) (l : list string) :
  nonempty k = true ->
  existsb (Ascii.eqb " ") (list_ascii_of_string k) = false ->
  contains k (join " " l) = existsb (contains k) l.
Proof.
  intros Hk Hc. unfold join. induction l as [|x l IH].
  - destruct k; [discriminate|]. reflexivity.
  - destruct l as [|y l'].
    + simpl. rewrite orb_false_r. reflexivity.
    + change (String.concat " " (x :: y :: l'))
        with (x ++ String " " (String.concat " " (y :: l'))).
      rewrite (contains_app_sep k " " x _ Hk Hc). rewrite IH. reflexivity.
Qed.

Lemma lower_app (a b : string) : lower (a ++ b) = lower a ++ lower b.
Proof. induction a as [|c r IH]; simpl; [reflexivity|]. rewrite IH. reflexivity. Qed.

Lemma prefix_app_l (k : string) :
  forall a b, String.prefix k a = true -> String.prefix k (a ++ b) = true.
Proof.
  induction k as [|k0 k' IH]; intros a b H.
  - destruct (a ++ b); reflexivity.
  - destruct a as [|x a']; simpl in *; [discriminate|].
    destruct (ascii_dec k0 x); [|discriminate]. apply IH. exact H.
Qed.

Lemma contains_app_l (k a b : string) :
  contains k a = true -> contains k (a ++ b) = true.
Proof.
  induction a as [|x a' IH]; intros H.
  - destruct k; [destruct b; reflexivity|discriminate].
  - change (String.prefix k (String x a') || contains k a' = true) in H.
    change (String.prefix k (String x a' ++ b) || contains k (a' ++ b) = true).
    apply orb_true_iff in H. apply orb_true_iff. destruct H as [H|H].
    + left. apply prefix_app_l. exact H.
    + right. apply IH. exact H.
Qed.

Lemma contains_app_r (k a b : string) :
  contains k b = true -> contains k (a ++ b) = true.
Proof.
  intros H. induction a as [|x a' IH]; [exact H|].
  change (String.prefix k (String x a' ++ b) || contains k (a' ++ b) = true).
  rewrite IH. apply orb_true_r.
Qed.

(** A text that occurs (in lower case) in one of the texts joined occurs
    in the lower-cased joined text. *)
Lemma contains_lower_join (k sep : string) (l : list string) (x : string) :
  In x l -> contains k (lower x) = true ->
  contains k (lower (join sep l)) = true.
Proof.
  unfold join. induction l as [|y l IH]; intros Hin Hx; [contradiction|].
  destruct l as [|z l'].
  - destruct Hin as [->|[]]. exact Hx.
  - change (String.concat sep (y :: z :: l'))
      with (y ++ sep ++ String.concat sep (z :: l')).
    rewrite lower_app. destruct Hin as [->|Hin].
    + apply contains_app_l. exact Hx.
    + apply contains_app_r. rewrite lower_app. apply contains_app_r.
      apply IH; assumption.
Qed.

End PyStrFacts.

(* ===================================================================== *)
(** ** clean_amount *)
(* ===================================================================== *)

Module CleanAmount.

Import PyStr BankStatementParser PyStrFacts.

Lemma isspace_not_amount_char (c : ascii) :
  isspace c = true -> amount_char c = false.
Proof.
  destruct c as [[] [] [] [] [] [] [] []]; intros H; vm_compute in H |- *;
    first [reflexivity | discriminate H].
Qed.

(** The text path of the cleaner (strip, filter, [float], 0.0 on an empty
    rest or on [ValueError]) reads the text as the specification says. *)
Lemma text_path (t : string) :
  match
    (let s := filter amount_char (strip t) in
     if nonempty s then
       match float_of_digits s with
       | Some q => Ret q
       | None => Raise (ValueError ("could not convert string to float: '" ++ s ++ "'"))
       end
     else Ret 0%Q)
  with
  | Ret q => q
  | Raise _ => 0%Q
  end
  = match float_of_digits (filter amount_char t) with
    | Some q => q
    | None => 0%Q
    end.
Proof.
  cbv zeta. rewrite (filter_strip amount_char isspace_not_amount_char).
  destruct (filter amount_char t) as [|c r] eqn:F.
  - reflexivity.
  - cbn [nonempty]. destruct (float_of_digits (String c r)); reflexivity.
Qed.

Lemma clean_amount_str (s : string) :
  clean_amount (CStr s) = Spec.cleaned_amount (CStr s).
Proof.
  destruct s as [|c r]; [reflexivity|].
  exact (text_path (String c r)).
Qed.

Lemma clean_amount_datetime (dt : datetime) :
  clean_amount (CDateTime dt) = Spec.cleaned_amount (CDateTime dt).
Proof. exact (text_path (datetime_str dt)). Qed.

Lemma clean_amount_str_nonneg (s : string) : (0 <= clean_amount (CStr s))%Q.
Proof.
  rewrite clean_amount_str. unfold Spec.cleaned_amount.
  destruct (float_of_digits _) as [q|] eqn:E.
  - exact (float_of_digits_nonneg _ _ E).
  - apply Qle_refl.
Qed.

Lemma cleaned_amount_nonneg (c : cell) : (0 <= Spec.cleaned_amount c)%Q.
Proof.
  unfold Spec.cleaned_amount.
  destruct (float_of_digits _) as [q|] eqn:E.
  - exact (float_of_digits_nonneg _ _ E).
  - apply Qle_refl.
Qed.

(* --------------------------------------------------------------------- *)
(** *** [float] of an [int] *)

(** An [int] of up to 53 bits (and the power 2^53) is a double. *)
Lemma float_of_int_small (n : Z) :
  Z.abs n <= 2 ^ 53 -> float_of_int n = Ret (n # 1).
Proof.
  intros H. unfold float_of_int. cbv zeta.
  destruct (Z.eq_dec (Z.abs n) (2 ^ 53)) as [E|N].
  - destruct (Z.abs_spec n) as [[_ A]|[_ A]]; rewrite A in E.
    + subst n. reflexivity.
    + assert (n = - 2 ^ 53) by lia. subst n. reflexivity.
  - assert (L : Z.log2 (Z.abs n) < 53).
    { destruct (Z.eq_dec (Z.abs n) 0) as [Z0|NZ].
      - rewrite Z0. cbn. lia.
      - apply Z.log2_lt_pow2; lia. }
    destruct (Z.leb_spec (Z.log2 (Z.abs n) - 52) 0); [reflexivity|lia].
Qed.

(** The shape of the conversion of a larger [int]: a mantissa [m] of 53
    bits at the exponent [e], at most half a unit of [e] away. *)
Lemma float_of_int_large (n : Z) :
  2 ^ 53 < Z.abs n ->
  exists e m,
    0 < e /\ e = Z.log2 (Z.abs n) - 52 /\ 2 ^ 52 <= m <= 2 ^ 53 /\
    2 * Z.abs (m * 2 ^ e - Z.abs n) <= 2 ^ e /\
    2 ^ (e + 52) <= Z.abs n < 2 ^ (e + 53) /\
    (m = 2 ^ 53 <-> 2^(e + 53) - 2 ^ (e - 1) <= Z.abs n) /\
    float_of_int n =
      if 2 ^ 1024 <=? m * 2 ^ e
      then Raise (OverflowError "int too large to convert to float")
      else Ret (Z.sgn n * (m * 2 ^ e) # 1).
Proof.
  intros H. set (a := Z.abs n) in *.
  assert (Ha : 0 < a) by lia.
  assert (L : 53 <= Z.log2 a).
  { apply Z.log2_le_pow2; [lia|]. lia. }
  set (e := Z.log2 a - 52).
  assert (He : 0 < e) by (subst e; lia).
  destruct (Z.log2_spec a Ha) as [Lo Hi].
  replace (Z.log2 a) with (e + 52) in Lo by (subst e; lia).
  replace (Z.succ (Z.log2 a)) with (e + 53) in Hi by (subst e; lia).
  assert (P52 : 2 ^ (e + 52) = 2 ^ e * 2 ^ 52) by (apply Z.pow_add_r; lia).
  assert (P53 : 2 ^ (e + 53) = 2 ^ e * 2 ^ 53) by (apply Z.pow_add_r; lia).
  assert (PH : 2 ^ e = 2 * 2 ^ (e - 1)).
  { replace e with (1 + (e - 1)) at 1 by lia. rewrite Z.pow_add_r by lia. reflexivity. }
  assert (Hpos : 0 < 2 ^ (e - 1)) by (apply Z.pow_pos_nonneg; lia).
  set (P := 2 ^ e) in *. set (Hf := 2 ^ (e - 1)) in *.
  pose proof (Z.div_mod a P ltac:(lia)) as DM.
  pose proof (Z.mod_pos_bound a P ltac:(lia)) as MB.
  set (q := a / P) in *. set (r := a mod P) in *.
  assert (Q1 : 2 ^ 52 <= q < 2 ^ 53).
  { change (2 ^ 52) with 4503599627370496 in *. change (2 ^ 53) with 9007199254740992 in *. nia. }
  set (m := if (Hf <? r) || ((r =? Hf) && Z.odd q) then q + 1 else q).
  exists e, m.
  split; [exact He|]. split; [reflexivity|].
  assert (M : (m = q /\ r <= Hf /\ (r = Hf -> Z.odd q = false)) \/
              (m = q + 1 /\ Hf <= r /\ (r = Hf -> Z.odd q = true))).
  { subst m. destruct (Z.ltb_spec Hf r); cbn [orb].
    - right. split; [reflexivity|]. split; [lia|]. intros; lia.
    - destruct (Z.eqb_spec r Hf); cbn [andb].
      + destruct (Z.odd q) eqn:O.
        * right. split; [reflexivity|]. split; [lia|]. intros; reflexivity.
        * left. split; [reflexivity|]. split; [lia|]. intros; reflexivity.
      + left. split; [reflexivity|]. split; [lia|]. intros; lia. }
  split; [destruct M as [(-> & _)|(-> & _)]; lia|].
  split.
  { destruct M as [(-> & B & _)|(-> & B & _)]; nia. }
  split; [rewrite P52, P53; fold P; lia|].
  split.
  { rewrite P53. fold P Hf.
    change (2 ^ 53) with 9007199254740992 in *. change (2 ^ 52) with 4503599627370496 in *.
    destruct M as [(-> & B & O)|(-> & B & O)].
    - split; [lia|]. intros T.
      assert (Eq : q = 9007199254740991) by nia.
      assert (Er : r = Hf) by nia. specialize (O Er). rewrite Eq in O.
      discriminate O.
    - split; [intros; nia|]. intros T. nia. }
  unfold float_of_int. cbv zeta. fold a. fold e.
  destruct (Z.leb_spec e 0); [lia|]. fold P Hf q r. fold m. reflexivity.
Qed.

(** The conversion overflows exactly from 2^1024 - 2^970 on. *)
Lemma float_of_int_overflow (n : Z) :
  (exists msg, float_of_int n = Raise (OverflowError msg)) <->
  2 ^ 1024 - 2 ^ 970 <= Z.abs n.
Proof.
  assert (C : 2 ^ 53 < 2 ^ 1024 - 2 ^ 970) by (vm_compute; reflexivity).
  destruct (Z_le_gt_dec (Z.abs n) (2 ^ 53)) as [S|G].
  - rewrite (float_of_int_small n S). split; [intros (msg & D); discriminate D|lia].
  - destruct (float_of_int_large n ltac:(lia))
      as (e & m & He & _ & Hm & Hr & (Lo & Hi) & Htop & ->).
    assert (P52 : 2 ^ (e + 52) = 2 ^ e * 2 ^ 52) by (apply Z.pow_add_r; lia).
    assert (Ppos : 0 < 2 ^ e) by (apply Z.pow_pos_nonneg; lia).
    assert (C24 : 2 ^ 1024 = 2 ^ 1023 * 2) by reflexivity.
    assert (C23 : 2 ^ 1023 < 2 ^ 1024 - 2 ^ 970) by (vm_compute; reflexivity).
    destruct (Z.leb_spec (2 ^ 1024) (m * 2 ^ e)) as [O|O].
    + split; [intros _|intros _; eexists; reflexivity].
      destruct (Z_le_gt_dec 972 e) as [B|B].
      * pose proof (Z.pow_le_mono_r 2 1024 (e + 52) ltac:(lia) ltac:(lia)). lia.
      * pose proof (Z.pow_le_mono_r 2 (e - 1) 970 ltac:(lia) ltac:(lia)).
        assert (PH : 2 ^ e = 2 * 2 ^ (e - 1)).
        { replace e with (1 + (e - 1)) at 1 by lia.
          rewrite Z.pow_add_r by lia. reflexivity. }
        lia.
    + split; [intros (msg & D); discriminate D|]. intros T. exfalso.
      destruct (Z_le_gt_dec 972 e) as [B|B].
      * pose proof (Z.pow_le_mono_r 2 1024 (e + 52) ltac:(lia) ltac:(lia)). nia.
      * destruct (Z.eq_dec e 971) as [E|N].
        -- subst e. change (971 + 53) with 1024 in Htop. change (971 - 1) with 970 in Htop.
           apply Htop in T. subst m.
           change (2 ^ 53 * 2 ^ 971) with (2 ^ 1024) in O. lia.
        -- pose proof (Z.pow_le_mono_r 2 (e + 53) 1023 ltac:(lia) ltac:(lia)). lia.
Qed.

(** The double returned is a whole number of the sign of the [int], off
    by at most the fraction 2^-53 of it. *)
Lemma float_of_int_ret (n : Z) (q : Q) :
  float_of_int n = Ret q ->
  exists k, q = k # 1 /\ Z.sgn k = Z.sgn n /\ Z.abs (k - n) * 2 ^ 53 <= Z.abs n.
Proof.
  destruct (Z_le_gt_dec (Z.abs n) (2 ^ 53)) as [S|G].
  - rewrite (float_of_int_small n S). intros H. injection H as <-.
    exists n. split; [reflexivity|]. split; [reflexivity|].
    replace (n - n) with 0 by lia. cbn. lia.
  - destruct (float_of_int_large n ltac:(lia))
      as (e & m & He & _ & Hm & Hr & (Lo & Hi) & _ & ->).
    destruct (2 ^ 1024 <=? m * 2 ^ e); [discriminate|].
    intros H. injection H as <-.
    exists (Z.sgn n * (m * 2 ^ e)). split; [reflexivity|].
    assert (P52 : 2 ^ (e + 52) = 2 ^ e * 2 ^ 52) by (apply Z.pow_add_r; lia).
    assert (Ppos : 0 < 2 ^ e) by (apply Z.pow_pos_nonneg; lia).
    assert (Mpos : 0 < m * 2 ^ e) by nia.
    change (2 ^ 52) with 4503599627370496 in *.
    change (2 ^ 53) with 9007199254740992 in *.
    set (v := m * 2 ^ e) in *. set (P := 2 ^ e) in *.
    destruct (Z.sgn_spec n) as [(A & ->)|[(A & ->)|(A & ->)]].
    + split; [rewrite Z.mul_1_l; apply Z.sgn_pos; lia|]. lia.
    + lia.
    + split; [apply Z.sgn_neg; lia|]. lia.
Qed.

Lemma float_of_int_nonneg (n : Z) (q : Q) :
  float_of_int n = Ret q -> 0 <= n -> (0 <= q)%Q.
Proof.
  intros H N. destruct (float_of_int_ret n q H) as (k & -> & S & _).
  unfold Qle. cbn. rewrite Z.mul_1_r.
  destruct (Z.sgn_spec n) as [(A & E)|[(A & E)|(A & E)]]; rewrite E in S.
  - apply Z.sgn_pos_iff in S. lia.
  - apply Z.sgn_null_iff in S. lia.
  - lia.
Qed.

(** The cleaned amount is negative only for a negative number. *)
Lemma clean_amount_nonneg (c : cell) :
  Spec.negative_number c = false -> (0 <= clean_amount c)%Q.
Proof.
  destruct c as [ | | s | n | v r | dt]; intros H.
  - apply Qle_refl.
  - apply Qle_refl.
  - apply clean_amount_str_nonneg.
  - simpl in H. apply Z.ltb_ge in H.
    unfold clean_amount. cbn [clean_amount_body isna].
    destruct (float_of_int n) as [q|e] eqn:F; [|apply Qle_refl].
    exact (float_of_int_nonneg n q F H).
  - simpl in H. apply negb_false_iff in H. apply Qle_bool_iff in H. exact H.
  - rewrite clean_amount_datetime. apply cleaned_amount_nonneg.
Qed.

(** C8, as the specification states it, fails on a numeric cell: the
    number -5 is returned as it is, while stripping its text ["-5"] of
    everything but digits and points and reading the rest gives 5. *)
Lemma clean_amount_negative_number :
  clean_amount (CInt (-5)) = (-5)%Q /\
  Spec.cleaned_amount (CInt (-5)) = 5%Q /\
  ~ (clean_amount (CInt (-5)) == Spec.cleaned_amount (CInt (-5)))%Q.
Proof.
  split; [reflexivity|]. split; [reflexivity|].
  vm_compute. discriminate.
Qed.

Lemma float_of_int_raises (n : Z) (e : exn) :
  float_of_int n = Raise e -> exists msg, e = OverflowError msg.
Proof.
  unfold float_of_int. cbv zeta.
  destruct (_ <=? 0); [discriminate|].
  destruct (2 ^ 1024 <=? _); [|discriminate].
  intros H. injection H as <-. eexists. reflexivity.
Qed.

Lemma clean_amount_int_small (n : Z) :
  Z.abs n <= 2 ^ 53 -> clean_amount (CInt n) = inject_Z n.
Proof.
  intros H. unfold clean_amount. cbn [clean_amount_body isna].
  rewrite (float_of_int_small n H). reflexivity.
Qed.

Lemma clean_amount_int_large (n : Z) :
  2 ^ 1024 - 2 ^ 970 <= Z.abs n -> clean_amount (CInt n) = 0%Q.
Proof.
  intros H. unfold clean_amount. cbn [clean_amount_body isna].
  destruct (proj2 (float_of_int_overflow n) H) as (msg & ->). reflexivity.
Qed.

Lemma clean_amount_int_rounded (n : Z) :
  Z.abs n < 2 ^ 1024 - 2 ^ 970 ->
  exists k, clean_amount (CInt n) = inject_Z k /\ Z.sgn k = Z.sgn n /\
            Z.abs (k - n) * 2 ^ 53 <= Z.abs n.
Proof.
  intros H. unfold clean_amount. cbn [clean_amount_body isna].
  destruct (float_of_int n) as [q|e] eqn:F.
  - destruct (float_of_int_ret n q F) as (k & -> & S & B).
    exists k. split; [reflexivity|]. split; assumption.
  - exfalso. destruct (float_of_int_raises n e F) as (msg & ->).
    pose proof (proj1 (float_of_int_overflow n) (ex_intro _ msg F)). lia.
Qed.

(** C8 (amended): for every cell that is not a number (a text, an empty
    cell, [None], a date) the cleaner strips every character of the cell's
    text that is not a digit or a decimal point and reads the rest as a
    decimal, unreadable or empty rests being 0.  A [float] cell is
    returned as it is.  An [int] cell is converted to a [float]: it is
    returned as it is up to 2^53 in magnitude, rounded to a double (off by
    at most the fraction 2^-53 of it, the sign kept) above that, and gives
    0 from 2^1024 - 2^970 on, where the conversion overflows.
    ["1,234.56 INR"] gives 1234.56, [None] and [""] give 0. *)
Theorem clean_amount_refines_text :
  (forall c : cell,
     match c with
     | CInt n =>
         (Z.abs n <= 2 ^ 53 -> clean_amount c = inject_Z n) /\
         (Z.abs n < 2 ^ 1024 - 2 ^ 970 ->
          exists k, clean_amount c = inject_Z k /\ Z.sgn k = Z.sgn n /\
                    Z.abs (k - n) * 2 ^ 53 <= Z.abs n) /\
         (2 ^ 1024 - 2 ^ 970 <= Z.abs n -> clean_amount c = 0%Q)
     | CFloat v _ => clean_amount c = v
     | _ => clean_amount c = Spec.cleaned_amount c
     end) /\
  clean_amount (CStr "1,234.56 INR") = 1234.56%Q /\
  clean_amount CNone = 0%Q /\
  clean_amount (CStr "") = 0%Q.
Proof.
  split; [|repeat split; reflexivity].
  intros [ | | s | n | v r | dt]; try reflexivity.
  - apply clean_amount_str.
  - split; [apply clean_amount_int_small|].
    split; [apply clean_amount_int_rounded|apply clean_amount_int_large].
  - apply clean_amount_datetime.
Qed.

(** What makes the body of the cleaner raise: an [int] too large for a
    double, or a text whose digits and points are not a number. *)
Lemma clean_amount_body_raises (c : cell) (e : exn) :
  clean_amount_body c = Raise e ->
  (exists n msg, c = CInt n /\ e = OverflowError msg /\
                 2 ^ 1024 - 2 ^ 970 <= Z.abs n) \/
  (exists msg, e = ValueError msg /\
               float_of_digits (filter amount_char (strip (cell_str c))) = None).
Proof.
  destruct c as [ | | s | n | v r | dt]; cbn [clean_amount_body isna];
    try discriminate.
  - destruct s as [|a s]; [discriminate|]. cbv zeta.
    destruct (nonempty _); [|discriminate].
    destruct (float_of_digits _) eqn:F; [discriminate|].
    intros H. injection H as <-. right. eexists.
    split; [reflexivity|first [exact F|reflexivity]].
  - intros F. left.
    destruct (float_of_int_raises n e F) as (msg & ->). exists n, msg. split; [reflexivity|].
    split; [reflexivity|].
    exact (proj1 (float_of_int_overflow n) (ex_intro _ msg F)).
  - cbv zeta. destruct (nonempty _); [|discriminate].
    destruct (float_of_digits _) eqn:F; [discriminate|].
    intros H. injection H as <-. right. eexists.
    split; [reflexivity|first [exact F|reflexivity]].
Qed.

(** C10, as stated, fails for large [int]s: they do not pass through
    unchanged.  The number 10^400 has no double, the error raised by its
    conversion is swallowed and the result is 0; 2^53 + 1 comes back as
    2^53. *)
Lemma clean_amount_large_int :
  clean_amount (CInt (10 ^ 400)) = 0%Q /\
  clean_amount (CInt (2 ^ 53 + 1)) = inject_Z (2 ^ 53) /\
  ~ (clean_amount (CInt (2 ^ 53 + 1)) == inject_Z (2 ^ 53 + 1))%Q.
Proof.
  split; [vm_compute; reflexivity|]. split; [vm_compute; reflexivity|].
  vm_compute. discriminate.
Qed.

(** C10 (amended): the cleaner never lets an error out: whatever the
    cell, the body either returns a number, which is the result, or
    raises, and the result is then 0.0; it raises only for an [int] too
    large for a double and for a text whose digits and points are not a
    number.  For a text the result is never negative.  A [float] is
    returned unchanged, and so is an [int] up to 2^53 in magnitude, a
    negative one included; an [int] from 2^1024 - 2^970 on gives 0.0. *)
Theorem clean_amount_total :
  (forall c : cell,
     (exists q, clean_amount_body c = Ret q /\ clean_amount c = q) \/
     (exists e, clean_amount_body c = Raise e /\ clean_amount c = 0%Q /\
        ((exists n msg, c = CInt n /\ e = OverflowError msg /\
                        2 ^ 1024 - 2 ^ 970 <= Z.abs n) \/
         (exists msg, e = ValueError msg /\
            float_of_digits (filter amount_char (strip (cell_str c))) = None)))) /\
  (forall s : string, (0 <= clean_amount (CStr s))%Q) /\
  (forall n : Z, Z.abs n <= 2 ^ 53 -> clean_amount (CInt n) = inject_Z n) /\
  (forall n : Z, 2 ^ 1024 - 2 ^ 970 <= Z.abs n -> clean_amount (CInt n) = 0%Q) /\
  (forall (v : Q) (r : string), clean_amount (CFloat v r) = v) /\
  (clean_amount (CInt (-5)) < 0)%Q.
Proof.
  split; [|split; [exact clean_amount_str_nonneg|]].
  - intros c. unfold clean_amount.
    destruct (clean_amount_body c) as [q|e] eqn:B.
    + left. exists q. split; reflexivity.
    + right. exists e. split; [reflexivity|]. split; [reflexivity|].
      exact (clean_amount_body_raises c e B).
  - split; [exact clean_amount_int_small|].
    split; [exact clean_amount_int_large|]. split; reflexivity.
Qed.

End CleanAmount.

(* ===================================================================== *)
(** ** The statement parser *)
(* ===================================================================== *)

Module ParserFacts.

Import PyStr BankStatementParser PyStrFacts.

Lemma positive_iff (q : Q) : positive q = true <-> (0 < q)%Q.
Proof.
  unfold positive. rewrite negb_true_iff. split.
  - intros H. apply Qnot_le_lt. intros L.
    apply Qle_bool_iff in L. congruence.
  - intros H. destruct (Qle_bool q 0) eqn:E; [|reflexivity].
    apply Qle_bool_iff in E. exfalso. exact (Qlt_not_le _ _ H E).
Qed.

Lemma amount_rule_intro (w d : Q) (t : transaction) :
  type t = (if positive w then debit else credit) ->
  amount t = (if positive w then w else d) ->
  Spec.amount_rule w d t.
Proof.
  intros Ht Ha. unfold Spec.amount_rule.
  destruct (positive w) eqn:P.
  - apply positive_iff in P.
    split; [tauto|]. split; [tauto|]. split; [tauto|]. intros N. contradiction.
  - assert (N : ~ (0 < w)%Q).
    { intros L. apply positive_iff in L. congruence. }
    split; [split; [congruence|contradiction]|].
    split; [tauto|]. split; [intros L; contradiction|tauto].
Qed.

(* --------------------------------------------------------------------- *)
(** *** The header *)

Lemma existsb_map_compose {A B} (f : A -> B) (p : B -> bool) (l : list A) :
  existsb p (map f l) = existsb (fun x => p (f x)) l.
Proof. induction l as [|x l IH]; simpl; [reflexivity|]. rewrite IH. reflexivity. Qed.

(** The test on the joined text of a row is the test on its cells. *)
Lemma header_text_qualifies (r : row) :
  is_header_text (row_text r) = Spec.qualifies r.
Proof.
  unfold is_header_text, row_text, Spec.qualifies, Spec.has_label.
  rewrite !contains_join by reflexivity.
  rewrite !existsb_map_compose. reflexivity.
Qed.

Lemma find_header_some (rows : list row) :
  forall k i, find_header k rows = Some i ->
  exists j, i = (k + j)%nat /\ (j < List.length rows)%nat /\
    is_header_text (row_text (nth j rows [])) = true /\
    forall j', (j' < j)%nat -> is_header_text (row_text (nth j' rows [])) = false.
Proof.
  induction rows as [|r rest IH]; simpl; intros k i H; [discriminate|].
  destruct (is_header_text (row_text r)) eqn:E.
  - injection H as <-. exists 0%nat. repeat split; try lia; auto.
  - destruct (IH _ _ H) as (j & -> & Hlt & Hj & Hmin).
    exists (S j). repeat split; try lia; auto.
    intros [|j'] Hj'; [exact E|]. apply Hmin. lia.
Qed.

Lemma find_header_none (rows : list row) :
  forall k, find_header k rows = None ->
  forall r, In r rows -> is_header_text (row_text r) = false.
Proof.
  induction rows as [|x rest IH]; simpl; intros k H r Hin; [contradiction|].
  destruct (is_header_text (row_text x)) eqn:E; [discriminate|].
  destruct Hin as [<-|Hin]; [exact E|]. exact (IH _ H r Hin).
Qed.

(** C6, as stated, fails for a sheet whose first row is the qualifying
    row: pandas reads that row as the column labels, the search never
    sees it and the parse raises the header error, though the row
    qualifies; with a title line above it the same rows are parsed. *)
Lemma first_row_header_not_found :
  Spec.qualifies (nth 0 Examples.rows_with_reference []) = true /\
  parse_excel_statement Examples.rows_with_reference = Raise HeaderNotFound /\
  parse_excel_statement (Examples.title_row :: Examples.rows_with_reference) =
    Ret [Examples.rent_sheet].
Proof. repeat split; reflexivity. Qed.

(** C6 (amended): the first row of a sheet is read as the column labels
    and is never scanned.  Among the rows below it ([df]), the header is
    the first row, from the top, that contains (in any case) a date
    label, a narration label and one of withdrawal and debit: it is the
    row the columns are read from and below which the rows are processed;
    when none of these rows qualifies the parse raises the header error
    and returns no transactions. *)
Theorem header_location (sheet : list row) :
  let df := read_excel sheet in
  match find_header 0 df with
  | Some i =>
      (i < List.length df)%nat /\
      Spec.qualifies (nth i df []) = true /\
      (forall j, (j < i)%nat -> Spec.qualifies (nth j df []) = false) /\
      parse_excel_statement sheet =
        match
          obind (find_columns (map clean_label (nth i df [])))
            (fun cols =>
               match process_rows cols "" (skipn (S i) df) with
               | [] => Raise (ValueError "No valid transactions found in the statement")
               | transactions => Ret transactions
               end)
        with
        | Ret transactions => Ret transactions
        | Raise e =>
            Raise (ValueError ("Error processing Excel statement: " ++ exn_str e))
        end
  | None =>
      (forall r, In r df -> Spec.qualifies r = false) /\
      parse_excel_statement sheet = Raise HeaderNotFound
  end.
Proof.
  intros df. unfold parse_excel_statement. fold df.
  destruct (find_header 0 df) as [i|] eqn:E.
  - destruct (find_header_some df 0 i E) as (j & -> & Hlt & Hj & Hmin).
    simpl. rewrite <- !header_text_qualifies. repeat split; auto.
    + intros j' Hj'. rewrite <- header_text_qualifies. auto.
    + unfold parse_excel_body. rewrite E. reflexivity.
  - split.
    + intros r Hin. rewrite <- header_text_qualifies.
      exact (find_header_none df 0 E r Hin).
    + unfold parse_excel_body. rewrite E. reflexivity.
Qed.

(* --------------------------------------------------------------------- *)
(** *** The rows of a sheet *)

(** Every transaction of the loop is the dictionary built for one of the
    rows, a row with a date. *)
Lemma process_rows_in (cols : columns) (rows : list row) :
  forall cur t, In t (process_rows cols cur rows) ->
  exists r cur' d,
    In r rows /\ parse_date (get r (date_col cols)) = Some d /\
    t = make_transaction cols cur' d r.
Proof.
  induction rows as [|x rest IH]; simpl; intros cur t H; [contradiction|].
  destruct (contains _ _); [contradiction|].
  destruct (isna (get x (date_col cols))).
  - destruct (IH _ _ H) as (r & cur' & d & Hin & Hd & Ht).
    exists r, cur', d. auto.
  - destruct (parse_date (get x (date_col cols))) as [d|] eqn:D.
    + destruct H as [<-|H].
      * exists x, cur, d. auto.
      * destruct (IH _ _ H) as (r & cur' & d' & Hin & Hd & Ht).
        exists r, cur', d'. auto.
    + destruct (IH _ _ H) as (r & cur' & d' & Hin & Hd & Ht).
      exists r, cur', d'. auto.
Qed.

(** The pending description never holds any text: started empty, it is
    only extended when it is not empty. *)
Remark pending_description_stays_empty (cols : columns) (rows : list row) :
  forall t, In t (process_rows cols "" rows) ->
  exists r d, In r rows /\ t = make_transaction cols "" d r.
Proof.
  induction rows as [|x rest IH]; simpl; intros t H; [contradiction|].
  destruct (contains _ _); [contradiction|].
  destruct (isna (get x (date_col cols))).
  - destruct (IH _ H) as (r & d & Hin & Ht). exists r, d. auto.
  - destruct (parse_date (get x (date_col cols))) as [d|].
    + destruct H as [<-|H].
      * exists x, d. auto.
      * destruct (IH _ H) as (r & d' & Hin & Ht). exists r, d'. auto.
    + destruct (IH _ H) as (r & d' & Hin & Ht). exists r, d'. auto.
Qed.

Lemma make_transaction_rule (cols : columns) (cur : string) (d : datetime) (r : row) :
  Spec.amount_rule (clean_amount (get r (withdrawal_col cols)))
                   (clean_amount (get r (deposit_col cols)))
                   (make_transaction cols cur d r).
Proof. apply amount_rule_intro; reflexivity. Qed.

Lemma amount_rule_nonneg (w d : Q) (t : transaction) :
  Spec.amount_rule w d t -> (0 <= d)%Q -> (0 <= amount t)%Q.
Proof.
  intros (_ & _ & Hw & Hd) Hpos.
  destruct (Qlt_le_dec 0 w) as [L|L].
  - rewrite (Hw L). apply Qlt_le_weak. exact L.
  - rewrite (Hd (Qle_not_lt _ _ L)). exact Hpos.
Qed.

Lemma parse_excel_ret (sheet : list row) (transactions : list transaction) :
  parse_excel_statement sheet = Ret transactions ->
  let df := read_excel sheet in
  exists h cols,
    find_header 0 df = Some h /\
    find_columns (map clean_label (nth h df [])) = Ret cols /\
    transactions = process_rows cols "" (skipn (S h) df) /\
    transactions <> [].
Proof.
  intros H df. revert H. unfold parse_excel_statement, parse_excel_body. fold df.
  destruct (find_header 0 df) as [h|] eqn:Hh; [|discriminate].
  destruct (find_columns _) as [cols|e] eqn:Hc; cbn [obind]; [|discriminate].
  destruct (process_rows cols "" (skipn (S h) df)) as [|t ts] eqn:E;
    [discriminate|].
  intros H. injection H as <-. exists h, cols.
  split; [reflexivity|]. split; [exact Hc|]. split; [auto|discriminate].
Qed.

(* --------------------------------------------------------------------- *)
(** *** The rows of a PDF table *)

Lemma process_table_in (table : pdf_table) :
  forall hf t, In t (process_table hf table) ->
  exists raw, In raw table /\ pdf_row_body (clean_pdf_row raw) = Ret (Some t).
Proof.
  induction table as [|raw rest IH]; simpl; intros hf t H; [contradiction|].
  destruct (is_header_text _).
  - destruct (IH _ _ H) as (x & Hin & Hx). exists x. auto.
  - destruct (negb hf).
    + destruct (IH _ _ H) as (x & Hin & Hx). exists x. auto.
    + destruct (pdf_row_body (clean_pdf_row raw)) as [[t'|]|e] eqn:B.
      * destruct H as [<-|H]; [exists raw; auto|].
        destruct (IH _ _ H) as (x & Hin & Hx). exists x. auto.
      * destruct (IH _ _ H) as (x & Hin & Hx). exists x. auto.
      * destruct (IH _ _ H) as (x & Hin & Hx). exists x. auto.
Qed.

Lemma pdf_row_body_some (r : list string) (t : transaction) :
  pdf_row_body r = Ret (Some t) ->
  exists r0 w d,
    nth_error r 0 = Some r0 /\ nth_error r 4 = Some w /\ nth_error r 5 = Some d /\
    parse_date (CStr r0) = Some (date t) /\
    Spec.has_summary_marker (join " " r) = false /\
    Spec.amount_rule (clean_amount (CStr w)) (clean_amount (CStr d)) t.
Proof.
  unfold pdf_row_body, index, obind, Spec.has_summary_marker.
  destruct (nth_error r 0) as [r0|]; [|discriminate].
  destruct (negb (nonempty r0) || contains "statement summary" (lower (join " " r)))
    eqn:S; [discriminate|].
  apply orb_false_elim in S. destruct S as [_ S].
  destruct (parse_date (CStr r0)) as [dt|] eqn:D; [|discriminate].
  destruct (nth_error r 4) as [w|]; [|discriminate].
  destruct (nth_error r 5) as [d|]; [|discriminate].
  destruct (nth_error r 1) as [r1|]; [|discriminate].
  destruct (nth_error r 2) as [r2|]; [|discriminate].
  destruct (nth_error r 6) as [r6|]; [|discriminate].
  intros H. injection H as <-. exists r0, w, d.
  split; [reflexivity|]. split; [reflexivity|]. split; [reflexivity|].
  split; [exact D|]. split; [exact S|].
  apply amount_rule_intro; reflexivity.
Qed.

Lemma pdf_transactions_in (pages : list (list pdf_table)) (t : transaction) :
  In t (pdf_transactions pages) ->
  exists tables table raw,
    In tables pages /\ In table tables /\ In raw table /\
    pdf_row_body (clean_pdf_row raw) = Ret (Some t).
Proof.
  unfold pdf_transactions. intros H.
  apply in_flat_map in H. destruct H as (tables & Hp & H).
  apply in_flat_map in H. destruct H as (table & Ht & H).
  destruct (process_table_in table false t H) as (raw & Hr & Hb).
  exists tables, table, raw. auto.
Qed.

Lemma parse_pdf_ret (pages : list (list pdf_table)) (transactions : list transaction) :
  parse_pdf_statement pages = Ret transactions ->
  transactions = pdf_transactions pages /\ transactions <> [].
Proof.
  unfold parse_pdf_statement.
  destruct (pdf_transactions pages) as [|t ts]; [discriminate|].
  intros H. injection H as <-. split; [reflexivity|discriminate].
Qed.

End ParserFacts.

(* ===================================================================== *)
(** ** Properties of the statement parser *)
(* ===================================================================== *)

Module ParserProperties.

Import PyStr BankStatementParser PyStrFacts ParserFacts.

(** C5: a parse never returns an empty list of transactions.  On a sheet
    whose header is found and whose columns are resolved, the parse
    returns at least one transaction or raises the empty-statement error;
    so does the parse of any PDF. *)
Theorem parse_never_empty :
  (forall sheet transactions,
     parse_excel_statement sheet = Ret transactions -> transactions <> []) /\
  (forall sheet h cols,
     find_header 0 (read_excel sheet) = Some h ->
     find_columns (map clean_label (nth h (read_excel sheet) [])) = Ret cols ->
     (exists t ts, parse_excel_statement sheet = Ret (t :: ts)) \/
     parse_excel_statement sheet = Raise EmptyStatementError_excel) /\
  (forall pages transactions,
     parse_pdf_statement pages = Ret transactions -> transactions <> []) /\
  (forall pages,
     (exists t ts, parse_pdf_statement pages = Ret (t :: ts)) \/
     parse_pdf_statement pages = Raise EmptyStatementError_pdf).
Proof.
  split; [|split; [|split]].
  - intros sheet transactions H.
    destruct (parse_excel_ret sheet transactions H) as (h & cols & _ & _ & _ & N).
    exact N.
  - intros sheet h cols Hh Hc. unfold parse_excel_statement, parse_excel_body.
    rewrite Hh, Hc. cbn [obind].
    destruct (process_rows cols "" (skipn (S h) (read_excel sheet))) as [|t ts].
    + right. reflexivity.
    + left. exists t, ts. reflexivity.
  - intros pages transactions H. exact (proj2 (parse_pdf_ret pages transactions H)).
  - intros pages. unfold parse_pdf_statement.
    destruct (pdf_transactions pages) as [|t ts].
    + right. reflexivity.
    + left. exists t, ts. reflexivity.
Qed.

Lemma parse_never_empty_witness :
  (find_header 0 (read_excel (Examples.title_row :: Examples.rows_with_reference)) =
     Some 0%nat /\
   find_columns
     (map clean_label
        (nth 0 (read_excel (Examples.title_row :: Examples.rows_with_reference)) [])) =
     Ret Examples.reference_columns) /\
  ((exists t ts,
      parse_excel_statement (Examples.title_row :: Examples.rows_with_reference) =
        Ret (t :: ts)) \/
   parse_excel_statement (Examples.title_row :: Examples.rows_with_reference) =
     Raise EmptyStatementError_excel).
Proof.
  split; [split; reflexivity|].
  apply (proj1 (proj2 parse_never_empty)
           (Examples.title_row :: Examples.rows_with_reference) 0%nat
           Examples.reference_columns); reflexivity.
Defined.

(** C9, as stated, fails for the amount: a negative number in the deposit
    cell of a row without withdrawal is emitted as the amount. *)
Lemma negative_deposit_amount :
  parse_excel_statement (Examples.title_row :: Examples.negative_deposit_rows) =
    Ret [Examples.reversal] /\
  (amount Examples.reversal < 0)%Q.
Proof. split; reflexivity. Qed.

(** C9 (amended): every transaction the parser emits, from a sheet or from
    a PDF, comes from a row of the document; its kind is debit or credit,
    debit exactly when the cleaned withdrawal amount of the row is above 0;
    its amount is the withdrawal amount in that case and the deposit
    amount otherwise.  The amount is not negative when the deposit cell is
    not a negative number, hence never for a PDF. *)
Theorem emitted_transaction_rule :
  (forall sheet transactions t,
     parse_excel_statement sheet = Ret transactions -> In t transactions ->
     exists h cols r,
       find_header 0 (read_excel sheet) = Some h /\
       find_columns (map clean_label (nth h (read_excel sheet) [])) = Ret cols /\
       In r (skipn (S h) (read_excel sheet)) /\
       Spec.amount_rule (clean_amount (get r (withdrawal_col cols)))
                        (clean_amount (get r (deposit_col cols))) t /\
       (Spec.negative_number (get r (deposit_col cols)) = false ->
        (0 <= amount t)%Q)) /\
  (forall pages transactions t,
     parse_pdf_statement pages = Ret transactions -> In t transactions ->
     (0 <= amount t)%Q /\
     exists tables table raw w d,
       In tables pages /\ In table tables /\ In raw table /\
       nth_error (clean_pdf_row raw) 4 = Some w /\
       nth_error (clean_pdf_row raw) 5 = Some d /\
       Spec.amount_rule (clean_amount (CStr w)) (clean_amount (CStr d)) t).
Proof.
  split.
  - intros sheet transactions t H Hin.
    destruct (parse_excel_ret sheet transactions H) as (h & cols & Hh & Hc & -> & _).
    destruct (process_rows_in cols _ _ _ Hin) as (r & cur & d & Hr & _ & ->).
    exists h, cols, r. repeat (split; [assumption|]).
    split; [apply make_transaction_rule|].
    intros N. apply (amount_rule_nonneg _ _ _ (make_transaction_rule cols cur d r)).
    apply CleanAmount.clean_amount_nonneg. exact N.
  - intros pages transactions t H Hin.
    destruct (parse_pdf_ret pages transactions H) as (-> & _).
    destruct (pdf_transactions_in pages t Hin)
      as (tables & table & raw & Hp & Ht & Hr & Hb).
    destruct (pdf_row_body_some _ _ Hb) as (r0 & w & d & _ & Hw & Hd & _ & _ & R).
    split.
    + apply (amount_rule_nonneg _ _ _ R). apply CleanAmount.clean_amount_str_nonneg.
    + exists tables, table, raw, w, d. repeat (split; [assumption|]). exact R.
Qed.

Lemma emitted_transaction_rule_witness :
  (0 <= amount Examples.rent)%Q /\
  exists tables table raw w d,
    In tables [[Examples.pdf_summary_table]] /\ In table tables /\ In raw table /\
    nth_error (clean_pdf_row raw) 4 = Some w /\
    nth_error (clean_pdf_row raw) 5 = Some d /\
    Spec.amount_rule (clean_amount (CStr w)) (clean_amount (CStr d)) Examples.rent.
Proof.
  apply (proj2 emitted_transaction_rule [[Examples.pdf_summary_table]]
           [Examples.rent] Examples.rent).
  - reflexivity.
  - left. reflexivity.
Defined.

(** C7, as stated, fails for the PDF format: the dated row below a
    statement-summary row of a table is still turned into a transaction
    (without that row the parse finds no transaction). *)
Lemma pdf_rows_after_summary_kept :
  parse_pdf_statement [[Examples.pdf_summary_table]] = Ret [Examples.rent] /\
  parse_pdf_statement [[[Examples.pdf_header; Examples.pdf_summary_row]]] =
    Raise EmptyStatementError_pdf.
Proof. split; reflexivity. Qed.

Lemma process_rows_break (cols : columns) (r : row) (post : list row) :
  Spec.has_summary_marker (cell_str (get r (narration_col cols))) = true ->
  forall pre cur,
    process_rows cols cur (pre ++ r :: post) = process_rows cols cur pre.
Proof.
  intros M. induction pre as [|x pre IH]; intros cur.
  - simpl. unfold Spec.has_summary_marker in M. rewrite M. reflexivity.
  - cbn [app process_rows].
    destruct (contains "statement summary"
                (lower (cell_str (get x (narration_col cols))))); [reflexivity|].
    destruct (isna (get x (date_col cols))); [apply IH|].
    destruct (parse_date (get x (date_col cols))); [rewrite IH; reflexivity|apply IH].
Qed.

(** C7 (amended): in a sheet, a row whose narration cell contains the
    statement-summary marker ends the processing: that row and all rows
    after it give no transaction.  In a PDF table such a row gives no
    transaction itself, and the rows after it are processed as before. *)
Theorem summary_marker_rows :
  (forall cols cur pre r post,
     Spec.has_summary_marker (cell_str (get r (narration_col cols))) = true ->
     process_rows cols cur (pre ++ r :: post) = process_rows cols cur pre) /\
  (forall hf raw rest narration,
     nth_error (clean_pdf_row raw) 1 = Some narration ->
     Spec.has_summary_marker narration = true ->
     process_table hf (raw :: rest) =
     process_table
       (hf || is_header_text (lower (join " " (clean_pdf_row raw)))) rest).
Proof.
  split.
  - intros cols cur pre r post M. apply process_rows_break. exact M.
  - intros hf raw rest narration Hn M.
    assert (J : contains "statement summary"
                  (lower (join " " (clean_pdf_row raw))) = true).
    { apply (contains_lower_join _ _ _ narration); [|exact M].
      exact (nth_error_In _ _ Hn). }
    cbn [process_table].
    destruct (is_header_text _); [rewrite orb_true_r; reflexivity|].
    rewrite orb_false_r. destruct hf; [|reflexivity]. cbn [negb].
    unfold pdf_row_body, index, obind.
    destruct (nth_error (clean_pdf_row raw) 0) as [r0|]; [|reflexivity].
    rewrite J, orb_true_r. reflexivity.
Qed.

Lemma summary_marker_rows_witness :
  process_rows Examples.reference_columns ""
    ([nth 1 Examples.rows_with_reference []] ++
     [CNaN; CStr "STATEMENT SUMMARY :-"; CNaN; CNaN; CNaN; CNaN] ::
     [nth 1 Examples.rows_with_reference []]) =
  process_rows Examples.reference_columns "" [nth 1 Examples.rows_with_reference []].
Proof.
  apply (proj1 summary_marker_rows). reflexivity.
Defined.

Lemma process_rows_core_cur (cols : columns) (rows : list row) :
  forall cur cur',
    map Spec.core (process_rows cols cur rows) =
    map Spec.core (process_rows cols cur' rows).
Proof.
  induction rows as [|x rest IH]; intros cur cur'; simpl; [reflexivity|].
  destruct (contains _ _); [reflexivity|].
  destruct (isna _); [apply IH|].
  destruct (parse_date _) as [d|]; [|apply IH].
  cbn [map]. f_equal.
Qed.

Lemma empty_date_row_dropped (cols : columns) (r : row) (post : list row) :
  isna (get r (date_col cols)) = true ->
  Spec.has_summary_marker (cell_str (get r (narration_col cols))) = false ->
  forall pre cur,
    map Spec.core (process_rows cols cur (pre ++ r :: post)) =
    map Spec.core (process_rows cols cur (pre ++ post)).
Proof.
  intros E M. induction pre as [|x pre IH]; intros cur.
  - cbn [app process_rows]. unfold Spec.has_summary_marker in M.
    rewrite M, E. apply process_rows_core_cur.
  - cbn [app process_rows].
    destruct (contains "statement summary"
                (lower (cell_str (get x (narration_col cols))))); [reflexivity|].
    destruct (isna (get x (date_col cols))); [apply IH|].
    destruct (parse_date (get x (date_col cols))) as [d|]; [|apply IH].
    cbn [map]. f_equal. apply IH.
Qed.

(** C1, as stated, fails on the example.  The first of its rows is read
    as the column labels and never scanned: no header is found and the
    parse raises.  With a title line above them the header is found, at
    index 0 of the rows below the title, but it has no cheque or reference
    column: the column search runs out of labels and the parse raises
    again (whether the empty date cell is the text [""] or NaN). *)
Lemma spec_example_raises :
  parse_excel_statement Examples.spec_rows = Raise HeaderNotFound /\
  parse_excel_statement Examples.spec_rows_nan = Raise HeaderNotFound /\
  find_header 0 (read_excel (Examples.title_row :: Examples.spec_rows)) =
    Some 0%nat /\
  parse_excel_statement (Examples.title_row :: Examples.spec_rows) =
    Raise (ValueError "Error processing Excel statement: ") /\
  parse_excel_statement (Examples.title_row :: Examples.spec_rows_nan) =
    Raise (ValueError "Error processing Excel statement: ").
Proof. repeat split; reflexivity. Qed.

(** C1 (amended): for the sheet that has a title line above the example
    rows and a cheque/reference column in them, the title line is read as
    the column labels, the header is found at index 0 of the rows below
    it and the parse yields exactly one transaction, dated 2024-02-01, a
    debit of 1000 with balance 5000.  In general a row whose date cell is
    empty (and whose narration is not the summary marker) yields no
    transaction of its own: the dates, references, kinds, amounts and
    balances of the transactions are those the other rows give. *)
Theorem continuation_rows :
  find_header 0 (read_excel (Examples.title_row :: Examples.rows_with_reference)) =
    Some 0%nat /\
  (exists t,
     parse_excel_statement (Examples.title_row :: Examples.rows_with_reference) =
       Ret [t] /\
     date t = midnight 2024 2 1 /\ type t = debit /\
     amount t = 1000%Q /\ balance t = 5000%Q) /\
  (forall cols cur pre r post,
     isna (get r (date_col cols)) = true ->
     Spec.has_summary_marker (cell_str (get r (narration_col cols))) = false ->
     map Spec.core (process_rows cols cur (pre ++ r :: post)) =
     map Spec.core (process_rows cols cur (pre ++ post))).
Proof.
  split; [reflexivity|]. split.
  - exists Examples.rent_sheet. repeat split; reflexivity.
  - intros cols cur pre r post E M. apply empty_date_row_dropped; assumption.
Qed.

Lemma continuation_rows_witness :
  map Spec.core
    (process_rows Examples.reference_columns ""
       ([nth 1 Examples.rows_with_reference []] ++
        nth 2 Examples.rows_with_reference [] :: [])) =
  map Spec.core
    (process_rows Examples.reference_columns ""
       ([nth 1 Examples.rows_with_reference []] ++ [])).
Proof.
  apply (proj2 (proj2 continuation_rows)); reflexivity.
Defined.

End ParserProperties.

(* ===================================================================== *)
(** ** The store: effect of the operations *)
(* ===================================================================== *)

Module StoreFacts.

Import PyStr BankStatementParser BudgetTracker.

Lemma conn_eta (c : connection) : c = mkconn (committed c) (pending c).
Proof. destruct c; reflexivity. Qed.

Lemma filter_empty_iff {A} (f : A -> bool) (l : list A) :
  List.filter f l = [] <-> forall x, In x l -> f x = false.
Proof.
  induction l as [|a l IH]; simpl.
  - split; [intros _ x []|reflexivity].
  - destruct (f a) eqn:E.
    + split; [discriminate|]. intros H. rewrite (H a (or_introl eq_refl)) in E.
      discriminate.
    + rewrite IH. split.
      * intros H x [<-|Hin]; auto.
      * intros H x Hin. apply H. right. exact Hin.
Qed.

Lemma same_transaction_iff (tx : transaction) (r : transaction_row) :
  same_transaction tx r = true <-> Spec.same_key tx r.
Proof.
  unfold same_transaction, Spec.same_key.
  rewrite !andb_true_iff, !String.eqb_eq, Qeq_bool_iff. tauto.
Qed.

Lemma count_duplicates_zero (tx : transaction) (t : tables) :
  (count_duplicates tx t =? 0) = true <->
  forall r, In r (transactions t) -> ~ Spec.same_key tx r.
Proof.
  unfold count_duplicates. rewrite Z.eqb_eq.
  split.
  - intros H r Hin K. apply same_transaction_iff in K.
    assert (L : List.filter (same_transaction tx) (transactions t) = []).
    { destruct (List.filter _ _); [reflexivity|simpl in H; lia]. }
    rewrite (proj1 (filter_empty_iff _ _) L r Hin) in K. discriminate.
  - intros H.
    assert (L : List.filter (same_transaction tx) (transactions t) = []).
    { apply filter_empty_iff. intros r Hin.
      destruct (same_transaction tx r) eqn:E; [|reflexivity].
      exfalso. apply (H r Hin). apply same_transaction_iff. exact E. }
    rewrite L. reflexivity.
Qed.

Lemma bank_row_same_key (seq : Z) (tx : transaction) :
  Spec.same_key tx (Spec.bank_row seq tx).
Proof.
  unfold Spec.same_key, Spec.bank_row. cbn [row_date row_description row_amount row_type].
  split; [reflexivity|]. split; [reflexivity|]. split; [apply Qeq_refl|reflexivity].
Qed.

Lemma insert_bank_row (tx : transaction) (t : tables) :
  insert_transaction (strftime (date tx)) (description tx) (Some (reference tx))
    (type_str (type tx)) (amount tx) (balance tx) None "bank_statement" t =
  Ret (mktables (transactions t ++ [Spec.bank_row (transactions_seq t) tx])
                (validated_expenses t) (transactions_seq t + 1)
                (validated_expenses_seq t)).
Proof.
  unfold insert_transaction, Spec.bank_row. destruct (type tx); reflexivity.
Qed.

(** The loop body on a transaction that has a row with the same key. *)
Lemma ingest_row_duplicate (c : connection) (counts : Z * Z) (tx : transaction) :
  (exists r, In r (transactions (view c)) /\ Spec.same_key tx r) ->
  ingest_row counts tx c = (Ret (fst counts, snd counts + 1), c).
Proof.
  intros (r & Hin & K). unfold ingest_row, dbind, select.
  destruct (count_duplicates tx (view c) =? 0) eqn:E; [|reflexivity].
  exfalso. exact (proj1 (count_duplicates_zero tx (view c)) E r Hin K).
Qed.

(** The loop body on a transaction that has none. *)
Lemma ingest_row_new (c : connection) (counts : Z * Z) (tx : transaction) :
  (forall r, In r (transactions (view c)) -> ~ Spec.same_key tx r) ->
  ingest_row counts tx c =
  (Ret (fst counts + 1, snd counts),
   mkconn (committed c)
     (Some (mktables
              (transactions (view c) ++
                 [Spec.bank_row (transactions_seq (view c)) tx])
              (validated_expenses (view c)) (transactions_seq (view c) + 1)
              (validated_expenses_seq (view c))))).
Proof.
  intros H. apply count_duplicates_zero in H.
  unfold ingest_row, dbind, select. rewrite H.
  unfold execute_dml. rewrite insert_bank_row. reflexivity.
Qed.

Lemma ingest_row_cases (c : connection) (counts : Z * Z) (tx : transaction) :
  (exists r, In r (transactions (view c)) /\ Spec.same_key tx r) \/
  (forall r, In r (transactions (view c)) -> ~ Spec.same_key tx r).
Proof.
  destruct (count_duplicates tx (view c) =? 0) eqn:E.
  - right. apply count_duplicates_zero. exact E.
  - left. unfold count_duplicates in E.
    destruct (List.filter (same_transaction tx) (transactions (view c)))
      as [|r l] eqn:F; [discriminate|].
    assert (Hr : In r (List.filter (same_transaction tx) (transactions (view c)))).
    { rewrite F. left. reflexivity. }
    apply filter_In in Hr. destruct Hr as [Hin K].
    exists r. split; [exact Hin|]. apply same_transaction_iff. exact K.
Qed.

(** What one turn of the loop leaves: the committed tables and the
    validations are untouched, rows are only added, and the transaction
    now has a row with its key. *)
Lemma ingest_row_effect (c : connection) (counts : Z * Z) (tx : transaction) :
  exists counts' c',
    ingest_row counts tx c = (Ret counts', c') /\
    committed c' = committed c /\
    validated_expenses (view c') = validated_expenses (view c) /\
    (exists added, transactions (view c') = (transactions (view c) ++ added)%list) /\
    (exists r, In r (transactions (view c')) /\ Spec.same_key tx r).
Proof.
  destruct (ingest_row_cases c counts tx) as [D|N].
  - rewrite (ingest_row_duplicate c counts tx D).
    eexists _, c. repeat split; auto. exists []. symmetry. apply app_nil_r.
  - rewrite (ingest_row_new c counts tx N).
    eexists _, _. split; [reflexivity|]. cbn [committed view pending
      transactions validated_expenses]. repeat split.
    + eexists. reflexivity.
    + exists (Spec.bank_row (transactions_seq (view c)) tx). split.
      * apply in_or_app. right. left. reflexivity.
      * apply bank_row_same_key.
Qed.

Lemma ingest_rows_effect (df : list transaction) :
  forall counts c,
  exists counts' c',
    ingest_rows counts df c = (Ret counts', c') /\
    committed c' = committed c /\
    validated_expenses (view c') = validated_expenses (view c) /\
    (exists added, transactions (view c') = (transactions (view c) ++ added)%list) /\
    (forall tx, In tx df ->
       exists r, In r (transactions (view c')) /\ Spec.same_key tx r).
Proof.
  induction df as [|tx rest IH]; intros counts c.
  - exists counts, c. repeat split; auto.
    + exists []. symmetry. apply app_nil_r.
    + intros tx [].
  - destruct (ingest_row_effect c counts tx)
      as (counts1 & c1 & E1 & C1 & V1 & (a1 & T1) & (r1 & R1 & K1)).
    destruct (IH counts1 c1) as (counts2 & c2 & E2 & C2 & V2 & (a2 & T2) & D2).
    exists counts2, c2. split.
    + cbn [ingest_rows]. unfold dbind at 1. rewrite E1. exact E2.
    + split; [congruence|]. split; [congruence|]. split.
      * exists (a1 ++ a2)%list. rewrite T2, T1. symmetry. apply app_assoc.
      * intros tx' [<-|Hin]; [|exact (D2 tx' Hin)].
        exists r1. split; [|exact K1]. rewrite T2. apply in_or_app. left. exact R1.
Qed.

(** A statement all of whose transactions have a row with their key only
    counts duplicates and changes nothing. *)
Lemma ingest_rows_all_duplicates (df : list transaction) (c : connection) :
  (forall tx, In tx df ->
     exists r, In r (transactions (view c)) /\ Spec.same_key tx r) ->
  forall counts,
    ingest_rows counts df c =
    (Ret (fst counts, snd counts + Z.of_nat (List.length df)), c).
Proof.
  induction df as [|tx rest IH]; intros D counts.
  - cbn [ingest_rows List.length]. unfold dret. rewrite Z.add_0_r.
    destruct counts; reflexivity.
  - cbn [ingest_rows]. unfold dbind at 1.
    rewrite (ingest_row_duplicate c counts tx (D tx (or_introl eq_refl))).
    rewrite IH by (intros tx' Hin; apply D; right; exact Hin).
    cbn [fst snd]. change (List.length (tx :: rest)) with (S (List.length rest)).
    rewrite Nat2Z.inj_succ. f_equal. f_equal. f_equal. lia.
Qed.

Lemma conn_commit_eq (c : connection) :
  conn_commit c = (Ret tt, mkconn (view c) None).
Proof. destruct c as [t [p|]]; reflexivity. Qed.

(** [process_bank_statement] on a statement that parses. *)
Lemma process_bank_statement_parsed (file : statement_file)
  (df : list transaction) (c : connection) :
  parse_statement file = Ret df ->
  exists counts c1,
    ingest_rows (0, 0) df c = (Ret counts, c1) /\
    process_bank_statement file c =
      (Ret (true, ingest_message counts), mkconn (view c1) None).
Proof.
  intros P.
  destruct (ingest_rows_effect df (0, 0) c) as (counts & c1 & E & _).
  exists counts, c1. split; [exact E|].
  unfold process_bank_statement, try_except. rewrite P.
  unfold dbind at 1. rewrite E.
  unfold dbind. rewrite conn_commit_eq. reflexivity.
Qed.

(** [process_bank_statement] on a statement that does not parse. *)
Lemma process_bank_statement_failed (file : statement_file) (e : exn)
  (c : connection) :
  parse_statement file = Raise e ->
  process_bank_statement file c = (Ret (false, exn_str e), c).
Proof.
  intros P. unfold process_bank_statement, try_except. rewrite P. reflexivity.
Qed.

Lemma validate_expense_effect (m : Z) (b : option Z) (acc : bool) (c : connection) :
  validate_expense m b acc c =
  (Ret tt,
   mkconn (mktables (transactions (view c))
             (validated_expenses (view c) ++
                [mkvalidation (validated_expenses_seq (view c) + 1) m
                   (if acc then b else None) acc])
             (transactions_seq (view c)) (validated_expenses_seq (view c) + 1))
          None).
Proof. reflexivity. Qed.

Lemma find_matching_state (a : Q) (d : string) (tol : Z) (c : connection) :
  snd (find_matching_transactions a d tol c) = c.
Proof.
  unfold find_matching_transactions.
  destruct (strptime_iso d) as [base|]; [|reflexivity].
  destruct (shifted_date base (- tol)); [|reflexivity].
  destruct (shifted_date base tol); reflexivity.
Qed.

(** The rows returned are rows of the table that pass the WHERE clause. *)
Lemma find_matching_rows (a : Q) (d : string) (tol : Z) (c : connection)
  (rows : list transaction_row) :
  fst (find_matching_transactions a d tol c) = Ret rows ->
  exists start_date end_date,
    rows = List.filter (matches_query a start_date end_date (view c))
                       (transactions (view c)).
Proof.
  unfold find_matching_transactions.
  destruct (strptime_iso d) as [base|]; [|discriminate].
  destruct (shifted_date base (- tol)) as [s|]; [|discriminate].
  destruct (shifted_date base tol) as [e|]; [|discriminate].
  cbn [select fst]. intros H. injection H as <-. exists s, e. reflexivity.
Qed.

(** The answer of the search depends on the rows and on the ids of the
    validated bank rows only. *)
Lemma find_matching_ext (a : Q) (d : string) (tol : Z) (c1 c2 : connection) :
  transactions (view c1) = transactions (view c2) ->
  validated_bank_ids (view c1) = validated_bank_ids (view c2) ->
  fst (find_matching_transactions a d tol c1) =
  fst (find_matching_transactions a d tol c2).
Proof.
  intros T V. unfold find_matching_transactions.
  destruct (strptime_iso d) as [base|]; [|reflexivity].
  destruct (shifted_date base (- tol)) as [s|]; [|reflexivity].
  destruct (shifted_date base tol) as [e|]; [|reflexivity].
  cbn [select fst]. rewrite T. f_equal. apply filter_ext. intros r.
  unfold matches_query. rewrite V. reflexivity.
Qed.

Lemma validated_bank_ids_in (t : tables) (b : Z) :
  In b (validated_bank_ids t) <->
  exists v, In v (validated_expenses t) /\ bank_transaction_id v = Some b.
Proof.
  unfold validated_bank_ids. rewrite in_flat_map. split.
  - intros (v & Hin & Hb). exists v. split; [exact Hin|].
    destruct (bank_transaction_id v) as [b'|]; [|contradiction].
    destruct Hb as [->|[]]. reflexivity.
  - intros (v & Hin & Hb). exists v. split; [exact Hin|].
    rewrite Hb. left. reflexivity.
Qed.

(** No row returned is referenced by a validation row. *)
Lemma find_matching_excludes (a : Q) (d : string) (tol : Z) (c : connection)
  (rows : list transaction_row) (r : transaction_row) :
  fst (find_matching_transactions a d tol c) = Ret rows -> In r rows ->
  ~ In (row_id r) (validated_bank_ids (view c)).
Proof.
  intros H Hin. destruct (find_matching_rows a d tol c rows H) as (s & e & ->).
  apply filter_In in Hin. destruct Hin as [_ M].
  unfold matches_query in M. apply andb_prop in M. destruct M as [_ M].
  apply negb_true_iff in M. intros B.
  assert (X : existsb (Z.eqb (row_id r)) (validated_bank_ids (view c)) = true).
  { apply existsb_exists. exists (row_id r). split; [exact B|apply Z.eqb_refl]. }
  congruence.
Qed.

Lemma closed_view (c : connection) : pending c = None -> view c = committed c.
Proof. unfold view. intros ->. reflexivity. Qed.

(** [delete_manual_transaction] on an id that is not the id of a manual
    row, with no transaction open: the [ValueError] is caught, the
    [ROLLBACK] of the handler has no transaction to roll back and its
    [OperationalError] leaves the function; nothing is changed. *)
Lemma delete_not_manual (id : Z) (c : connection) :
  pending c = None ->
  source_of id (committed c) <> Some "manual" ->
  delete_manual_transaction id c =
  (Raise (OperationalError "cannot rollback - no transaction is active"), c).
Proof.
  destruct c as [t p]. cbn [pending committed]. intros -> N.
  unfold delete_manual_transaction, try_except, dbind, select.
  cbn [view pending committed].
  destruct (source_of id t) as [s|].
  - destruct (String.eqb_spec s "manual") as [->|_]; [congruence|reflexivity].
  - reflexivity.
Qed.

(** [delete_manual_transaction] on the id of a manual row, with no
    transaction open: both deletions are committed together. *)
Lemma delete_manual_ok (id : Z) (c : connection) :
  pending c = None ->
  source_of id (committed c) = Some "manual" ->
  delete_manual_transaction id c =
  (Ret (true, "Transaction deleted successfully"),
   mkconn (Spec.without_manual id (committed c)) None).
Proof.
  destruct c as [t p]. cbn [pending committed]. intros -> M.
  unfold delete_manual_transaction, try_except, dbind, select.
  cbn [view pending committed]. rewrite M. reflexivity.
Qed.

Lemma delete_cases (id : Z) (c : connection) :
  pending c = None ->
  snd (delete_manual_transaction id c) = c \/
  snd (delete_manual_transaction id c) =
    mkconn (Spec.without_manual id (committed c)) None.
Proof.
  intros P. destruct (source_of id (committed c)) as [s|] eqn:S.
  - destruct (String.eqb_spec s "manual") as [->|N].
    + right. rewrite (delete_manual_ok id c P S). reflexivity.
    + left. rewrite (delete_not_manual id c P); [reflexivity|].
      rewrite S. congruence.
  - left. rewrite (delete_not_manual id c P); [reflexivity|].
    rewrite S. discriminate.
Qed.

(** [add_manual_transaction] either rolls back (the CHECK on the kind or
    the search for matches raised) or commits one more row. *)
Lemma add_manual_cases (d s : string) (a : Q) (cat : option string)
  (ty : string) (ref : option string) (c : connection) :
  snd (add_manual_transaction d s a cat ty ref c) = mkconn (committed c) None \/
  snd (add_manual_transaction d s a cat ty ref c) =
    mkconn (mktables
              (transactions (view c) ++
                 [mkrow (transactions_seq (view c) + 1) d s ref ty a 0 cat "manual"])
              (validated_expenses (view c)) (transactions_seq (view c) + 1)
              (validated_expenses_seq (view c)))
           None.
Proof.
  unfold add_manual_transaction, try_except, execute_dml, insert_transaction,
    dbind, select.
  destruct ((ty =? "debit")%string || (ty =? "credit")%string).
  - cbv beta iota. destruct (ty =? "debit")%string.
    + match goal with
      | |- context [find_matching_transactions ?x ?y ?z ?w] =>
          pose proof (find_matching_state x y z w) as F;
          destruct (find_matching_transactions x y z w) as [[rows|e] c2]
      end; cbn [snd] in F; subst c2.
      * right. reflexivity.
      * left. reflexivity.
    + right. reflexivity.
  - left. reflexivity.
Qed.

Lemma step_closed (c : connection) (o : operation) :
  pending c = None -> pending (step c o) = None.
Proof.
  intros P. destruct o as [file|d s a cat ty ref|a d tol|m b acc|id];
    cbn [step].
  - destruct (parse_statement file) as [df|e] eqn:E.
    + destruct (process_bank_statement_parsed file df c E) as (k & c1 & _ & ->).
      reflexivity.
    + rewrite (process_bank_statement_failed file e c E). exact P.
  - destruct (add_manual_cases d s a cat ty ref c) as [-> | ->]; reflexivity.
  - rewrite find_matching_state. exact P.
  - rewrite validate_expense_effect. reflexivity.
  - destruct (delete_cases id c P) as [-> | ->]; [exact P|reflexivity].
Qed.

Lemma run_closed (ops : list operation) :
  forall c, pending c = None -> pending (run ops c) = None.
Proof.
  induction ops as [|o ops IH]; intros c P; [exact P|].
  apply IH. apply step_closed. exact P.
Qed.

(** Between two operations no transaction is open. *)
Lemma reachable_closed (c : connection) : reachable c -> pending c = None.
Proof. intros (ops & ->). apply run_closed. reflexivity. Qed.

Lemma reachable_step (c : connection) (o : operation) :
  reachable c -> reachable (step c o).
Proof.
  intros (ops & ->). exists (ops ++ [o])%list.
  unfold run. rewrite fold_left_app. reflexivity.
Qed.

(** The validation rows after an operation: a deletion of the manual row
    [id] removes the rows that refer to it, a validation adds one, nothing
    else touches them. *)
Lemma step_validations (c : connection) (o : operation) (v : validation_row) :
  pending c = None ->
  In v (validated_expenses (committed c)) ->
  o <> DeleteManual (manual_transaction_id v) ->
  In v (validated_expenses (committed (step c o))).
Proof.
  intros P Hin N. destruct o as [file|d s a cat ty ref|a d tol|m b acc|id];
    cbn [step].
  - destruct (parse_statement file) as [df|e] eqn:E.
    + destruct (process_bank_statement_parsed file df c E) as (k & c1 & I & ->).
      destruct (ingest_rows_effect df (0, 0) c) as (k' & c1' & I' & _ & V & _).
      rewrite I in I'. injection I' as _ <-.
      cbn [snd committed]. rewrite V, (closed_view c P). exact Hin.
    + rewrite (process_bank_statement_failed file e c E). exact Hin.
  - destruct (add_manual_cases d s a cat ty ref c) as [-> | ->];
      cbn [committed validated_expenses]; [exact Hin|].
    rewrite (closed_view c P). exact Hin.
  - rewrite find_matching_state. exact Hin.
  - rewrite validate_expense_effect. cbn [snd committed validated_expenses].
    rewrite (closed_view c P). apply in_or_app. left. exact Hin.
  - destruct (delete_cases id c P) as [-> | ->]; [exact Hin|].
    cbn [committed Spec.without_manual validated_expenses].
    apply filter_In. split; [exact Hin|].
    apply negb_true_iff. apply Z.eqb_neq. intros E. apply N. congruence.
Qed.

Lemma run_validations (ops : list operation) (v : validation_row) :
  (forall o, In o ops -> o <> DeleteManual (manual_transaction_id v)) ->
  forall c, pending c = None ->
  In v (validated_expenses (committed c)) ->
  In v (validated_expenses (committed (run ops c))).
Proof.
  induction ops as [|o ops IH]; intros N c P Hin; [exact Hin|].
  cbn [run fold_left]. apply IH.
  - intros o' H. apply N. right. exact H.
  - apply step_closed. exact P.
  - apply step_validations; auto. apply N. left. reflexivity.
Qed.

(** Where the validation rows after an operation come from. *)
Lemma step_validations_origin (c : connection) (o : operation) (v : validation_row) :
  pending c = None ->
  In v (validated_expenses (committed (step c o))) ->
  In v (validated_expenses (committed c)) \/
  exists n m b acc, v = mkvalidation n m (if acc : bool then b else None) acc.
Proof.
  intros P. destruct o as [file|d s a cat ty ref|a d tol|m b acc|id];
    cbn [step].
  - destruct (parse_statement file) as [df|e] eqn:E.
    + destruct (process_bank_statement_parsed file df c E) as (k & c1 & I & ->).
      destruct (ingest_rows_effect df (0, 0) c) as (k' & c1' & I' & _ & V & _).
      rewrite I in I'. injection I' as _ <-.
      cbn [snd committed]. rewrite V, (closed_view c P). auto.
    + rewrite (process_bank_statement_failed file e c E). auto.
  - destruct (add_manual_cases d s a cat ty ref c) as [-> | ->];
      cbn [committed validated_expenses]; [auto|].
    rewrite (closed_view c P). auto.
  - rewrite find_matching_state. auto.
  - rewrite validate_expense_effect. cbn [snd committed validated_expenses].
    rewrite (closed_view c P). intros H. apply in_app_or in H.
    destruct H as [H|[<-|[]]]; [left; exact H|].
    right. eexists _, m, b, acc. reflexivity.
  - destruct (delete_cases id c P) as [-> | ->]; [auto|].
    cbn [committed Spec.without_manual validated_expenses].
    intros H. apply filter_In in H. left. exact (proj1 H).
Qed.

Lemma step_accepted_only (c : connection) (o : operation) :
  pending c = None ->
  Spec.accepted_only (committed c) -> Spec.accepted_only (committed (step c o)).
Proof.
  intros P A v b Hin Hb.
  destruct (step_validations_origin c o v P Hin) as [H|(n & m & b' & acc & ->)].
  - exact (A v b H Hb).
  - destruct acc; [reflexivity|discriminate Hb].
Qed.

Lemma run_accepted_only (ops : list operation) :
  forall c, pending c = None ->
  Spec.accepted_only (committed c) -> Spec.accepted_only (committed (run ops c)).
Proof.
  induction ops as [|o ops IH]; intros c P A; [exact A|].
  cbn [run fold_left]. apply IH.
  - apply step_closed. exact P.
  - apply step_accepted_only; assumption.
Qed.

(** In a store the operations reach, only accepted validations refer to
    a bank row. *)
Lemma reachable_accepted_only (c : connection) :
  reachable c -> Spec.accepted_only (view c).
Proof.
  intros R. rewrite (closed_view c (reachable_closed c R)).
  destruct R as (ops & ->). apply run_accepted_only; [reflexivity|].
  intros v b [].
Qed.

End StoreFacts.

(* ===================================================================== *)
(** ** Properties of the store *)
(* ===================================================================== *)

Module StoreProperties.

Import PyStr BankStatementParser BudgetTracker StoreFacts.

(** C2, as stated, fails for "permanently": deleting the manual
    transaction removes its validation rows, and the bank row it was
    matched with is a candidate again. *)
Lemma validated_row_returns_after_delete :
  fst (find_matching_transactions 1000 "2024-02-03" 5 Examples.reconciled) = Ret [] /\
  fst (find_matching_transactions 1000 "2024-02-03" 5
         (run [DeleteManual 2] Examples.reconciled)) = Ret [Examples.bank_rent_row] /\
  row_id Examples.bank_rent_row = 1.
Proof. repeat split; reflexivity. Qed.

(** C2 (amended): in every store, hence in every store the public
    operations reach, the search for matches never returns a bank row that
    a validation row refers to (in particular an accepted one).  After an
    accepted validation of the manual row [m] against the bank row [b],
    [b] is returned by no search for as long as the manual row [m] is not
    deleted.  A declined validation changes the answer of no search, and
    in a store the operations reach only accepted validations refer to a
    bank row. *)
Theorem validated_bank_rows_excluded :
  (forall c amount date tol rows r v,
     fst (find_matching_transactions amount date tol c) = Ret rows ->
     In r rows -> In v (validated_expenses (view c)) ->
     bank_transaction_id v <> Some (row_id r)) /\
  (forall c m b ops amount date tol rows r,
     (forall o, In o ops -> o <> DeleteManual m) ->
     fst (find_matching_transactions amount date tol
            (run ops (step c (Validate m (Some b) true)))) = Ret rows ->
     In r rows -> row_id r <> b) /\
  (forall c m b amount date tol,
     fst (find_matching_transactions amount date tol (step c (Validate m b false))) =
     fst (find_matching_transactions amount date tol c)) /\
  (forall c v b,
     reachable c -> In v (validated_expenses (view c)) ->
     bank_transaction_id v = Some b -> is_validated v = true).
Proof.
  split; [|split; [|split]];
    [| | |intros c v b R Hv Hb; exact (reachable_accepted_only c R v b Hv Hb)].
  - intros c amount date tol rows r v F Hr Hv B.
    apply (find_matching_excludes _ _ _ _ _ _ F Hr).
    apply validated_bank_ids_in. exists v. split; assumption.
  - intros c m b ops amount date tol rows r N F Hr E.
    set (v := mkvalidation (validated_expenses_seq (view c) + 1) m (Some b) true).
    set (c1 := step c (Validate m (Some b) true)) in *.
    assert (P1 : pending c1 = None).
    { unfold c1. cbn [step]. rewrite validate_expense_effect. reflexivity. }
    assert (V1 : In v (validated_expenses (committed c1))).
    { unfold c1. cbn [step]. rewrite validate_expense_effect.
      cbn [snd committed validated_expenses]. apply in_or_app. right. left.
      reflexivity. }
    pose proof (run_validations ops v N c1 P1 V1) as V.
    pose proof (run_closed ops c1 P1) as P.
    rewrite <- (closed_view _ P) in V.
    apply (find_matching_excludes _ _ _ _ _ _ F Hr).
    apply validated_bank_ids_in. exists v. split; [exact V|].
    rewrite E. reflexivity.
  - intros c m b amount date tol. apply find_matching_ext.
    + cbn [step]. rewrite validate_expense_effect. reflexivity.
    + cbn [step]. rewrite validate_expense_effect.
      unfold validated_bank_ids.
      cbn [snd view pending committed validated_expenses].
      rewrite flat_map_app. cbn [flat_map bank_transaction_id].
      rewrite !app_nil_r. reflexivity.
Qed.

Lemma validated_bank_rows_excluded_witness :
  row_id Examples.second_rent_row <> 1.
Proof.
  apply (proj1 (proj2 validated_bank_rows_excluded) Examples.two_rents 3 1
           [FindMatches 1000 "2024-02-03" 5; DeleteManual 1]
           1000%Q "2024-02-03"%string 5 [Examples.second_rent_row]
           Examples.second_rent_row).
  - intros o [<-|[<-|[]]]; discriminate.
  - reflexivity.
  - left. reflexivity.
Defined.

(** C3: a parsed transaction for which the table holds a row with the
    same date, description, amount and kind, whatever the source of that
    row, is counted as a duplicate and the store is left as it is; one for
    which there is no such row is inserted with the source
    [bank_statement] and counted as added.  Hence a transaction ingested
    twice is a duplicate the second time, and a statement processed twice
    adds nothing the second time. *)
Theorem ingest_deduplicates :
  (forall c counts tx,
     (exists r, In r (transactions (view c)) /\ Spec.same_key tx r) ->
     ingest_row counts tx c = (Ret (fst counts, snd counts + 1), c)) /\
  (forall c counts tx,
     (forall r, In r (transactions (view c)) -> ~ Spec.same_key tx r) ->
     exists c',
       ingest_row counts tx c = (Ret (fst counts + 1, snd counts), c') /\
       committed c' = committed c /\
       transactions (view c') =
         (transactions (view c) ++
            [Spec.bank_row (transactions_seq (view c)) tx])%list /\
       row_source (Spec.bank_row (transactions_seq (view c)) tx) = "bank_statement") /\
  (forall c counts counts' tx,
     ingest_row counts' tx (snd (ingest_row counts tx c)) =
     (Ret (fst counts', snd counts' + 1), snd (ingest_row counts tx c))) /\
  (forall file df c,
     parse_statement file = Ret df ->
     exists counts c1,
       process_bank_statement file c = (Ret (true, ingest_message counts), c1) /\
       process_bank_statement file c1 =
         (Ret (true, ingest_message (0, Z.of_nat (List.length df))), c1)).
Proof.
  split; [|split; [|split]].
  - intros c counts tx D. apply ingest_row_duplicate. exact D.
  - intros c counts tx N. rewrite (ingest_row_new c counts tx N).
    eexists. split; [reflexivity|]. repeat split.
  - intros c counts counts' tx.
    destruct (ingest_row_effect c counts tx) as (k & c1 & E & _ & _ & _ & D).
    rewrite E. cbn [snd]. apply ingest_row_duplicate. exact D.
  - intros file df c P.
    destruct (process_bank_statement_parsed file df c P) as (k & c1 & I & E).
    destruct (ingest_rows_effect df (0, 0) c) as (k' & c1' & I' & _ & _ & _ & D).
    rewrite I in I'. injection I' as <- <-.
    exists k, (mkconn (view c1) None). split; [exact E|].
    destruct (process_bank_statement_parsed file df (mkconn (view c1) None) P)
      as (k2 & c2 & I2 & E2).
    rewrite (ingest_rows_all_duplicates df (mkconn (view c1) None) D (0, 0)) in I2.
    injection I2 as <- <-. exact E2.
Qed.

Lemma ingest_deduplicates_witness :
  ingest_row (0, 0) Examples.rent_sheet Examples.ingested =
  (Ret (0, 1), Examples.ingested).
Proof.
  apply (proj1 ingest_deduplicates Examples.ingested (0, 0) Examples.rent_sheet).
  exists Examples.bank_rent_row. split; [left; reflexivity|].
  repeat split; reflexivity.
Defined.

(** C4: on the id of a bank row, [delete_manual_transaction] changes
    nothing, but it does not report the refusal: the [ROLLBACK] of its
    handler finds no open transaction and its [OperationalError] leaves
    the function. *)
Theorem delete_bank_row_raises :
  source_of 1 (committed Examples.ingested) = Some "bank_statement"%string /\
  delete_manual_transaction 1 Examples.ingested =
  (Raise (OperationalError "cannot rollback - no transaction is active"),
   Examples.ingested).
Proof. split; reflexivity. Qed.

End StoreProperties.

(* ===================================================================== *)
(** ** Further properties of the statement parser *)
(* ===================================================================== *)

Module ParserExtras.

Import PyStr BankStatementParser PyStrFacts ParserFacts.

(* --------------------------------------------------------------------- *)
(** *** parse_date *)

Lemma some_eq {A : Type} (x y : A) : Some x = Some y -> x = y.
Proof. congruence. Qed.

Lemma nonzero_digit (a : ascii) :
  isdigit a = true -> Ascii.eqb a "0"%char = false -> 1 <= digit_of a <= 9.
Proof.
  destruct a as [[] [] [] [] [] [] [] []]; intros H1 H2;
    vm_compute in H1, H2 |- *; first [discriminate | split; discriminate].
Qed.

Lemma digit_of_bounds (a : ascii) : isdigit a = true -> 0 <= digit_of a <= 9.
Proof. exact (isdigit_val a). Qed.

Lemma day_field_bounds (s : string) (d : Z) :
  day_field s = Some d -> 1 <= d <= 31.
Proof.
  unfold day_field. destruct s as [|a [|b [|c r]]]; try discriminate.
  - destruct (isdigit a) eqn:Da; [|discriminate].
    destruct (Ascii.eqb a "0") eqn:Za; [discriminate|]. cbn [andb negb].
    intros H. injection H as <-. pose proof (nonzero_digit a Da Za). lia.
  - destruct (Ascii.eqb a " ").
    + destruct (isdigit b) eqn:Db; [|discriminate].
      destruct (Ascii.eqb b "0") eqn:Zb; [discriminate|]. cbn [andb negb].
      intros H. injection H as <-. pose proof (nonzero_digit b Db Zb). lia.
    + destruct (isdigit a && isdigit b); [|discriminate].
      destruct ((1 <=? 10 * digit_of a + digit_of b) &&
                (10 * digit_of a + digit_of b <=? 31)) eqn:E; [|discriminate].
      intros H. apply some_eq in H. subst d.
      apply andb_prop in E. destruct E as [E1 E2].
      apply Z.leb_le in E1. apply Z.leb_le in E2. lia.
Qed.

Lemma month_field_bounds (s : string) (m : Z) :
  month_field s = Some m -> 1 <= m <= 12.
Proof.
  unfold month_field. destruct s as [|a [|b [|c r]]]; try discriminate.
  - destruct (isdigit a) eqn:Da; [|discriminate].
    destruct (Ascii.eqb a "0") eqn:Za; [discriminate|]. cbn [andb negb].
    intros H. injection H as <-. pose proof (nonzero_digit a Da Za). lia.
  - destruct (isdigit a && isdigit b); [|discriminate].
    destruct ((1 <=? 10 * digit_of a + digit_of b) &&
              (10 * digit_of a + digit_of b <=? 12)) eqn:E; [|discriminate].
    intros H. apply some_eq in H. subst m.
    apply andb_prop in E. destruct E as [E1 E2].
    apply Z.leb_le in E1. apply Z.leb_le in E2. lia.
Qed.

Lemma year2_field_bounds (s : string) (y : Z) :
  year2_field s = Some y -> 1969 <= y <= 2068.
Proof.
  unfold year2_field. destruct s as [|a [|b [|c r]]]; try discriminate.
  destruct (isdigit a) eqn:Da; [|discriminate].
  destruct (isdigit b) eqn:Db; [|discriminate]. cbn [andb].
  pose proof (digit_of_bounds a Da). pose proof (digit_of_bounds b Db).
  destruct (10 * digit_of a + digit_of b <? 69) eqn:E;
    intros Hy; apply some_eq in Hy; subst y.
  - apply Z.ltb_lt in E. lia.
  - apply Z.ltb_ge in E. lia.
Qed.

Lemma year4_field_bounds (s : string) (y : Z) :
  year4_field s = Some y -> 0 <= y <= 9999.
Proof.
  unfold year4_field. destruct s as [|a [|b [|c [|d [|e r]]]]]; try discriminate.
  destruct (isdigit a) eqn:Da; [|discriminate].
  destruct (isdigit b) eqn:Db; [|discriminate].
  destruct (isdigit c) eqn:Dc; [|discriminate].
  destruct (isdigit d) eqn:Dd; [|discriminate]. cbn [andb digits_val].
  pose proof (isdigit_val a Da). pose proof (isdigit_val b Db).
  pose proof (isdigit_val c Dc). pose proof (isdigit_val d Dd).
  intros Hy. apply some_eq in Hy. subst y. lia.
Qed.

Lemma strptime_valid (year_field : string -> option Z) (lo hi : Z) :
  (forall s y, year_field s = Some y -> lo <= y <= hi) ->
  forall s dt, strptime year_field s = Some dt ->
  lo <= year dt <= hi /\ 1 <= year dt /\ 1 <= month dt <= 12 /\
  1 <= day dt <= days_in_month (year dt) (month dt) /\
  hour dt = 0 /\ minute dt = 0 /\ second dt = 0.
Proof.
  intros Hy s dt. unfold strptime.
  destruct (split_at "/" s) as [[ds rest]|]; [|discriminate].
  destruct (split_at "/" rest) as [[ms ys]|]; [|discriminate].
  destruct (day_field ds) as [d|] eqn:D; [|discriminate].
  destruct (month_field ms) as [m|] eqn:M; [|discriminate].
  destruct (year_field ys) as [y|] eqn:Y; [|discriminate].
  destruct ((1 <=? y) && (d <=? days_in_month y m)) eqn:E; [|discriminate].
  intros H. injection H as <-. cbn [midnight year month day hour minute second].
  apply andb_prop in E. destruct E as [E1 E2].
  apply Z.leb_le in E1. apply Z.leb_le in E2.
  pose proof (day_field_bounds _ _ D). pose proof (month_field_bounds _ _ M).
  pose proof (Hy _ _ Y). repeat split; lia.
Qed.

(** X1: a date read from a text is a real calendar date at midnight,
    in the years 1 to 9999; read in the form dd/mm/yy, its year lies
    between 1969 and 2068. *)
Theorem parse_date_text_valid (s : string) (dt : datetime) :
  parse_date (CStr s) = Some dt ->
  Rowwise.valid_date dt /\
  (strptime year2_field (strip s) <> None -> 1969 <= year dt <= 2068).
Proof.
  unfold parse_date, Rowwise.valid_date.
  destruct (strptime year2_field (strip s)) as [d2|] eqn:E2.
  - intros H. injection H as <-.
    pose proof (strptime_valid year2_field 1969 2068 year2_field_bounds _ _ E2).
    split; [|intros _]; repeat split; lia.
  - intros E4.
    pose proof (strptime_valid year4_field 0 9999 year4_field_bounds _ _ E4).
    split; [|congruence]. repeat split; lia.
Qed.

Lemma parse_date_text_valid_witness :
  Rowwise.valid_date (midnight 2024 2 1) /\
  (strptime year2_field (strip " 01/02/24 ") <> None ->
   1969 <= year (midnight 2024 2 1) <= 2068).
Proof. apply (parse_date_text_valid " 01/02/24 "). reflexivity. Defined.

(* --------------------------------------------------------------------- *)
(** *** The columns of a sheet *)

Lemma next_col_first (p : string -> bool) (labels : list (option string)) :
  forall k i, next_col p k labels = Ret i ->
  exists j, i = (k + j)%nat /\ Rowwise.first_label p labels j.
Proof.
  induction labels as [|[col|] rest IH]; cbn [next_col]; intros k i H;
    try discriminate.
  destruct (p (lower col)) eqn:E.
  - injection H as <-. exists 0%nat. split; [lia|]. split.
    + exists col. split; [reflexivity|exact E].
    + intros j Hj. lia.
  - destruct (IH _ _ H) as (j & -> & (c & Hc & Pc) & Hmin).
    exists (S j). split; [lia|]. split.
    + exists c. split; assumption.
    + intros [|j'] Hj'.
      * exists col. split; [reflexivity|exact E].
      * apply Hmin. lia.
Qed.

Lemma next_col_missing (p : string -> bool) (labels : list (option string)) :
  Rowwise.no_label p labels -> forall k, exists e, next_col p k labels = Raise e.
Proof.
  induction labels as [|[col|] rest IH]; intros N k; cbn [next_col].
  - eexists. reflexivity.
  - rewrite (N col (or_introl eq_refl)). apply IH.
    intros c Hc. apply N. right. exact Hc.
  - eexists. reflexivity.
Qed.

Lemma label_passes_bound (p : string -> bool) (labels : list (option string))
  (i : nat) : Rowwise.label_passes p labels i -> (i < List.length labels)%nat.
Proof.
  intros (c & Hc & _). apply nth_error_Some. congruence.
Qed.

(** X2: when the columns of a sheet are resolved, each logical column is
    the first column, from the left, whose label is a text containing the
    keyword of that column (the date column the first with "date" and
    without "value"), all columns before it having text labels; every
    resolved index lies inside the header row. *)
Theorem find_columns_first (labels : list (option string)) (cols : columns) :
  find_columns labels = Ret cols ->
  Rowwise.first_label (fun c => contains "date" c && negb (contains "value" c))
    labels (date_col cols) /\
  Rowwise.first_label (fun c => contains "narration" c) labels (narration_col cols) /\
  Rowwise.first_label (fun c => contains "ref" c || contains "chq" c)
    labels (ref_col cols) /\
  Rowwise.first_label (fun c => contains "withdrawal" c || contains "debit" c)
    labels (withdrawal_col cols) /\
  Rowwise.first_label (fun c => contains "deposit" c || contains "credit" c)
    labels (deposit_col cols) /\
  Rowwise.first_label (fun c => contains "balance" c) labels (balance_col cols) /\
  (date_col cols < List.length labels /\ narration_col cols < List.length labels /\
   ref_col cols < List.length labels /\ withdrawal_col cols < List.length labels /\
   deposit_col cols < List.length labels /\ balance_col cols < List.length labels)%nat.
Proof.
  unfold find_columns, obind.
  destruct (next_col _ 0 labels) as [d|] eqn:D; [|discriminate].
  destruct (next_col (fun c => contains "narration" c) 0 labels) as [n|] eqn:N;
    [|discriminate].
  destruct (next_col (fun c => contains "ref" c || contains "chq" c) 0 labels)
    as [r|] eqn:R; [|discriminate].
  destruct (next_col (fun c => contains "withdrawal" c || contains "debit" c) 0 labels)
    as [w|] eqn:W; [|discriminate].
  destruct (next_col (fun c => contains "deposit" c || contains "credit" c) 0 labels)
    as [q|] eqn:Q; [|discriminate].
  destruct (next_col (fun c => contains "balance" c) 0 labels) as [b|] eqn:B;
    [|discriminate].
  intros H. injection H as <-.
  cbn [date_col narration_col ref_col withdrawal_col deposit_col balance_col].
  destruct (next_col_first _ _ _ _ D) as (? & -> & Fd).
  destruct (next_col_first _ _ _ _ N) as (? & -> & Fn).
  destruct (next_col_first _ _ _ _ R) as (? & -> & Fr).
  destruct (next_col_first _ _ _ _ W) as (? & -> & Fw).
  destruct (next_col_first _ _ _ _ Q) as (? & -> & Fq).
  destruct (next_col_first _ _ _ _ B) as (? & -> & Fb).
  cbn [Nat.add].
  repeat (split; [assumption|]).
  repeat split; eapply label_passes_bound; match goal with
    | F : Rowwise.first_label _ _ _ |- _ => exact (proj1 F) end.
Qed.

Lemma find_columns_first_witness :
  Rowwise.first_label (fun c => contains "date" c && negb (contains "value" c))
    [Some "value dt"; Some "date"; Some "narration"; Some "chq./ref.no.";
     Some "withdrawal amt."; Some "deposit amt."; Some "closing balance"]
    (date_col (mkcolumns 1 2 3 4 5 6)).
Proof.
  apply (find_columns_first
           [Some "value dt"; Some "date"; Some "narration"; Some "chq./ref.no.";
            Some "withdrawal amt."; Some "deposit amt."; Some "closing balance"]
           (mkcolumns 1 2 3 4 5 6)).
  reflexivity.
Defined.

(** X3: a sheet whose header lacks one of the six columns cannot be
    parsed: when no label of the header row is a text with the keyword of
    one of the columns (for instance none contains "ref" or "chq"), the
    parse raises a [ValueError] and returns no transaction. *)
Theorem missing_column_aborts (sheet : list row) (h : nat) :
  find_header 0 (read_excel sheet) = Some h ->
  let labels := map clean_label (nth h (read_excel sheet) []) in
  Rowwise.no_label (fun c => contains "date" c && negb (contains "value" c)) labels \/
  Rowwise.no_label (fun c => contains "narration" c) labels \/
  Rowwise.no_label (fun c => contains "ref" c || contains "chq" c) labels \/
  Rowwise.no_label (fun c => contains "withdrawal" c || contains "debit" c) labels \/
  Rowwise.no_label (fun c => contains "deposit" c || contains "credit" c) labels \/
  Rowwise.no_label (fun c => contains "balance" c) labels ->
  exists msg, parse_excel_statement sheet = Raise (ValueError msg).
Proof.
  intros Hh labels N.
  assert (F : exists e, find_columns labels = Raise e).
  { unfold find_columns, obind.
    destruct N as [N|[N|[N|[N|[N|N]]]]];
      repeat match goal with
      | |- exists e, match next_col ?p 0 labels with _ => _ end = Raise e =>
          first
            [ destruct (next_col_missing p labels N 0%nat) as (e0 & ->);
              exists e0; reflexivity
            | destruct (next_col p 0 labels) as [?|e0];
              [|exists e0; reflexivity] ]
      end. }
  destruct F as (e & F). eexists.
  unfold parse_excel_statement, parse_excel_body. rewrite Hh.
  fold labels. rewrite F. reflexivity.
Qed.

Lemma missing_column_aborts_witness :
  exists msg,
    parse_excel_statement (Examples.title_row :: Examples.spec_rows) =
      Raise (ValueError msg).
Proof.
  apply (missing_column_aborts (Examples.title_row :: Examples.spec_rows) 0);
    [reflexivity|].
  right. right. left. intros col H.
  repeat (destruct H as [H|H]; [injection H as <-; reflexivity|]).
  contradiction.
Defined.

(* --------------------------------------------------------------------- *)
(** *** The rows around the header *)

Lemma skipn_cons_nth {A} (d : A) (l : list A) :
  forall j, (j < List.length l)%nat -> skipn j l = nth j l d :: skipn (S j) l.
Proof.
  induction l as [|x l IH]; intros j H; [simpl in H; lia|].
  destruct j as [|j]; [reflexivity|].
  cbn [skipn nth]. rewrite (IH j) by (simpl in H; lia). reflexivity.
Qed.

(** X4: the first row of a sheet is read as the column labels and not
    looked at again, and the rows between it and the header row play no
    part: the parse of a sheet is the parse of the sheet with any one row
    in place of all the rows above its header row. *)
Theorem rows_above_header_ignored (first first' : row) (df : list row) (h : nat) :
  find_header 0 df = Some h ->
  parse_excel_statement (first :: df) =
  parse_excel_statement (first' :: skipn h df).
Proof.
  intros Hh. destruct (find_header_some df 0 h Hh) as (j & -> & Hlt & Hj & _).
  cbn [Nat.add] in *.
  unfold parse_excel_statement, parse_excel_body, read_excel. cbn [tl].
  rewrite Hh.
  rewrite (@skipn_cons_nth row [] df j Hlt). cbn [find_header]. rewrite Hj.
  cbn [nth skipn]. reflexivity.
Qed.

Lemma rows_above_header_ignored_witness :
  parse_excel_statement
    (Examples.title_row ::
     [CStr "HDFC BANK Ltd."; CNaN; CNaN; CNaN; CNaN; CNaN] ::
     Examples.rows_with_reference) =
  parse_excel_statement
    (Examples.title_row ::
     skipn 1 ([CStr "HDFC BANK Ltd."; CNaN; CNaN; CNaN; CNaN; CNaN] ::
              Examples.rows_with_reference)).
Proof. apply rows_above_header_ignored. reflexivity. Defined.

(* --------------------------------------------------------------------- *)
(** *** The rows of a sheet, one by one *)

Lemma process_rows_rowwise (cols : columns) (rows : list row) :
  process_rows cols "" rows =
  flat_map (Rowwise.row_transaction cols) (Rowwise.before_summary cols rows).
Proof.
  induction rows as [|r rest IH]; [reflexivity|].
  cbn [process_rows Rowwise.before_summary]. unfold Rowwise.is_summary_row.
  destruct (contains "statement summary"
              (lower (cell_str (get r (narration_col cols))))); [reflexivity|].
  cbn [flat_map]. unfold Rowwise.row_transaction at 1.
  destruct (isna (get r (date_col cols))); [exact IH|].
  destruct (parse_date (get r (date_col cols))); [|exact IH].
  cbn [app]. rewrite IH. reflexivity.
Qed.

Lemma before_summary_length (cols : columns) (rows : list row) :
  (List.length (Rowwise.before_summary cols rows) <= List.length rows)%nat.
Proof.
  induction rows as [|r rest IH]; [apply Nat.le_refl|].
  cbn [Rowwise.before_summary]. destruct (Rowwise.is_summary_row cols r);
    cbn [List.length]; lia.
Qed.

Lemma row_transactions_length (cols : columns) (rows : list row) :
  (List.length (flat_map (Rowwise.row_transaction cols) rows) <= List.length rows)%nat.
Proof.
  induction rows as [|r rest IH]; [apply Nat.le_refl|].
  cbn [flat_map]. rewrite length_app. unfold Rowwise.row_transaction at 1.
  destruct (isna _); [cbn [List.length]; lia|].
  destruct (parse_date _); cbn [List.length]; lia.
Qed.

(** X5: the loop over the rows of a sheet works row by row: its result is
    the transactions of the rows above the first statement-summary row,
    each row giving at most one transaction, built from that row alone, in
    the order of the rows; so there are never more transactions than rows,
    and a row whose date cannot be read is dropped without any effect on
    the other rows. *)
Theorem sheet_rows_one_by_one (cols : columns) :
  (forall rows,
     process_rows cols "" rows =
     flat_map (Rowwise.row_transaction cols) (Rowwise.before_summary cols rows)) /\
  (forall rows,
     (List.length (process_rows cols "" rows) <= List.length rows)%nat) /\
  (forall pre r post,
     Rowwise.is_summary_row cols r = false ->
     parse_date (get r (date_col cols)) = None ->
     process_rows cols "" (pre ++ r :: post) = process_rows cols "" (pre ++ post)).
Proof.
  split; [exact (process_rows_rowwise cols)|]. split.
  - intros rows. rewrite process_rows_rowwise.
    eapply Nat.le_trans; [apply row_transactions_length|apply before_summary_length].
  - intros pre r post S D. rewrite !process_rows_rowwise.
    induction pre as [|x pre IH].
    + cbn [app Rowwise.before_summary]. rewrite S. cbn [flat_map].
      unfold Rowwise.row_transaction at 1. rewrite D.
      destruct (isna _); reflexivity.
    + cbn [app Rowwise.before_summary].
      destruct (Rowwise.is_summary_row cols x); [reflexivity|].
      cbn [flat_map]. rewrite IH. reflexivity.
Qed.

Lemma sheet_rows_one_by_one_witness :
  process_rows Examples.reference_columns ""
    ([nth 1 Examples.rows_with_reference []] ++
     [CStr "n/a"; CStr "Opening balance"; CNaN; CNaN; CNaN; CInt 5000] ::
     [nth 1 Examples.two_rent_rows []]) =
  process_rows Examples.reference_columns ""
    ([nth 1 Examples.rows_with_reference []] ++ [nth 1 Examples.two_rent_rows []]).
Proof.
  apply (proj2 (proj2 (sheet_rows_one_by_one Examples.reference_columns)));
    reflexivity.
Defined.

(* --------------------------------------------------------------------- *)
(** *** The rows of a PDF table *)

Lemma nth_error_length_gt {A} (l : list A) (i : nat) (x : A) :
  nth_error l i = Some x -> (i < List.length l)%nat.
Proof. intros H. apply nth_error_Some. congruence. Qed.

Lemma pdf_row_body_cells (r : list string) (t : transaction) :
  pdf_row_body r = Ret (Some t) ->
  (7 <= List.length r)%nat /\
  exists r0 r1 r2 r4 r5 r6,
    nth_error r 0 = Some r0 /\ nth_error r 1 = Some r1 /\
    nth_error r 2 = Some r2 /\ nth_error r 4 = Some r4 /\
    nth_error r 5 = Some r5 /\ nth_error r 6 = Some r6 /\
    r0 <> "" /\
    parse_date (CStr r0) = Some (date t) /\
    description t = strip r1 /\ reference t = strip r2 /\
    balance t = clean_amount (CStr r6).
Proof.
  unfold pdf_row_body, index, obind.
  destruct (nth_error r 0) as [r0|] eqn:E0; [|discriminate].
  destruct (negb (nonempty r0) || contains "statement summary" (lower (join " " r)))
    eqn:S; [discriminate|].
  apply orb_false_elim in S. destruct S as [S _].
  destruct (parse_date (CStr r0)) as [dt|] eqn:D; [|discriminate].
  destruct (nth_error r 4) as [r4|] eqn:E4; [|discriminate].
  destruct (nth_error r 5) as [r5|] eqn:E5; [|discriminate].
  destruct (nth_error r 1) as [r1|] eqn:E1; [|discriminate].
  destruct (nth_error r 2) as [r2|] eqn:E2; [|discriminate].
  destruct (nth_error r 6) as [r6|] eqn:E6; [|discriminate].
  intros H. apply (f_equal (fun o => match o with Ret (Some x) => Some x | _ => None end)) in H.
  apply some_eq in H. subst t.
  split; [exact (nth_error_length_gt _ _ _ E6)|].
  exists r0, r1, r2, r4, r5, r6.
  repeat (split; [reflexivity|]).
  split; [|repeat split; auto].
  intros ->. discriminate S.
Qed.

(** X6: every transaction read from a PDF comes from a table row with at
    least seven cells and a first cell that is not empty; its date is read
    from the first cell, its description and reference are the second and
    third cells trimmed, its balance is the cleaned seventh cell.  A row
    with fewer than seven cells gives nothing. *)
Theorem pdf_transaction_cells (pages : list (list pdf_table)) (t : transaction) :
  In t (pdf_transactions pages) ->
  exists tables table raw r0 r1 r2 r6,
    In tables pages /\ In table tables /\ In raw table /\
    (7 <= List.length raw)%nat /\
    nth_error (clean_pdf_row raw) 0 = Some r0 /\
    nth_error (clean_pdf_row raw) 1 = Some r1 /\
    nth_error (clean_pdf_row raw) 2 = Some r2 /\
    nth_error (clean_pdf_row raw) 6 = Some r6 /\
    r0 <> "" /\ parse_date (CStr r0) = Some (date t) /\
    description t = strip r1 /\ reference t = strip r2 /\
    balance t = clean_amount (CStr r6).
Proof.
  intros H.
  destruct (pdf_transactions_in pages t H) as (tables & table & raw & Hp & Ht & Hr & B).
  destruct (pdf_row_body_cells _ _ B)
    as (L & r0 & r1 & r2 & r4 & r5 & r6 & E0 & E1 & E2 & _ & _ & E6 & N & D & Ds & Rf & Bl).
  exists tables, table, raw, r0, r1, r2, r6.
  unfold clean_pdf_row in L. rewrite length_map in L.
  repeat (split; [assumption|]). assumption.
Qed.

Lemma pdf_transaction_cells_witness :
  exists tables table raw r0 r1 r2 r6,
    In tables [[Examples.pdf_summary_table]] /\ In table tables /\ In raw table /\
    (7 <= List.length raw)%nat /\
    nth_error (clean_pdf_row raw) 0 = Some r0 /\
    nth_error (clean_pdf_row raw) 1 = Some r1 /\
    nth_error (clean_pdf_row raw) 2 = Some r2 /\
    nth_error (clean_pdf_row raw) 6 = Some r6 /\
    r0 <> "" /\ parse_date (CStr r0) = Some (date Examples.rent) /\
    description Examples.rent = strip r1 /\ reference Examples.rent = strip r2 /\
    balance Examples.rent = clean_amount (CStr r6).
Proof.
  apply (pdf_transaction_cells [[Examples.pdf_summary_table]] Examples.rent).
  left. reflexivity.
Defined.

Lemma process_table_headerless (table : pdf_table) :
  (forall raw, In raw table ->
     is_header_text (lower (join " " (clean_pdf_row raw))) = false) ->
  process_table false table = [].
Proof.
  induction table as [|raw rest IH]; intros N; [reflexivity|].
  cbn [process_table]. rewrite (N raw (or_introl eq_refl)). cbn [negb].
  apply IH. intros x Hx. apply N. right. exact Hx.
Qed.

(** X7: a PDF none of whose tables has a header row gives no transaction
    at all, however many dated rows it holds: the parse raises the
    empty-statement error (not a header error). *)
Theorem headerless_pdf_is_empty (pages : list (list pdf_table)) :
  (forall tables table raw,
     In tables pages -> In table tables -> In raw table ->
     is_header_text (lower (join " " (clean_pdf_row raw))) = false) ->
  parse_pdf_statement pages = Raise EmptyStatementError_pdf.
Proof.
  intros N.
  assert (E : pdf_transactions pages = []).
  { unfold pdf_transactions.
    destruct (flat_map _ pages) as [|t ts] eqn:F; [reflexivity|].
    assert (Hin : In t (flat_map
                          (fun tables => flat_map (process_table false) tables)
                          pages)) by (rewrite F; left; reflexivity).
    apply in_flat_map in Hin. destruct Hin as (tables & Hp & Hin).
    apply in_flat_map in Hin. destruct Hin as (table & Ht & Hin).
    rewrite (process_table_headerless table) in Hin; [contradiction|].
    intros raw Hr. exact (N tables table raw Hp Ht Hr). }
  unfold parse_pdf_statement. rewrite E. reflexivity.
Qed.

Lemma headerless_pdf_is_empty_witness :
  parse_pdf_statement [[[Examples.pdf_rent_row; Examples.pdf_rent_row]]] =
  Raise EmptyStatementError_pdf.
Proof.
  apply headerless_pdf_is_empty.
  intros tables table raw [<-|[]] [<-|[]] [<-|[<-|[]]]; reflexivity.
Defined.

(* --------------------------------------------------------------------- *)
(** *** clean_amount on texts *)

Lemma filter_app (p : ascii -> bool) (a b : string) :
  filter p (a ++ b) = filter p a ++ filter p b.
Proof.
  induction a as [|c r IH]; [reflexivity|].
  cbn [append filter]. rewrite IH. destruct (p c); reflexivity.
Qed.

Lemma string_app_assoc (a b c : string) : (a ++ b) ++ c = a ++ (b ++ c).
Proof. induction a as [|x a IH]; [reflexivity|]. cbn [append]. rewrite IH. reflexivity. Qed.

Lemma all_digits_point (r : string) : all_digits (String "." r) = false.
Proof. reflexivity. Qed.

Lemma split_dot_app (x r : string) :
  exists ip u, split_dot (x ++ String "." r) = (ip, Some (u ++ r)).
Proof.
  induction x as [|c x IH].
  - exists EmptyString, EmptyString. reflexivity.
  - cbn [append split_dot]. destruct (Ascii.eqb c ".").
    + exists EmptyString, (x ++ "."). rewrite string_app_assoc. reflexivity.
    + destruct IH as (ip & u & ->). exists (String c ip), u. reflexivity.
Qed.

Lemma float_of_two_points (x y z : string) :
  float_of_digits (x ++ String "." (y ++ String "." z)) = None.
Proof.
  unfold float_of_digits.
  destruct (split_dot_app x (y ++ String "." z)) as (ip & u & ->).
  rewrite !all_digits_app, all_digits_point.
  rewrite !andb_false_r. reflexivity.
Qed.

(** X8: in a text only the digits and the points count: a character that
    is neither, anywhere in the text, does not change the cleaned amount
    (thousands separators, currency names and also a minus sign are
    lost); a text with two or more points is not read as a number and
    gives 0. *)
Theorem clean_amount_text_characters :
  (forall (a b : string) (c : ascii),
     amount_char c = false ->
     clean_amount (CStr (a ++ String c b)) = clean_amount (CStr (a ++ b))) /\
  (forall x y z : string,
     clean_amount (CStr (x ++ String "." (y ++ String "." z))) = 0%Q).
Proof.
  split.
  - intros a b c H. rewrite !CleanAmount.clean_amount_str.
    unfold Spec.cleaned_amount. cbn [cell_str].
    rewrite !filter_app. cbn [filter]. rewrite H. reflexivity.
  - intros x y z. rewrite CleanAmount.clean_amount_str.
    unfold Spec.cleaned_amount. cbn [cell_str].
    rewrite !filter_app. cbn [filter amount_char]. rewrite filter_app.
    cbn [filter]. change (amount_char ".") with true. cbv iota.
    rewrite float_of_two_points. reflexivity.
Qed.

Lemma clean_amount_text_characters_witness :
  clean_amount (CStr ("-1" ++ String "," "000.50")) =
  clean_amount (CStr ("-1" ++ "000.50")).
Proof. apply (proj1 clean_amount_text_characters). reflexivity. Defined.

End ParserExtras.

(* ===================================================================== *)
(** ** Further properties of the store *)
(* ===================================================================== *)

Module StoreExtras.

Import PyStr BankStatementParser BudgetTracker StoreFacts.

(* --------------------------------------------------------------------- *)
(** *** add_manual_transaction *)

Lemma some_eq_string (x y : string) : Some x = Some y -> x = y.
Proof. congruence. Qed.

Lemma closed_eta (c : connection) :
  pending c = None -> mkconn (committed c) None = c.
Proof. destruct c as [t p]. cbn. intros ->. reflexivity. Qed.

(** A manual row is no candidate of the search. *)
Lemma manual_row_no_match (a : Q) (s e : string) (t : tables) (r : transaction_row) :
  row_source r = "manual" -> matches_query a s e t r = false.
Proof.
  intros H. unfold matches_query. rewrite H.
  change ("manual" =? "bank_statement")%string with false.
  rewrite andb_false_r. reflexivity.
Qed.

(** The search on the store with the new manual row, inside the
    transaction of [add_manual_transaction], answers as on the store
    before it. *)
Lemma find_matching_with_manual_row (a a' : Q) (d d' s : string) (tol : Z)
  (cat : option string) (ty : string) (ref : option string) (c : connection) :
  fst (find_matching_transactions a d tol
         (mkconn (committed c)
            (Some (Rowwise.with_manual_row d' s a' cat ty ref (view c))))) =
  fst (find_matching_transactions a d tol c).
Proof.
  unfold find_matching_transactions.
  destruct (strptime_iso d) as [base|]; [|reflexivity].
  destruct (shifted_date base (- tol)) as [lo|]; [|reflexivity].
  destruct (shifted_date base tol) as [hi|]; [|reflexivity].
  cbn [select fst view pending Rowwise.with_manual_row transactions].
  rewrite List.filter_app. cbn [List.filter].
  rewrite manual_row_no_match by reflexivity. rewrite app_nil_r.
  reflexivity.
Qed.

Lemma add_manual_effect (d s : string) (a : Q) (cat : option string)
  (ty : string) (ref : option string) (c : connection) :
  pending c = None ->
  let added := mkconn (Rowwise.with_manual_row d s a cat ty ref (committed c)) None in
  let new_id := transactions_seq (committed c) + 1 in
  ((ty =? "debit")%string || (ty =? "credit")%string = false ->
   add_manual_transaction d s a cat ty ref c =
   (Raise (IntegrityError "CHECK constraint failed: type IN ('debit', 'credit')"), c)) /\
  (ty = "credit" ->
   add_manual_transaction d s a cat ty ref c = (Ret (new_id, []), added)) /\
  (ty = "debit" ->
   add_manual_transaction d s a cat ty ref c =
   match fst (find_matching_transactions a d 5 c) with
   | Ret rows => (Ret (new_id, rows), added)
   | Raise e => (Raise e, c)
   end) /\
  (ty = "debit" -> strptime_iso d = None ->
   exists msg, add_manual_transaction d s a cat ty ref c = (Raise (ValueError msg), c)).
Proof.
  intros P added new_id.
  assert (V : view c = committed c) by (apply closed_view; exact P).
  assert (D : ty = "debit" ->
              add_manual_transaction d s a cat ty ref c =
              match fst (find_matching_transactions a d 5 c) with
              | Ret rows => (Ret (new_id, rows), added)
              | Raise e => (Raise e, c)
              end).
  { intros ->. unfold add_manual_transaction, try_except, execute_dml,
      insert_transaction, dbind, select. cbv beta iota.
    change (("debit" =? "debit")%string || ("debit" =? "credit")%string) with true.
    change ("debit" =? "debit")%string with true. cbv iota.
    pose proof (find_matching_with_manual_row a a d d s 5 cat "debit" ref c) as F.
    unfold Rowwise.with_manual_row in F.
    match goal with
    | |- context [find_matching_transactions a d 5 ?w] =>
        pose proof (find_matching_state a d 5 w) as St;
        destruct (find_matching_transactions a d 5 w) as [[rows|e] c2]
    end; cbn [snd fst] in St, F; subst c2; rewrite <- F.
    - unfold added, new_id, Rowwise.with_manual_row.
      cbn [conn_commit pending view dret]. rewrite V. reflexivity.
    - cbn [conn_rollback draise committed]. rewrite (closed_eta c P). reflexivity. }
  split; [|split; [|split]].
  - intros K. unfold add_manual_transaction, try_except, execute_dml,
      insert_transaction, dbind. rewrite K.
    cbn [conn_rollback draise committed]. rewrite (closed_eta c P). reflexivity.
  - intros ->. unfold add_manual_transaction, try_except, execute_dml,
      insert_transaction, dbind, select. cbv beta iota.
    change (("credit" =? "debit")%string || ("credit" =? "credit")%string) with true.
    change ("credit" =? "debit")%string with false. cbv iota.
    unfold added, new_id, Rowwise.with_manual_row.
    cbn [dret conn_commit pending view]. rewrite V. reflexivity.
  - exact D.
  - intros T N. rewrite (D T). unfold find_matching_transactions. rewrite N.
    eexists. reflexivity.
Qed.

(** X9: what [add_manual_transaction] does.  A kind other than 'debit'
    and 'credit' fails the CHECK of the table: the [IntegrityError] is
    raised again and nothing is stored.  A credit is stored and no match
    is looked for.  A debit is stored and returned with the candidates of
    the store as it was before (the new row, being manual, is never its
    own match); but when the search raises, for instance on a date that
    is not in the form YYYY-MM-DD, the insertion is rolled back and
    nothing is stored.  The id returned is the counter plus one. *)
Theorem add_manual_outcome (d s : string) (a : Q) (cat : option string)
  (ty : string) (ref : option string) (c : connection) :
  pending c = None ->
  let added := mkconn (Rowwise.with_manual_row d s a cat ty ref (committed c)) None in
  let new_id := transactions_seq (committed c) + 1 in
  ((ty =? "debit")%string || (ty =? "credit")%string = false ->
   add_manual_transaction d s a cat ty ref c =
   (Raise (IntegrityError "CHECK constraint failed: type IN ('debit', 'credit')"), c)) /\
  (ty = "credit" ->
   add_manual_transaction d s a cat ty ref c = (Ret (new_id, []), added)) /\
  (ty = "debit" ->
   add_manual_transaction d s a cat ty ref c =
   match fst (find_matching_transactions a d 5 c) with
   | Ret rows => (Ret (new_id, rows), added)
   | Raise e => (Raise e, c)
   end) /\
  (ty = "debit" -> strptime_iso d = None ->
   exists msg, add_manual_transaction d s a cat ty ref c = (Raise (ValueError msg), c)).
Proof. exact (add_manual_effect d s a cat ty ref c). Qed.

Lemma add_manual_outcome_witness :
  exists msg,
    add_manual_transaction "03/02/2024" "Rent" 1000 None "debit" None
      Examples.ingested = (Raise (ValueError msg), Examples.ingested).
Proof.
  apply (proj2 (proj2 (proj2
    (add_manual_outcome "03/02/2024" "Rent" 1000 None "debit" None
       Examples.ingested eq_refl)))); reflexivity.
Defined.

(* --------------------------------------------------------------------- *)
(** *** process_bank_statement *)

Lemma ingest_rows_report (df : list transaction) :
  forall counts c,
  exists counts' c' added,
    ingest_rows counts df c = (Ret counts', c') /\
    committed c' = committed c /\
    fst counts' + snd counts' = fst counts + snd counts + Z.of_nat (List.length df) /\
    fst counts' = fst counts + Z.of_nat (List.length added) /\
    transactions (view c') = (transactions (view c) ++ added)%list /\
    validated_expenses (view c') = validated_expenses (view c) /\
    (forall r, In r added -> row_source r = "bank_statement").
Proof.
  induction df as [|tx rest IH]; intros counts c.
  - exists counts, c, []. cbn [ingest_rows List.length]. unfold dret.
    rewrite app_nil_r. repeat split; try lia. intros r [].
  - destruct (ingest_row_cases c counts tx) as [D|N].
    + destruct (IH (fst counts, snd counts + 1) c)
        as (k & c' & added & E & C & Sm & A & T & V & B).
      exists k, c', added. split.
      * cbn [ingest_rows]. unfold dbind at 1.
        rewrite (ingest_row_duplicate c counts tx D). exact E.
      * cbn [fst snd] in Sm, A.
        change (List.length (tx :: rest)) with (S (List.length rest)).
        rewrite Nat2Z.inj_succ. repeat split; auto; lia.
    + pose proof (ingest_row_new c counts tx N) as E1.
      match type of E1 with _ = (_, ?c1) =>
        destruct (IH (fst counts + 1, snd counts) c1)
          as (k & c' & added & E & C & Sm & A & T & V & B)
      end.
      exists k, c', (Spec.bank_row (transactions_seq (view c)) tx :: added).
      split.
      * cbn [ingest_rows]. unfold dbind at 1. rewrite E1. exact E.
      * cbn [fst snd committed view pending transactions validated_expenses]
          in C, Sm, A, T, V.
        change (List.length (tx :: rest)) with (S (List.length rest)).
        change (List.length (Spec.bank_row (transactions_seq (view c)) tx :: added))
          with (S (List.length added)).
        rewrite !Nat2Z.inj_succ. repeat split; auto; try lia.
        -- rewrite T. rewrite <- app_assoc. reflexivity.
        -- intros r [<-|H]; [reflexivity|exact (B r H)].
Qed.

(** X10: [process_bank_statement] never raises.  When the statement does
    not parse it returns [False] with the text of the error and the store
    is as before.  When it parses it returns [True]; the transactions
    added and the duplicates skipped add up to the transactions parsed;
    the table has grown by exactly the rows added, appended after the old
    rows and all with the source [bank_statement]; the validations are
    untouched and everything is committed. *)
Theorem ingest_report (file : statement_file) (c : connection) :
  match parse_statement file with
  | Raise e => process_bank_statement file c = (Ret (false, exn_str e), c)
  | Ret df =>
      exists counts c' added,
        process_bank_statement file c = (Ret (true, ingest_message counts), c') /\
        fst counts + snd counts = Z.of_nat (List.length df) /\
        fst counts = Z.of_nat (List.length added) /\
        pending c' = None /\
        transactions (committed c') = (transactions (view c) ++ added)%list /\
        validated_expenses (committed c') = validated_expenses (view c) /\
        (forall r, In r added -> row_source r = "bank_statement")
  end.
Proof.
  destruct (parse_statement file) as [df|e] eqn:P.
  - destruct (ingest_rows_report df (0, 0) c)
      as (k & c1 & added & E & _ & Sm & A & T & V & B).
    destruct (process_bank_statement_parsed file df c P) as (k' & c1' & E' & R).
    rewrite E in E'. injection E' as <- <-.
    exists k, (mkconn (view c1) None), added.
    cbn [fst snd] in Sm, A. cbn [pending committed].
    repeat split; auto.
  - apply process_bank_statement_failed. exact P.
Qed.

(* --------------------------------------------------------------------- *)
(** *** The shape of the store *)

Lemma wf_append_row (t : tables) (date description : string)
  (reference_no : option string) (ty : string) (amount balance : Q)
  (category : option string) (source : string) :
  Rowwise.well_formed t ->
  ty = "debit" \/ ty = "credit" ->
  source = "manual" \/ source = "bank_statement" ->
  Rowwise.well_formed
    (mktables
       (transactions t ++
          [mkrow (transactions_seq t + 1) date description reference_no ty
                 amount balance category source])
       (validated_expenses t) (transactions_seq t + 1) (validated_expenses_seq t)).
Proof.
  intros (N1 & N2 & R & V & P1 & P2) Ty So. unfold Rowwise.well_formed.
  cbn [transactions validated_expenses transactions_seq validated_expenses_seq].
  split; [|split; [exact N2|split; [|split; [exact V|split; [lia|exact P2]]]]].
  - rewrite map_app. apply NoDup_app; [exact N1| |].
    + cbn [map row_id]. constructor; [intros []|constructor].
    + intros a Ha [<-|[]].
      apply in_map_iff in Ha. destruct Ha as (r & Hr & Hin).
      pose proof (proj1 (R r Hin)). cbn [row_id] in Hr. lia.
  - intros r Hin. apply in_app_or in Hin. destruct Hin as [Hin|[<-|[]]].
    + destruct (R r Hin) as (I & T & S). split; [lia|]. split; assumption.
    + cbn [row_id row_type row_source]. split; [lia|]. split; assumption.
Qed.

Lemma wf_append_validation (t : tables) (m : Z) (b : option Z) (acc : bool) :
  Rowwise.well_formed t ->
  Rowwise.well_formed
    (mktables (transactions t)
       (validated_expenses t ++
          [mkvalidation (validated_expenses_seq t + 1) m b acc])
       (transactions_seq t) (validated_expenses_seq t + 1)).
Proof.
  intros (N1 & N2 & R & V & P1 & P2). unfold Rowwise.well_formed.
  cbn [transactions validated_expenses transactions_seq validated_expenses_seq].
  split; [exact N1|]. split; [|split; [exact R|split; [|split; [exact P1|lia]]]].
  - rewrite map_app. apply NoDup_app; [exact N2| |].
    + cbn [map]. constructor; [intros []|constructor].
    + intros a Ha [<-|[]].
      apply in_map_iff in Ha. destruct Ha as (v & Hv & Hin).
      pose proof (V v Hin). cbn [validation_id] in Hv. lia.
  - intros v Hin. apply in_app_or in Hin. destruct Hin as [Hin|[<-|[]]].
    + pose proof (V v Hin). lia.
    + cbn [validation_id]. lia.
Qed.

Lemma NoDup_map_filter {A B} (f : A -> B) (p : A -> bool) (l : list A) :
  NoDup (map f l) -> NoDup (map f (List.filter p l)).
Proof.
  induction l as [|x l IH]; cbn [map List.filter]; intros N; [constructor|].
  inversion N as [|y ys Hn Hd]; subst.
  destruct (p x); [|exact (IH Hd)].
  cbn [map]. constructor; [|exact (IH Hd)].
  intros H. apply Hn. apply in_map_iff in H. destruct H as (z & Hz & Hin).
  apply filter_In in Hin. apply in_map_iff. exists z. split; [exact Hz|exact (proj1 Hin)].
Qed.

Lemma wf_without_manual (id : Z) (t : tables) :
  Rowwise.well_formed t -> Rowwise.well_formed (Spec.without_manual id t).
Proof.
  intros (N1 & N2 & R & V & P1 & P2). unfold Rowwise.well_formed, Spec.without_manual.
  cbn [transactions validated_expenses transactions_seq validated_expenses_seq].
  split; [apply NoDup_map_filter; exact N1|].
  split; [apply NoDup_map_filter; exact N2|].
  split; [|split; [|split; assumption]].
  - intros r Hin. apply filter_In in Hin. exact (R r (proj1 Hin)).
  - intros v Hin. apply filter_In in Hin. exact (V v (proj1 Hin)).
Qed.

Lemma ingest_rows_wf (df : list transaction) :
  forall counts c k c',
    Rowwise.well_formed (view c) ->
    ingest_rows counts df c = (Ret k, c') ->
    Rowwise.well_formed (view c').
Proof.
  induction df as [|tx rest IH]; intros counts c k c' W E.
  - cbn [ingest_rows] in E. unfold dret in E. injection E as _ <-. exact W.
  - cbn [ingest_rows] in E. unfold dbind at 1 in E.
    destruct (ingest_row_cases c counts tx) as [D|N].
    + rewrite (ingest_row_duplicate c counts tx D) in E. exact (IH _ _ _ _ W E).
    + rewrite (ingest_row_new c counts tx N) in E.
      refine (IH _ _ _ _ _ E). cbn [view pending]. unfold Spec.bank_row.
      apply wf_append_row; [exact W| |right; reflexivity].
      destruct (type tx); [left|right]; reflexivity.
Qed.

Lemma step_well_formed (c : connection) (o : operation) :
  pending c = None ->
  Rowwise.well_formed (committed c) ->
  Rowwise.well_formed (committed (step c o)).
Proof.
  intros P W.
  assert (V : view c = committed c) by (apply closed_view; exact P).
  destruct o as [file|d s a cat ty ref|a d tol|m b acc|id]; cbn [step].
  - destruct (parse_statement file) as [df|e] eqn:E.
    + destruct (process_bank_statement_parsed file df c E) as (k & c1 & I & ->).
      cbn [snd committed]. apply (ingest_rows_wf df (0, 0) c k c1); [|exact I].
      rewrite V. exact W.
    + rewrite (process_bank_statement_failed file e c E). exact W.
  - destruct (add_manual_effect d s a cat ty ref c P) as (K & Cr & Db & _).
    destruct ((ty =? "debit")%string || (ty =? "credit")%string) eqn:T.
    + apply orb_prop in T. destruct T as [T|T]; apply String.eqb_eq in T.
      * rewrite (Db T). destruct (fst (find_matching_transactions a d 5 c));
          cbn [snd committed]; [|exact W].
        apply wf_append_row; [exact W|left; exact T|left; reflexivity].
      * rewrite (Cr T). cbn [snd committed].
        apply wf_append_row; [exact W|right; exact T|left; reflexivity].
    + rewrite (K eq_refl). exact W.
  - rewrite find_matching_state. exact W.
  - rewrite validate_expense_effect. cbn [snd committed]. rewrite V.
    apply wf_append_validation. exact W.
  - destruct (delete_cases id c P) as [-> | ->]; [exact W|].
    cbn [committed]. apply wf_without_manual. exact W.
Qed.

Lemma run_well_formed (ops : list operation) :
  forall c, pending c = None -> Rowwise.well_formed (committed c) ->
  Rowwise.well_formed (committed (run ops c)).
Proof.
  induction ops as [|o ops IH]; intros c P W; [exact W|].
  cbn [run fold_left]. apply IH.
  - apply step_closed. exact P.
  - apply step_well_formed; assumption.
Qed.

Lemma reachable_wf (c : connection) :
  reachable c -> Rowwise.well_formed (committed c).
Proof.
  intros (ops & ->). apply run_well_formed; [reflexivity|].
  unfold Rowwise.well_formed. cbn.
  repeat split; try constructor; try lia; contradiction.
Qed.

(** X11: in every store the operations reach no transaction is left open,
    the ids of the rows are distinct, positive and never above the
    AUTOINCREMENT counter (in both tables), every row is a debit or a
    credit, and every row was entered by hand or comes from a bank
    statement. *)
Theorem reachable_well_formed (c : connection) :
  reachable c -> pending c = None /\ Rowwise.well_formed (committed c).
Proof.
  intros R. split; [exact (reachable_closed c R)|exact (reachable_wf c R)].
Qed.

Lemma reachable_well_formed_witness :
  pending Examples.reconciled = None /\
  Rowwise.well_formed (committed Examples.reconciled).
Proof.
  apply reachable_well_formed.
  exists [Ingest (ExcelFile (Examples.title_row :: Examples.rows_with_reference));
          AddManual "2024-02-03" "Rent" 1000 None "debit" None;
          Validate 2 (Some 1) true].
  reflexivity.
Defined.

(* --------------------------------------------------------------------- *)
(** *** Rows are never changed *)

Lemma step_keeps_row (c : connection) (o : operation) (r : transaction_row) :
  pending c = None ->
  In r (transactions (committed c)) ->
  o <> DeleteManual (row_id r) \/ row_source r <> "manual" ->
  In r (transactions (committed (step c o))).
Proof.
  intros P Hin K.
  assert (V : view c = committed c) by (apply closed_view; exact P).
  destruct o as [file|d s a cat ty ref|a d tol|m b acc|id]; cbn [step].
  - destruct (parse_statement file) as [df|e] eqn:E.
    + destruct (process_bank_statement_parsed file df c E) as (k & c1 & I & ->).
      destruct (ingest_rows_effect df (0, 0) c) as (k' & c1' & I' & _ & _ & (ad & T) & _).
      rewrite I in I'. injection I' as _ <-.
      cbn [snd committed]. rewrite T, V. apply in_or_app. left. exact Hin.
    + rewrite (process_bank_statement_failed file e c E). exact Hin.
  - destruct (add_manual_cases d s a cat ty ref c) as [-> | ->];
      cbn [committed transactions]; [exact Hin|].
    rewrite V. apply in_or_app. left. exact Hin.
  - rewrite find_matching_state. exact Hin.
  - rewrite validate_expense_effect. cbn [snd committed transactions].
    rewrite V. exact Hin.
  - destruct (delete_cases id c P) as [-> | ->]; [exact Hin|].
    cbn [committed Spec.without_manual transactions].
    apply filter_In. split; [exact Hin|].
    apply negb_true_iff. apply andb_false_iff.
    destruct K as [K|K].
    + left. apply Z.eqb_neq. intros E. apply K. rewrite E. reflexivity.
    + right. apply String.eqb_neq. exact K.
Qed.

(** X12: rows are never changed, and only a manual row can disappear: a
    row of the table is still in the table, as it was, after any
    operation other than the deletion of that very row as a manual row.
    A row that comes from a bank statement therefore stays for ever,
    whatever operations follow. *)
Theorem rows_are_kept :
  (forall c o r,
     pending c = None -> In r (transactions (committed c)) ->
     o <> DeleteManual (row_id r) \/ row_source r <> "manual" ->
     In r (transactions (committed (step c o)))) /\
  (forall ops c r,
     pending c = None -> In r (transactions (committed c)) ->
     row_source r = "bank_statement" ->
     In r (transactions (committed (run ops c)))).
Proof.
  split; [exact step_keeps_row|].
  induction ops as [|o ops IH]; intros c r P Hin B; [exact Hin|].
  cbn [run fold_left]. apply IH; [apply step_closed; exact P| |exact B].
  apply step_keeps_row; [exact P|exact Hin|].
  right. rewrite B. discriminate.
Qed.

Lemma rows_are_kept_witness :
  In Examples.bank_rent_row
     (transactions (committed (run [DeleteManual 1; DeleteManual 2]
                                   Examples.reconciled))).
Proof.
  apply (proj2 rows_are_kept); [reflexivity|left; reflexivity|reflexivity].
Defined.

(* --------------------------------------------------------------------- *)
(** *** delete_manual_transaction on a manual row *)

Lemma source_of_some (id : Z) (t : tables) (s : string) :
  source_of id t = Some s ->
  exists r, In r (transactions t) /\ row_id r = id /\ row_source r = s.
Proof.
  unfold source_of. destruct (List.find _ _) as [r|] eqn:F; [|discriminate].
  cbn [option_map]. intros H. apply some_eq_string in H.
  apply find_some in F. destruct F as [Hin E]. apply Z.eqb_eq in E.
  exists r. auto.
Qed.

Lemma source_of_none (id : Z) (t : tables) :
  (forall r, In r (transactions t) -> row_id r <> id) -> source_of id t = None.
Proof.
  intros N. unfold source_of.
  destruct (List.find _ _) as [r|] eqn:F; [|reflexivity].
  apply find_some in F. destruct F as [Hin E]. apply Z.eqb_eq in E.
  exfalso. exact (N r Hin E).
Qed.

Lemma unique_id (t : tables) (r1 r2 : transaction_row) :
  NoDup (map row_id (transactions t)) ->
  In r1 (transactions t) -> In r2 (transactions t) ->
  row_id r1 = row_id r2 -> r1 = r2.
Proof.
  generalize (transactions t). intros l. induction l as [|x l IH];
    cbn [map]; intros N H1 H2 E; [contradiction|].
  inversion N as [|y ys Hn Hd]; subst.
  destruct H1 as [<-|H1], H2 as [<-|H2].
  - reflexivity.
  - exfalso. apply Hn. rewrite E. apply in_map. exact H2.
  - exfalso. apply Hn. rewrite <- E. apply in_map. exact H1.
  - exact (IH Hd H1 H2 E).
Qed.

(** X13: on the id of a manual row (of a well-formed store with no
    transaction open) [delete_manual_transaction] returns [True] and
    commits: afterwards no row has that id and no validation refers to it
    as its manual transaction, every other row and every validation of
    other manual transactions is kept, and the counters are unchanged, so
    the id is not given out again.  Deleting the same id once more finds
    no row and raises. *)
Theorem delete_manual_row (id : Z) (c : connection) :
  pending c = None ->
  Rowwise.well_formed (committed c) ->
  source_of id (committed c) = Some "manual" ->
  exists c',
    delete_manual_transaction id c =
      (Ret (true, "Transaction deleted successfully"), c') /\
    pending c' = None /\
    (forall r, In r (transactions (committed c')) <->
               In r (transactions (committed c)) /\ row_id r <> id) /\
    (forall v, In v (validated_expenses (committed c')) <->
               In v (validated_expenses (committed c)) /\
               manual_transaction_id v <> id) /\
    transactions_seq (committed c') = transactions_seq (committed c) /\
    validated_expenses_seq (committed c') = validated_expenses_seq (committed c) /\
    delete_manual_transaction id c' =
      (Raise (OperationalError "cannot rollback - no transaction is active"), c').
Proof.
  intros P W M.
  destruct (source_of_some id _ _ M) as (r0 & Hin0 & Id0 & S0).
  exists (mkconn (Spec.without_manual id (committed c)) None).
  split; [exact (delete_manual_ok id c P M)|]. split; [reflexivity|].
  cbn [committed Spec.without_manual transactions validated_expenses
       transactions_seq validated_expenses_seq].
  assert (Rows : forall r,
            In r (List.filter
                    (fun r => negb ((row_id r =? id) && (row_source r =? "manual")%string))
                    (transactions (committed c))) <->
            In r (transactions (committed c)) /\ row_id r <> id).
  { intros r. rewrite filter_In. split.
    - intros (Hin & K). split; [exact Hin|]. intros E.
      assert (r = r0).
      { apply (unique_id (committed c)); [exact (proj1 W)|exact Hin|exact Hin0|congruence]. }
      subst r. rewrite E, S0, Z.eqb_refl in K. discriminate K.
    - intros (Hin & N). split; [exact Hin|].
      apply negb_true_iff. apply andb_false_iff. left. apply Z.eqb_neq. exact N. }
  split; [exact Rows|]. split.
  - intros v. rewrite filter_In. rewrite negb_true_iff, Z.eqb_neq. reflexivity.
  - split; [reflexivity|]. split; [reflexivity|].
    apply delete_not_manual; [reflexivity|].
    cbn [committed]. rewrite source_of_none; [discriminate|].
    cbn [Spec.without_manual transactions]. intros r Hr.
    exact (proj2 (proj1 (Rows r) Hr)).
Qed.

Lemma delete_manual_row_witness :
  exists c',
    delete_manual_transaction 2 Examples.reconciled =
      (Ret (true, "Transaction deleted successfully"), c') /\
    pending c' = None /\
    (forall r, In r (transactions (committed c')) <->
               In r (transactions (committed Examples.reconciled)) /\ row_id r <> 2) /\
    (forall v, In v (validated_expenses (committed c')) <->
               In v (validated_expenses (committed Examples.reconciled)) /\
               manual_transaction_id v <> 2) /\
    transactions_seq (committed c') = transactions_seq (committed Examples.reconciled) /\
    validated_expenses_seq (committed c') =
      validated_expenses_seq (committed Examples.reconciled) /\
    delete_manual_transaction 2 c' =
      (Raise (OperationalError "cannot rollback - no transaction is active"), c').
Proof.
  apply (delete_manual_row 2 Examples.reconciled).
  - reflexivity.
  - apply reachable_wf.
    exists [Ingest (ExcelFile (Examples.title_row :: Examples.rows_with_reference));
            AddManual "2024-02-03" "Rent" 1000 None "debit" None;
            Validate 2 (Some 1) true].
    reflexivity.
  - reflexivity.
Defined.

End StoreExtras.

(* ===================================================================== *)
(** ** Properties of the read-only queries *)
(* ===================================================================== *)

Module ReportFacts.

Import PyStr BankStatementParser BudgetTracker StoreFacts Reports.

(* --------------------------------------------------------------------- *)
(** *** The order of texts *)

Lemma ascii_compare_lt (a b : ascii) :
  Ascii.compare a b = Lt <-> (N_of_ascii a < N_of_ascii b)%N.
Proof. unfold Ascii.compare. apply N.compare_lt_iff. Qed.

Lemma ascii_compare_eq (a b : ascii) : Ascii.compare a b = Eq <-> a = b.
Proof.
  split; [apply Ascii.compare_eq_iff|].
  intros ->. unfold Ascii.compare. apply N.compare_refl.
Qed.

Lemma string_compare_refl (s : string) : String.compare s s = Eq.
Proof.
  induction s as [|c s IH]; [reflexivity|].
  cbn [String.compare]. rewrite (proj2 (ascii_compare_eq c c) eq_refl). exact IH.
Qed.

Lemma string_lt_trans (s1 : string) :
  forall s2 s3,
    String.compare s1 s2 = Lt -> String.compare s2 s3 = Lt ->
    String.compare s1 s3 = Lt.
Proof.
  induction s1 as [|a s1 IH]; intros [|b s2] [|c s3]; cbn [String.compare];
    try discriminate; try reflexivity.
  destruct (Ascii.compare a b) eqn:Eab; try discriminate;
    destruct (Ascii.compare b c) eqn:Ebc; try discriminate; intros H1 H2.
  - apply ascii_compare_eq in Eab, Ebc. subst.
    rewrite (proj2 (ascii_compare_eq c c) eq_refl). exact (IH _ _ H1 H2).
  - apply ascii_compare_eq in Eab. subst. rewrite Ebc. reflexivity.
  - apply ascii_compare_eq in Ebc. subst. rewrite Eab. reflexivity.
  - assert (L : Ascii.compare a c = Lt).
    { apply ascii_compare_lt.
      exact (N.lt_trans _ _ _ (proj1 (ascii_compare_lt a b) Eab)
                              (proj1 (ascii_compare_lt b c) Ebc)). }
    rewrite L. reflexivity.
Qed.

Lemma string_gt_lt (s1 s2 : string) :
  String.compare s1 s2 = Gt <-> String.compare s2 s1 = Lt.
Proof.
  rewrite (String.compare_antisym s2 s1).
  destruct (String.compare s1 s2); cbn; split; congruence.
Qed.

(* --------------------------------------------------------------------- *)
(** *** The order of the values of a column *)

Lemma number_compare_refl (n : Sqlite.number) : Sqlite.number_compare n n = Eq.
Proof.
  destruct n as [|q|]; cbn; try reflexivity.
  apply Qeq_alt. apply Qeq_refl.
Qed.

Lemma number_compare_antisym (a b : Sqlite.number) :
  Sqlite.number_compare b a = CompOpp (Sqlite.number_compare a b).
Proof.
  destruct a as [|x|], b as [|y|]; cbn; try reflexivity.
  symmetry. apply Qcompare_antisym.
Qed.

Lemma number_compare_eq_l (a b c : Sqlite.number) :
  Sqlite.number_compare a b = Eq ->
  Sqlite.number_compare a c = Sqlite.number_compare b c.
Proof.
  destruct a as [|x|], b as [|y|]; cbn; try discriminate; try reflexivity.
  intros E. apply Qeq_alt in E. destruct c as [|z|]; cbn; try reflexivity.
  rewrite E. reflexivity.
Qed.

Lemma number_lt_trans (a b c : Sqlite.number) :
  Sqlite.number_compare a b = Lt -> Sqlite.number_compare b c = Lt ->
  Sqlite.number_compare a c = Lt.
Proof.
  destruct a as [|x|], b as [|y|], c as [|z|]; cbn; try discriminate;
    try reflexivity.
  intros H1 H2. apply Qlt_alt in H1, H2. apply Qlt_alt.
  exact (Qlt_trans _ _ _ H1 H2).
Qed.

Lemma value_compare_refl (v : Sqlite.value) : Sqlite.value_compare v v = Eq.
Proof.
  destruct v as [n|s]; cbn; [apply number_compare_refl|apply string_compare_refl].
Qed.

Lemma value_compare_antisym (a b : Sqlite.value) :
  Sqlite.value_compare b a = CompOpp (Sqlite.value_compare a b).
Proof.
  destruct a as [x|s], b as [y|t]; cbn; try reflexivity.
  - apply number_compare_antisym.
  - apply String.compare_antisym.
Qed.

Lemma value_compare_eq_l (a b c : Sqlite.value) :
  Sqlite.value_compare a b = Eq ->
  Sqlite.value_compare a c = Sqlite.value_compare b c.
Proof.
  destruct a as [x|s], b as [y|t]; cbn; try discriminate.
  - intros E. destruct c as [z|u]; cbn; [|reflexivity].
    apply number_compare_eq_l. exact E.
  - intros E. apply String.compare_eq_iff in E. subst t. reflexivity.
Qed.

Lemma value_compare_eq_r (a b c : Sqlite.value) :
  Sqlite.value_compare b c = Eq ->
  Sqlite.value_compare a b = Sqlite.value_compare a c.
Proof.
  intros E.
  assert (E' : Sqlite.value_compare c b = Eq).
  { rewrite (value_compare_antisym b c), E. reflexivity. }
  rewrite (value_compare_antisym b a), (value_compare_antisym c a).
  rewrite (value_compare_eq_l c b a E'). reflexivity.
Qed.

Lemma value_lt_trans (a b c : Sqlite.value) :
  Sqlite.value_compare a b = Lt -> Sqlite.value_compare b c = Lt ->
  Sqlite.value_compare a c = Lt.
Proof.
  destruct a as [x|s], b as [y|t], c as [z|u]; cbn; try discriminate;
    try reflexivity.
  - apply number_lt_trans.
  - apply string_lt_trans.
Qed.

Lemma value_gt_lt (a b : Sqlite.value) :
  Sqlite.value_compare a b = Gt <-> Sqlite.value_compare b a = Lt.
Proof.
  rewrite (value_compare_antisym a b).
  destruct (Sqlite.value_compare a b); cbn; split; congruence.
Qed.

Lemma sorted_weaken {A} (R R' : A -> A -> Prop) (l : list A) :
  (forall a b, R a b -> R' a b) -> StronglySorted R l -> StronglySorted R' l.
Proof.
  intros W S. induction S as [|a l S IH F]; constructor; [exact IH|].
  apply Forall_forall. intros x Hx. apply W.
  exact (proj1 (Forall_forall _ _) F x Hx).
Qed.

Lemma filter_all {A} (f : A -> bool) (l : list A) :
  (forall x, In x l -> f x = true) -> List.filter f l = l.
Proof.
  induction l as [|x l IH]; intros H; [reflexivity|].
  cbn [List.filter]. rewrite (H x (or_introl eq_refl)).
  rewrite IH; [reflexivity|]. intros y Hy. apply H. right. exact Hy.
Qed.

(* --------------------------------------------------------------------- *)
(** *** The order of rows *)

Section Order.

Variable numeric : string -> option Sqlite.number.


Lemma comes_first_total (a b : transaction_row) :
  Reports.comes_first numeric a b = false -> Reports.comes_first numeric b a = true.
Proof.
  unfold Reports.comes_first.
  rewrite (value_compare_antisym (date_value numeric a) (date_value numeric b)).
  destruct (Sqlite.value_compare (date_value numeric a) (date_value numeric b)); cbn [CompOpp];
    try discriminate; try reflexivity.
  intros H. apply Z.leb_gt in H. apply Z.leb_le. lia.
Qed.

Lemma comes_first_trans (a b c : transaction_row) :
  Reports.comes_first numeric a b = true ->
  Reports.comes_first numeric b c = true ->
  Reports.comes_first numeric a c = true.
Proof.
  unfold Reports.comes_first.
  destruct (Sqlite.value_compare (date_value numeric a) (date_value numeric b))
    eqn:Eab; try discriminate;
    destruct (Sqlite.value_compare (date_value numeric b) (date_value numeric c))
      eqn:Ebc; try discriminate;
    intros H1 H2.
  - rewrite (value_compare_eq_l _ _ (date_value numeric c) Eab), Ebc.
    apply Z.leb_le in H1, H2. apply Z.leb_le. lia.
  - rewrite (value_compare_eq_l _ _ (date_value numeric c) Eab), Ebc. reflexivity.
  - rewrite <- (value_compare_eq_r (date_value numeric a) _ _ Ebc), Eab. reflexivity.
  - apply value_gt_lt in Eab, Ebc.
    pose proof (value_lt_trans _ _ _ Ebc Eab) as L.
    apply value_gt_lt in L. rewrite L. reflexivity.
Qed.

(** What the order says: the date of the first row is the later one, or
    the dates are the same and its id is the higher one (or the same). *)
Lemma comes_first_meaning (a b : transaction_row) :
  Reports.comes_first numeric a b = true <->
  Sqlite.value_compare (date_value numeric b) (date_value numeric a) = Lt \/
  (Sqlite.value_compare (date_value numeric a) (date_value numeric b) = Eq /\ row_id b <= row_id a).
Proof.
  unfold Reports.comes_first.
  rewrite (value_compare_antisym (date_value numeric a) (date_value numeric b)).
  destruct (Sqlite.value_compare (date_value numeric a) (date_value numeric b))
    eqn:E; cbn [CompOpp].
  - rewrite Z.leb_le. split.
    + intros H. right. split; [reflexivity|exact H].
    + intros [H|[_ H]]; [discriminate|exact H].
  - split; [discriminate|]. intros [H|[H _]]; discriminate.
  - split; [intros _; left; reflexivity|reflexivity].
Qed.

Lemma insert_row_in (r : transaction_row) (l : list transaction_row) (x : transaction_row) :
  In x (Reports.insert_row numeric r l) <-> x = r \/ In x l.
Proof.
  induction l as [|y l IH]; cbn [Reports.insert_row].
  - cbn. intuition congruence.
  - destruct (Reports.comes_first numeric r y); cbn [In]; [intuition congruence|].
    rewrite IH. cbn [In]. intuition congruence.
Qed.

Lemma insert_row_perm (r : transaction_row) (l : list transaction_row) :
  Permutation (Reports.insert_row numeric r l) (r :: l).
Proof.
  induction l as [|y l IH]; cbn [Reports.insert_row]; [apply Permutation_refl|].
  destruct (Reports.comes_first numeric r y); [apply Permutation_refl|].
  eapply Permutation_trans; [apply perm_skip; exact IH|apply perm_swap].
Qed.

Lemma order_rows_perm (l : list transaction_row) : Permutation (Reports.order_rows numeric l) l.
Proof.
  induction l as [|r l IH]; [apply Permutation_refl|].
  cbn [Reports.order_rows fold_right]. fold (Reports.order_rows numeric l).
  eapply Permutation_trans; [apply insert_row_perm|apply perm_skip; exact IH].
Qed.

Lemma insert_row_sorted (r : transaction_row) (l : list transaction_row) :
  StronglySorted (fun a b => Reports.comes_first numeric a b = true) l ->
  StronglySorted (fun a b => Reports.comes_first numeric a b = true)
                 (Reports.insert_row numeric r l).
Proof.
  induction l as [|y l IH]; cbn [Reports.insert_row]; intros S.
  - constructor; [constructor|constructor].
  - inversion S as [|y' l' Sl Fy]; subst.
    destruct (Reports.comes_first numeric r y) eqn:E.
    + constructor; [exact S|]. constructor; [exact E|].
      apply Forall_forall. intros z Hz.
      apply (comes_first_trans r y z E).
      exact (proj1 (Forall_forall _ _) Fy z Hz).
    + constructor; [exact (IH Sl)|].
      apply Forall_forall. intros z Hz. apply insert_row_in in Hz.
      destruct Hz as [->|Hz].
      * apply comes_first_total. exact E.
      * exact (proj1 (Forall_forall _ _) Fy z Hz).
Qed.

Lemma order_rows_sorted (l : list transaction_row) :
  StronglySorted (fun a b => Reports.comes_first numeric a b = true) (Reports.order_rows numeric l).
Proof.
  induction l as [|r l IH]; [constructor|].
  cbn [Reports.order_rows fold_right]. fold (Reports.order_rows numeric l).
  apply insert_row_sorted. exact IH.
Qed.

Lemma order_rows_in (l : list transaction_row) (x : transaction_row) :
  In x (Reports.order_rows numeric l) <-> In x l.
Proof.
  split; apply Permutation_in; [|apply Permutation_sym]; apply order_rows_perm.
Qed.

Lemma comes_first_refl (a : transaction_row) : Reports.comes_first numeric a a = true.
Proof.
  unfold Reports.comes_first. rewrite value_compare_refl. apply Z.leb_refl.
Qed.

Lemma order_rows_head (l : list transaction_row) (r : transaction_row)
  (rest : list transaction_row) :
  Reports.order_rows numeric l = r :: rest ->
  In r l /\ forall x, In x l -> Reports.comes_first numeric r x = true.
Proof.
  intros E. split.
  - apply order_rows_in. rewrite E. left. reflexivity.
  - intros x Hx. apply order_rows_in in Hx. rewrite E in Hx.
    pose proof (order_rows_sorted l) as S. rewrite E in S.
    inversion S as [|y ys Sl F]; subst.
    destruct Hx as [<-|Hx]; [apply comes_first_refl|].
    exact (proj1 (Forall_forall _ _) F x Hx).
Qed.

Lemma order_rows_empty (l : list transaction_row) : Reports.order_rows numeric l = [] -> l = [].
Proof.
  intros E. pose proof (order_rows_perm l) as P. rewrite E in P.
  apply Permutation_nil in P. exact P.
Qed.

Lemma where_without_filters (sd ed cat ty : option string) (r : transaction_row) :
  given sd = None -> given ed = None -> given cat = None -> given ty = None ->
  transactions_where numeric sd ed cat ty r = true.
Proof.
  intros A B C D. unfold transactions_where. rewrite A, B, C, D. reflexivity.
Qed.

(** X14: [get_transactions] changes nothing and returns the rows that
    pass the filters given, each row as often as it is in the table
    (absent and empty filters pass every row, and without any filter all
    rows are returned), sorted by the values the column [date] holds:
    every row is dated as late or later than the rows after it, and among
    rows of one date the higher id comes first.  Dates are compared as
    SQLite holds them: a date text that is a number comes after (and is
    below) every date that is kept as text. *)
Theorem get_transactions_result (sd ed cat ty : option string) (c : connection) :
  exists rows,
    get_transactions numeric sd ed cat ty c =
      (Ret (map (fetched numeric) rows), c) /\
    Permutation rows
      (List.filter (transactions_where numeric sd ed cat ty)
                   (transactions (view c))) /\
    (forall r, In r rows <->
               In r (transactions (view c)) /\
               transactions_where numeric sd ed cat ty r = true) /\
    StronglySorted
      (fun a b => Sqlite.value_compare (date_value numeric b) (date_value numeric a) = Lt \/
                  (Sqlite.value_compare (date_value numeric a) (date_value numeric b) = Eq /\
                   row_id b <= row_id a)) rows /\
    (forall a b, In a rows -> In b rows ->
       numeric (row_date a) = None -> numeric (row_date b) <> None ->
       Reports.comes_first numeric a b = true /\ Reports.comes_first numeric b a = false) /\
    (given sd = None -> given ed = None -> given cat = None -> given ty = None ->
     Permutation rows (transactions (view c))).
Proof.
  eexists. split; [reflexivity|]. split; [apply order_rows_perm|].
  split; [|split; [|split]].
  - intros r. rewrite order_rows_in. apply filter_In.
  - eapply sorted_weaken; [|apply order_rows_sorted].
    intros a b H. apply comes_first_meaning. exact H.
  - intros a b _ _ Ha Hb. unfold Reports.comes_first, date_value, Sqlite.stored.
    rewrite Ha. destruct (numeric (row_date b)) as [n|]; [|congruence].
    split; reflexivity.
  - intros A B C D. eapply Permutation_trans; [apply order_rows_perm|].
    rewrite filter_all; [apply Permutation_refl|].
    intros r _. apply where_without_filters; assumption.
Qed.

Variable float_sum : list Q -> outcome Sqlite.number.

(** X15: what [get_transaction_summary] returns when its query does not
    fail (it fails when SQLite cannot add the amounts, and then the error
    leaves the function).  The range runs from the start date given, or
    else from 30 days before the end date, to the end date given, or else
    today.  The number returned is the number of rows dated in the range;
    the totals are SQLite's sums over these rows, 0 when there is no such
    row; the closing balance is the balance of the row that comes first
    (latest date, then highest id) among the rows dated up to the end
    date, or 0 when there is no such row.  The store is not changed. *)
Theorem transaction_summary_result (today : Z * Z * Z)
  (sd ed : option (Z * Z * Z)) (c : connection) (n : Z)
  (debits credits : Sqlite.number) (closing : Q) :
  fst (Reports.get_transaction_summary numeric float_sum today sd ed c) =
    Ret (n, debits, credits, closing) ->
  let end_date := match ed with Some d => d | None => today end in
  exists start_text,
    match sd with
    | Some d => start_text = isoformat d
    | None => shifted_date end_date (-30) = Ret start_text
    end /\
    let rows := List.filter (between numeric start_text (isoformat end_date))
                            (transactions (view c)) in
    n = Z.of_nat (List.length rows) /\
    (rows = [] -> debits = Sqlite.Finite 0 /\ credits = Sqlite.Finite 0) /\
    (rows <> [] ->
     float_sum (amounts_of_type "debit" rows) = Ret debits /\
     float_sum (amounts_of_type "credit" rows) = Ret credits) /\
    ((dates_up_to numeric (isoformat end_date) (view c) = [] /\ closing = 0%Q) \/
     (exists r, In r (dates_up_to numeric (isoformat end_date) (view c)) /\
                closing = row_balance r /\
                forall x, In x (dates_up_to numeric (isoformat end_date) (view c)) ->
                          Reports.comes_first numeric r x = true)) /\
    snd (Reports.get_transaction_summary numeric float_sum today sd ed c) = c.
Proof.
  intros H end_date. unfold Reports.get_transaction_summary in *.
  fold end_date in H |- *.
  set (st := match sd with
             | Some d => Ret (isoformat d)
             | None => shifted_date end_date (-30)
             end) in *.
  destruct st as [start_text|e] eqn:St; [|discriminate H].
  exists start_text. split.
  { unfold st in St. destruct sd as [d|]; [congruence|exact St]. }
  cbv zeta in H |- *.
  set (rows := List.filter (between numeric start_text (isoformat end_date))
                           (transactions (view c))) in *.
  destruct (sum_of_type float_sum "debit" rows) as [d|e] eqn:D;
    [|discriminate H].
  destruct (sum_of_type float_sum "credit" rows) as [cr|e] eqn:C;
    [|discriminate H].
  cbn [fst snd] in H |- *.
  apply (f_equal (fun o => match o with Ret x => Some x | Raise _ => None end)) in H.
  cbv beta iota in H. injection H as <- <- <- <-.
  split; [reflexivity|]. split.
  { intros E. rewrite E in D, C. cbn [sum_of_type] in D, C.
    split; congruence. }
  split.
  { intros N. unfold sum_of_type in D, C.
    destruct rows as [|r rest]; [congruence|]. split; assumption. }
  split; [|reflexivity].
  unfold closing_balance.
  destruct (Reports.order_rows numeric _) as [|r rest] eqn:O.
  - left. split; [exact (order_rows_empty _ O)|reflexivity].
  - right. destruct (order_rows_head _ _ _ O) as (Hin & Hmax).
    exists r. split; [exact Hin|]. split; [reflexivity|exact Hmax].
Qed.

End Order.

(** A date text that is a number sorts last: with the dates ["3000"] and
    ["2024-01-01"] in the table, the row of 2024 comes first and is the
    only one a start date of 2024 keeps. *)
Remark numeric_date_sorts_last :
  let r1 := mkrow 1 "3000" "a" None "credit" 1 0 None "manual" in
  let r2 := mkrow 2 "2024-01-01" "b" None "credit" 1 0 None "manual" in
  let c := mkconn (mktables [r1; r2] [] 2 0) None in
  fst (get_transactions Sqlite.plain_integer None None None None c) =
    Ret [(Sqlite.VText "2024-01-01", r2);
         (Sqlite.VNumber (Sqlite.Finite 3000), r1)] /\
  fst (get_transactions Sqlite.plain_integer (Some "2024-01-01") None None None c) =
    Ret [(Sqlite.VText "2024-01-01", r2)].
Proof. split; reflexivity. Qed.

Lemma transaction_summary_result_witness :
  exists start_text,
    shifted_date (2024, 2, 10) (-30) = Ret start_text /\
    let rows :=
      List.filter (between Sqlite.plain_integer start_text (isoformat (2024, 2, 10)))
                  (transactions (view Examples.reconciled)) in
    2 = Z.of_nat (List.length rows) /\
    (rows = [] -> Sqlite.Finite 2000 = Sqlite.Finite 0 /\
                  Sqlite.Finite 0 = Sqlite.Finite 0) /\
    (rows <> [] ->
     Sqlite.exact_sum (amounts_of_type "debit" rows) = Ret (Sqlite.Finite 2000) /\
     Sqlite.exact_sum (amounts_of_type "credit" rows) = Ret (Sqlite.Finite 0)) /\
    ((dates_up_to Sqlite.plain_integer (isoformat (2024, 2, 10))
        (view Examples.reconciled) = [] /\ 0%Q = 0%Q) \/
     (exists r, In r (dates_up_to Sqlite.plain_integer (isoformat (2024, 2, 10))
                        (view Examples.reconciled)) /\
                0%Q = row_balance r /\
                forall x, In x (dates_up_to Sqlite.plain_integer
                                  (isoformat (2024, 2, 10))
                                  (view Examples.reconciled)) ->
                          Reports.comes_first Sqlite.plain_integer r x = true)) /\
    snd (get_transaction_summary Sqlite.plain_integer Sqlite.exact_sum
           (2024, 2, 10) None None Examples.reconciled) =
      Examples.reconciled.
Proof.
  apply (transaction_summary_result Sqlite.plain_integer Sqlite.exact_sum
           (2024, 2, 10) None None Examples.reconciled
           2 (Sqlite.Finite 2000) (Sqlite.Finite 0) 0%Q).
  reflexivity.
Defined.

End ReportFacts.

(* ===================================================================== *)
(** ** Properties of the default categories *)
(* ===================================================================== *)

Module CategoryFacts.

Import Categories.

Lemma insert_keeps_rows (t : category_table) (c : string * string * string) :
  exists added, categories (insert_or_ignore t c) = (categories t ++ added)%list.
Proof.
  destruct c as [[name type] description]. unfold insert_or_ignore. cbv zeta.
  destruct (existsb _ (categories t)).
  - exists []. symmetry. apply app_nil_r.
  - destruct ((type =? "expense")%string || (type =? "income")%string ||
              (type =? "transfer")%string).
    + eexists. reflexivity.
    + exists []. symmetry. apply app_nil_r.
Qed.

Lemma name_taken (t : category_table) (name : string) :
  existsb (fun r => (category_name r =? name)%string) (categories t) = true <->
  In name (names t).
Proof.
  unfold names. rewrite existsb_exists, in_map_iff. split.
  - intros (r & Hin & E). apply String.eqb_eq in E. exists r. auto.
  - intros (r & E & Hin). exists r. split; [exact Hin|]. apply String.eqb_eq. exact E.
Qed.

Lemma insert_ignored (t : category_table) (name type description : string) :
  In name (names t) ->
  insert_or_ignore t (name, type, description) =
  mkcategories (categories t) (categories_seq t + 1).
Proof.
  intros H. unfold insert_or_ignore. cbv zeta.
  rewrite (proj2 (name_taken t name) H). reflexivity.
Qed.

Lemma insert_counter (t : category_table) (c : string * string * string) :
  categories_seq (insert_or_ignore t c) = categories_seq t + 1.
Proof.
  destruct c as [[name type] description]. unfold insert_or_ignore. cbv zeta.
  destruct (existsb _ (categories t)); [reflexivity|].
  destruct (_ || _); reflexivity.
Qed.

Lemma insert_keeps_names (t : category_table) (c : string * string * string)
  (n : string) : In n (names t) -> In n (names (insert_or_ignore t c)).
Proof.
  intros H. destruct (insert_keeps_rows t c) as (added & E).
  unfold names. rewrite E, map_app. apply in_or_app. left. exact H.
Qed.

Lemma insert_adds_name (t : category_table) (name type description : string) :
  (type =? "expense")%string || (type =? "income")%string ||
  (type =? "transfer")%string = true ->
  In name (names (insert_or_ignore t (name, type, description))).
Proof.
  intros V. unfold insert_or_ignore. cbv zeta.
  destruct (existsb _ (categories t)) eqn:E.
  - apply name_taken. exact E.
  - rewrite V. unfold names. cbn [categories]. rewrite map_app.
    apply in_or_app. right. left. reflexivity.
Qed.

Lemma insert_keeps_unique (t : category_table) (c : string * string * string) :
  NoDup (names t) -> NoDup (names (insert_or_ignore t c)).
Proof.
  intros N. destruct c as [[name type] description]. unfold insert_or_ignore.
  cbv zeta.
  destruct (existsb _ (categories t)) eqn:E; [exact N|].
  destruct ((type =? "expense")%string || (type =? "income")%string ||
            (type =? "transfer")%string); [|exact N].
  unfold names. cbn [categories]. rewrite map_app. apply NoDup_app; [exact N| |].
  - cbn [map]. constructor; [intros []|constructor].
  - intros a Ha [<-|[]]. cbn [category_name] in Ha.
    apply name_taken in Ha. congruence.
Qed.

Section Seeding.

Variable entries : list (string * string * string).

Lemma seed_keeps_rows :
  forall t, exists added,
    categories (fold_left insert_or_ignore entries t) = (categories t ++ added)%list.
Proof.
  induction entries as [|c l IH]; intros t; cbn [fold_left].
  - exists []. symmetry. apply app_nil_r.
  - destruct (insert_keeps_rows t c) as (a1 & E1).
    destruct (IH (insert_or_ignore t c)) as (a2 & E2).
    exists (a1 ++ a2)%list. rewrite E2, E1. symmetry. apply app_assoc.
Qed.

Lemma seed_keeps_names :
  forall t n, In n (names t) -> In n (names (fold_left insert_or_ignore entries t)).
Proof.
  induction entries as [|c l IH]; intros t n H; cbn [fold_left]; [exact H|].
  apply IH. apply insert_keeps_names. exact H.
Qed.

Lemma seed_keeps_unique :
  forall t, NoDup (names t) -> NoDup (names (fold_left insert_or_ignore entries t)).
Proof.
  induction entries as [|c l IH]; intros t N; cbn [fold_left]; [exact N|].
  apply IH. apply insert_keeps_unique. exact N.
Qed.

Lemma seed_ignored :
  forall t,
    (forall name type description,
       In (name, type, description) entries -> In name (names t)) ->
    categories (fold_left insert_or_ignore entries t) = categories t.
Proof.
  induction entries as [|[[name type] description] l IH]; intros t H;
    cbn [fold_left]; [reflexivity|].
  rewrite insert_ignored by (apply (H name type description); left; reflexivity).
  rewrite IH; [reflexivity|].
  intros n ty d Hin. apply (H n ty d). right. exact Hin.
Qed.

Lemma seed_counter :
  forall t,
    categories_seq (fold_left insert_or_ignore entries t) =
    categories_seq t + Z.of_nat (List.length entries).
Proof.
  induction entries as [|c l IH]; intros t; cbn [fold_left List.length].
  - lia.
  - rewrite IH, insert_counter. lia.
Qed.

End Seeding.

Lemma seed_adds_names (entries : list (string * string * string)) :
  (forall name type description,
     In (name, type, description) entries ->
     (type =? "expense")%string || (type =? "income")%string ||
     (type =? "transfer")%string = true) ->
  forall t name type description,
    In (name, type, description) entries ->
    In name (names (fold_left insert_or_ignore entries t)).
Proof.
  induction entries as [|[[n0 ty0] d0] l IH]; intros V t name type description Hin;
    [contradiction|].
  cbn [fold_left]. destruct Hin as [E|Hin].
  - injection E as -> -> ->. apply seed_keeps_names. apply insert_adds_name.
    apply (V name type description). left. reflexivity.
  - apply (IH (fun n ty d H => V n ty d (or_intror H)) _ name type description Hin).
Qed.

Lemma default_types_valid (name type description : string) :
  In (name, type, description) default_categories ->
  (type =? "expense")%string || (type =? "income")%string ||
  (type =? "transfer")%string = true.
Proof.
  unfold default_categories. intros H.
  repeat (destruct H as [H|H]; [injection H as <- <- <-; reflexivity|]).
  contradiction.
Qed.

(** X16: seeding the default categories, as [setup_database] does at
    every start, is safe to repeat as far as the rows go: the rows already
    in the table are kept as they are (a category of the same name is
    never replaced), the names stay distinct, all eight default names are
    in the table afterwards, and seeding again leaves the rows as they
    are.  But every seeding uses up eight ids: the AUTOINCREMENT counter
    advances by one for each default category, inserted or skipped. *)
Theorem seeding_is_repeatable (t : category_table) :
  (exists added, categories (seed_categories t) = (categories t ++ added)%list) /\
  (NoDup (names t) -> NoDup (names (seed_categories t))) /\
  (forall name type description,
     In (name, type, description) default_categories ->
     In name (names (seed_categories t))) /\
  categories (seed_categories (seed_categories t)) =
    categories (seed_categories t) /\
  categories_seq (seed_categories t) = categories_seq t + 8.
Proof.
  split; [apply seed_keeps_rows|]. split; [apply seed_keeps_unique|].
  assert (A : forall name type description,
            In (name, type, description) default_categories ->
            In name (names (seed_categories t))).
  { intros name type description H.
    exact (seed_adds_names default_categories default_types_valid t _ _ _ H). }
  split; [exact A|]. split.
  - unfold seed_categories at 1. apply seed_ignored. exact A.
  - unfold seed_categories. rewrite seed_counter. reflexivity.
Qed.

End CategoryFacts.

(* ===================================================================== *)
(** * Extra properties: days of the calendar *)
(* ===================================================================== *)

(** [toordinal] and [fromordinal] undo each other and keep the order of
    dates; the ISO texts of dates in the years 1000 to 9999, which have
    four digits for the year on every platform, compare as the dates.
    The statements about texts are for these years. *)

Module CalendarFacts.

Import PyStr BankStatementParser BudgetTracker Calendar.

Lemma leap_flag_cases y :
  (leap_flag y = 1 /\ y mod 4 = 0 /\ (y mod 100 <> 0 \/ y mod 400 = 0)) \/
  (leap_flag y = 0 /\ (y mod 4 <> 0 \/ (y mod 100 = 0 /\ y mod 400 <> 0))).
Proof.
  unfold leap_flag, is_leap.
  destruct (Z.eqb_spec (y mod 4) 0); destruct (Z.eqb_spec (y mod 100) 0);
    destruct (Z.eqb_spec (y mod 400) 0); cbn [andb orb negb];
    first [ left; split; [reflexivity | dlia]
          | right; split; [reflexivity | dlia] ].
Qed.

Lemma leap_flag_bounds y : 0 <= leap_flag y <= 1.
Proof. unfold leap_flag. destruct (is_leap y); lia. Qed.

Lemma leap_flag_period y k : leap_flag (y + 400 * k) = leap_flag y.
Proof.
  destruct (leap_flag_cases y) as [(E & L)|(E & L)];
    destruct (leap_flag_cases (y + 400 * k)) as [(E' & L')|(E' & L')];
    rewrite E, E'; try reflexivity; exfalso; dlia.
Qed.

Lemma days_in_month_flag y m :
  days_in_month y m =
  if m =? 2 then 28 + leap_flag y
  else if (m =? 4) || (m =? 6) || (m =? 9) || (m =? 11) then 30 else 31.
Proof.
  unfold days_in_month, leap_flag.
  destruct (m =? 2); [destruct (is_leap y)|]; reflexivity.
Qed.

(** The year of a day of the period is found again from the day. *)
Lemma year_of_era_found yoe doy :
  0 <= yoe <= 399 -> 0 <= doy <= 364 + leap_flag (yoe + 1) ->
  year_of_era (days_before yoe + doy) = yoe.
Proof.
  intros Hy Hd. unfold year_of_era, days_before.
  destruct (leap_flag_cases (yoe + 1)) as [(E & L)|(E & L)]; rewrite E in Hd.
  - assert (C : doy <= 364 \/ doy = 365) by lia. destruct C as [C | ->]; dlia.
  - dlia.
Qed.

Lemma year_of_era_bounds doe :
  0 <= doe < 146097 ->
  0 <= year_of_era doe <= 399 /\
  0 <= doe - days_before (year_of_era doe)
    <= 364 + leap_flag (year_of_era doe + 1).
Proof.
  intros H.
  destruct (leap_flag_cases (year_of_era doe + 1)) as [(E & L)|(E & L)];
    rewrite E; revert L; unfold year_of_era, days_before; intros L; dlia.
Qed.

Lemma fromordinal_eq n era doe yoe doy mp :
  n + 305 = era * 146097 + doe -> 0 <= doe < 146097 ->
  yoe = year_of_era doe ->
  doy = doe - days_before yoe ->
  mp = (5 * doy + 2) / 153 ->
  fromordinal n =
    (if (if mp <? 10 then mp + 3 else mp - 9) <=? 2
     then yoe + era * 400 + 1 else yoe + era * 400,
     if mp <? 10 then mp + 3 else mp - 9,
     doy - (153 * mp + 2) / 5 + 1).
Proof.
  intros Hn Hdoe -> -> ->. unfold fromordinal, year_of_era, days_before.
  cbv zeta.
  assert (E : (n + 305) / 146097 = era) by dlia.
  rewrite E. replace (n + 305 - era * 146097) with doe by lia.
  set (yoe := (doe - doe / 1460 + doe / 36524 - doe / 146096) / 365).
  replace (365 * yoe + yoe / 4 - yoe / 100)
    with (yoe * 365 + yoe / 4 - yoe / 100) by lia.
  reflexivity.
Qed.

Lemma toordinal_eq y m d y' era yoe mp :
  y' = (if m <=? 2 then y - 1 else y) -> era = y' / 400 ->
  yoe = y' - era * 400 -> mp = (if 2 <? m then m - 3 else m + 9) ->
  toordinal y m d =
    era * 146097 + (days_before yoe + ((153 * mp + 2) / 5 + d - 1)) - 305.
Proof. intros -> -> -> ->. reflexivity. Qed.

(** [date.fromordinal(d.toordinal())] is [d]. *)
Lemma fromordinal_toordinal y m d :
  valid_day y m d -> fromordinal (toordinal y m d) = (y, m, d).
Proof.
  intros (Hm & Hd). rewrite (days_in_month_flag y m) in Hd.
  set (y' := if m <=? 2 then y - 1 else y).
  set (era := y' / 400). set (yoe := y' - era * 400).
  set (mp := if 2 <? m then m - 3 else m + 9).
  set (doy := (153 * mp + 2) / 5 + d - 1).
  rewrite (toordinal_eq y m d y' era yoe mp eq_refl eq_refl eq_refl eq_refl).
  fold doy.
  assert (Hyoe : 0 <= yoe <= 399) by (subst yoe era; dlia).
  assert (Hleap : m <= 2 -> leap_flag (yoe + 1) = leap_flag y).
  { intros Hle. subst yoe era y'. destruct (Z.leb_spec m 2); [|lia].
    replace (y - 1 - (y - 1) / 400 * 400 + 1)
      with (y + 400 * (- ((y - 1) / 400))) by lia.
    apply leap_flag_period. }
  pose proof (leap_flag_bounds (yoe + 1)) as Hf.
  pose proof (leap_flag_bounds y) as Hf'.
  assert (Hdoy : 0 <= doy <= 364 + leap_flag (yoe + 1) /\
                 (5 * doy + 2) / 153 = mp /\
                 doy - (153 * mp + 2) / 5 + 1 = d).
  { month_cases m; cbn [Z.eqb Pos.eqb orb] in Hd; subst doy mp;
      match goal with
      | |- context [if 2 <? ?k then ?a else ?b] =>
          let t := eval vm_compute in (if 2 <? k then a else b) in
          change (if 2 <? k then a else b) with t
      end;
      try (specialize (Hleap ltac:(lia))); dlia. }
  destruct Hdoy as (Hdoy & Hmp & Hday).
  assert (Hdoe : 0 <= days_before yoe + doy < 146097).
  { unfold days_before.
    destruct (leap_flag_cases (yoe + 1)) as [(E & L)|(E & L)];
      rewrite E in Hdoy; dlia. }
  rewrite (fromordinal_eq _ era (days_before yoe + doy) yoe doy mp);
    [ | lia | exact Hdoe | symmetry; apply year_of_era_found; assumption
      | lia | symmetry; exact Hmp ].
  rewrite Hday.
  assert (Hmm : (if mp <? 10 then mp + 3 else mp - 9) = m).
  { subst mp. split_tests; lia. }
  rewrite Hmm. subst yoe era y'.
  destruct (Z.leb_spec m 2); f_equal; f_equal; lia.
Qed.

(** [date.fromordinal(n)] is a day of the calendar, and its ordinal is
    [n]. *)
Lemma toordinal_fromordinal n :
  let '(y, m, d) := fromordinal n in
  valid_day y m d /\ toordinal y m d = n.
Proof.
  set (era := (n + 305) / 146097).
  set (doe := n + 305 - era * 146097).
  assert (Hdoe : 0 <= doe < 146097) by (subst doe era; dlia).
  set (yoe := year_of_era doe).
  destruct (year_of_era_bounds doe Hdoe) as (Hyoe & Hdoy).
  fold yoe in Hyoe, Hdoy.
  set (doy := doe - days_before yoe) in *.
  set (mp := (5 * doy + 2) / 153).
  rewrite (fromordinal_eq n era doe yoe doy mp);
    [ | subst doe; lia | exact Hdoe | reflexivity | reflexivity | reflexivity ].
  pose proof (leap_flag_bounds (yoe + 1)) as Hf.
  assert (Hmp : 0 <= mp <= 11) by (subst mp; dlia).
  set (m := if mp <? 10 then mp + 3 else mp - 9).
  set (y := if m <=? 2 then yoe + era * 400 + 1 else yoe + era * 400).
  set (d := doy - (153 * mp + 2) / 5 + 1).
  assert (Hm : 1 <= m <= 12) by (subst m; split_tests; lia).
  assert (Hleap : m <= 2 -> leap_flag y = leap_flag (yoe + 1)).
  { intros Hle. subst y. destruct (Z.leb_spec m 2); [|lia].
    replace (yoe + era * 400 + 1) with (yoe + 1 + 400 * era) by lia.
    apply leap_flag_period. }
  assert (Hd : 1 <= d <= days_in_month y m).
  { rewrite days_in_month_flag. pose proof (leap_flag_bounds y) as Hf'.
    assert (Hc : mp = 0 \/ mp = 1 \/ mp = 2 \/ mp = 3 \/ mp = 4 \/ mp = 5 \/
                 mp = 6 \/ mp = 7 \/ mp = 8 \/ mp = 9 \/ mp = 10 \/ mp = 11)
      by lia.
    subst d.
    repeat (destruct Hc as [Hc | Hc]); rewrite Hc in *; subst m;
      cbn [Z.ltb Z.compare Pos.compare Pos.compare_cont] in *;
      try (specialize (Hleap ltac:(lia))); subst mp; split_tests; dlia. }
  split; [split; assumption|].
  rewrite (toordinal_eq y m d (yoe + era * 400) era yoe mp).
  - subst d doy doe. lia.
  - subst y. destruct (Z.leb_spec m 2); lia.
  - dlia.
  - lia.
  - subst m. split_tests; lia.
Qed.

Lemma toordinal_day_of_year y m d :
  1 <= m <= 12 ->
  toordinal y m d = toordinal y 1 1 + month_days y m + d - 1.
Proof.
  intros Hm. unfold toordinal, month_days.
  cbn [Z.leb Z.ltb Z.compare Pos.compare Pos.compare_cont]. cbv zeta.
  destruct (Z.leb_spec m 2); destruct (Z.ltb_spec 2 m); try lia.
  - dlia.
  - destruct (leap_flag_cases y) as [(E & L)|(E & L)]; rewrite E; dlia.
Qed.

Lemma year_start_next y :
  toordinal (y + 1) 1 1 = toordinal y 1 1 + 365 + leap_flag y.
Proof.
  unfold toordinal.
  cbn [Z.leb Z.ltb Z.compare Pos.compare Pos.compare_cont]. cbv zeta.
  replace (y + 1 - 1) with y by lia.
  destruct (leap_flag_cases y) as [(E & L)|(E & L)]; rewrite E; dlia.
Qed.

Lemma year_start_mono y1 y2 :
  y1 < y2 -> toordinal y1 1 1 + 365 + leap_flag y1 <= toordinal y2 1 1.
Proof.
  intros H. rewrite <- year_start_next.
  unfold toordinal.
  cbn [Z.leb Z.ltb Z.compare Pos.compare Pos.compare_cont]. cbv zeta.
  replace (y1 + 1 - 1) with y1 by lia. dlia.
Qed.

Lemma month_days_next y m :
  1 <= m <= 12 ->
  month_days y m + days_in_month y m = month_days y (m + 1).
Proof.
  intros Hm. rewrite days_in_month_flag. unfold month_days.
  pose proof (leap_flag_bounds y).
  month_cases m; split_tests; dlia.
Qed.

Lemma month_days_mono y m m' :
  1 <= m -> m <= m' -> month_days y m <= month_days y m'.
Proof.
  intros H1 H2. unfold month_days. pose proof (leap_flag_bounds y).
  split_tests; dlia.
Qed.

Lemma month_days_last y : month_days y 13 = 365 + leap_flag y.
Proof. unfold month_days. split_tests; dlia. Qed.

(** The ordinals of the days of the calendar are in the order of the
    dates. *)
Lemma toordinal_compare y1 m1 d1 y2 m2 d2 :
  valid_day y1 m1 d1 -> valid_day y2 m2 d2 ->
  (toordinal y1 m1 d1 ?= toordinal y2 m2 d2) =
  date_compare (y1, m1, d1) (y2, m2, d2).
Proof.
  intros (Hm1 & Hd1) (Hm2 & Hd2).
  rewrite (toordinal_day_of_year y1 m1 d1 Hm1).
  rewrite (toordinal_day_of_year y2 m2 d2 Hm2).
  pose proof (month_days_next y1 m1 Hm1) as N1.
  pose proof (month_days_next y2 m2 Hm2) as N2.
  pose proof (month_days_mono y1 1 m1 ltac:(lia) ltac:(lia)) as A1.
  pose proof (month_days_mono y2 1 m2 ltac:(lia) ltac:(lia)) as A2.
  pose proof (month_days_mono y1 (m1 + 1) 13 ltac:(lia) ltac:(lia)) as B1.
  pose proof (month_days_mono y2 (m2 + 1) 13 ltac:(lia) ltac:(lia)) as B2.
  rewrite month_days_last in B1, B2.
  assert (Z1 : month_days y1 1 = 0) by reflexivity.
  assert (Z2 : month_days y2 1 = 0) by reflexivity.
  unfold date_compare.
  destruct (Z.compare_spec y1 y2) as [-> | Hy | Hy].
  - destruct (Z.compare_spec m1 m2) as [-> | Hmm | Hmm].
    + destruct (Z.compare_spec d1 d2);
        [ apply Z.compare_eq_iff | apply Z.compare_lt_iff
        | apply Z.compare_gt_iff ]; lia.
    + apply Z.compare_lt_iff.
      pose proof (month_days_mono y2 (m1 + 1) m2 ltac:(lia) ltac:(lia)). lia.
    + apply Z.compare_gt_iff.
      pose proof (month_days_mono y2 (m2 + 1) m1 ltac:(lia) ltac:(lia)). lia.
  - apply Z.compare_lt_iff. pose proof (year_start_mono y1 y2 Hy). lia.
  - apply Z.compare_gt_iff. pose proof (year_start_mono y2 y1 Hy). lia.
Qed.

(** [date.fromordinal] keeps the order. *)
Lemma fromordinal_compare n1 n2 :
  date_compare (fromordinal n1) (fromordinal n2) = (n1 ?= n2).
Proof.
  pose proof (toordinal_fromordinal n1) as H1.
  pose proof (toordinal_fromordinal n2) as H2.
  destruct (fromordinal n1) as ((y1, m1), d1).
  destruct (fromordinal n2) as ((y2, m2), d2).
  destruct H1 as (V1 & E1), H2 as (V2 & E2).
  rewrite <- (toordinal_compare _ _ _ _ _ _ V1 V2), E1, E2. reflexivity.
Qed.


(** *** Dates as ISO texts *)

Lemma all_from_spec (f : Z -> bool) (start : Z) (n : nat) (z : Z) :
  all_from f start n = true -> start <= z < start + Z.of_nat n -> f z = true.
Proof.
  revert start. induction n as [|n IH]; intros start H Hz; [lia|].
  cbn [all_from] in H. apply andb_true_iff in H. destruct H as [H1 H2].
  destruct (Z.eq_dec z start) as [->|N]; [exact H1|].
  apply (IH (start + 1)); [exact H2|lia].
Qed.

Lemma padded_four (y : Z) : 1000 <= y <= 9999 -> padded 4 y = four_digits y.
Proof.
  intros H. apply String.eqb_eq.
  apply (all_from_spec (fun y => (padded 4 y =? four_digits y)%string)
           1000 (Z.to_nat 9000)); [vm_cast_no_check (eq_refl true)|lia].
Qed.

Lemma padded_two (n : Z) : 0 <= n <= 99 -> padded 2 n = two_digits n.
Proof.
  intros H. apply String.eqb_eq.
  apply (all_from_spec (fun n => (padded 2 n =? two_digits n)%string)
           0 (Z.to_nat 100)); [vm_cast_no_check (eq_refl true)|lia].
Qed.

Lemma digit_char_facts (k : Z) :
  0 <= k <= 9 ->
  isdigit (digit_char k) = true /\
  digit_of (digit_char k) = k /\
  (digit_char k =? "-")%char = false /\
  (digit_char k =? " ")%char = false /\
  (digit_char k =? "0")%char = (k =? 0) /\
  Z.of_N (N_of_ascii (digit_char k)) = 48 + k.
Proof.
  intros H.
  assert (Hc : k = 0 \/ k = 1 \/ k = 2 \/ k = 3 \/ k = 4 \/ k = 5 \/ k = 6 \/
               k = 7 \/ k = 8 \/ k = 9) by lia.
  repeat (destruct Hc as [Hc | Hc]); subst k; repeat split; reflexivity.
Qed.

Lemma digit_compare (a b : Z) :
  0 <= a <= 9 -> 0 <= b <= 9 ->
  Ascii.compare (digit_char a) (digit_char b) = (a ?= b).
Proof.
  intros Ha Hb. unfold Ascii.compare. rewrite <- N2Z.inj_compare.
  destruct (digit_char_facts a Ha) as (_ & _ & _ & _ & _ & ->).
  destruct (digit_char_facts b Hb) as (_ & _ & _ & _ & _ & ->).
  apply Z.add_compare_mono_l.
Qed.

Lemma compare_cons (c1 c2 : ascii) (s1 s2 : string) :
  (String c1 s1 ?= String c2 s2)%string =
  match Ascii.compare c1 c2 with
  | Eq => (s1 ?= s2)%string
  | Lt => Lt
  | Gt => Gt
  end.
Proof. reflexivity. Qed.

Lemma compare_digit_cons (a b : Z) (s1 s2 : string) :
  0 <= a <= 9 -> 0 <= b <= 9 ->
  (String (digit_char a) s1 ?= String (digit_char b) s2)%string =
  match a ?= b with
  | Eq => (s1 ?= s2)%string
  | Lt => Lt
  | Gt => Gt
  end.
Proof. intros Ha Hb. rewrite compare_cons, digit_compare by assumption. reflexivity. Qed.

Lemma compare_dash_cons (s1 s2 : string) :
  (String "-" s1 ?= String "-" s2)%string = (s1 ?= s2)%string.
Proof. reflexivity. Qed.

(** Two digits compare as the number they write. *)
Lemma lex_digits (hi lo hi' lo' : Z) (k : comparison) :
  0 <= lo <= 9 -> 0 <= lo' <= 9 ->
  match hi ?= hi' with
  | Eq => match lo ?= lo' with Eq => k | Lt => Lt | Gt => Gt end
  | Lt => Lt
  | Gt => Gt
  end =
  match 10 * hi + lo ?= 10 * hi' + lo' with Eq => k | Lt => Lt | Gt => Gt end.
Proof.
  intros Hl Hl'.
  destruct (Z.compare_spec hi hi') as [-> | H | H].
  - destruct (Z.compare_spec lo lo') as [-> | H | H].
    + rewrite Z.compare_refl. reflexivity.
    + assert (E : (10 * hi' + lo ?= 10 * hi' + lo') = Lt)
        by (apply Z.compare_lt_iff; lia).
      rewrite E. reflexivity.
    + assert (E : (10 * hi' + lo ?= 10 * hi' + lo') = Gt)
        by (apply Z.compare_gt_iff; lia).
      rewrite E. reflexivity.
  - assert (E : (10 * hi + lo ?= 10 * hi' + lo') = Lt)
      by (apply Z.compare_lt_iff; lia).
    rewrite E. reflexivity.
  - assert (E : (10 * hi + lo ?= 10 * hi' + lo') = Gt)
      by (apply Z.compare_gt_iff; lia).
    rewrite E. reflexivity.
Qed.

Lemma strftime_digits (y m d : Z) :
  1000 <= y <= 9999 -> 0 <= m <= 99 -> 0 <= d <= 99 ->
  strftime_ymd y m d =
  four_digits y ++ String "-" (two_digits m ++ String "-" (two_digits d)).
Proof.
  intros Hy Hm Hd. unfold strftime_ymd.
  rewrite (padded_four y Hy), (padded_two m Hm), (padded_two d Hd).
  reflexivity.
Qed.

(** The texts of two dates compare as the dates. *)
Lemma strftime_compare (y1 m1 d1 y2 m2 d2 : Z) :
  1000 <= y1 <= 9999 -> 0 <= m1 <= 99 -> 0 <= d1 <= 99 ->
  1000 <= y2 <= 9999 -> 0 <= m2 <= 99 -> 0 <= d2 <= 99 ->
  (strftime_ymd y1 m1 d1 ?= strftime_ymd y2 m2 d2)%string =
  date_compare (y1, m1, d1) (y2, m2, d2).
Proof.
  intros Hy1 Hm1 Hd1 Hy2 Hm2 Hd2.
  rewrite !strftime_digits by assumption.
  unfold four_digits, two_digits. cbn [append].
  rewrite !compare_digit_cons by dlia.
  rewrite compare_dash_cons.
  rewrite !compare_digit_cons by dlia.
  rewrite compare_dash_cons.
  rewrite !compare_digit_cons by dlia.
  cbn [String.compare].
  rewrite (lex_digits (d1 / 10) (d1 mod 10) (d2 / 10) (d2 mod 10)) by dlia.
  rewrite (lex_digits (m1 / 10) (m1 mod 10) (m2 / 10) (m2 mod 10)) by dlia.
  rewrite (lex_digits (y1 / 1000) (y1 / 100 mod 10) (y2 / 1000) (y2 / 100 mod 10)) by dlia.
  rewrite (lex_digits _ (y1 / 10 mod 10) _ (y2 / 10 mod 10)) by dlia.
  rewrite (lex_digits _ (y1 mod 10) _ (y2 mod 10)) by dlia.
  replace (10 * (10 * (10 * (y1 / 1000) + y1 / 100 mod 10) + y1 / 10 mod 10) + y1 mod 10)
    with y1 by dlia.
  replace (10 * (10 * (10 * (y2 / 1000) + y2 / 100 mod 10) + y2 / 10 mod 10) + y2 mod 10)
    with y2 by dlia.
  replace (10 * (m1 / 10) + m1 mod 10) with m1 by dlia.
  replace (10 * (m2 / 10) + m2 mod 10) with m2 by dlia.
  replace (10 * (d1 / 10) + d1 mod 10) with d1 by dlia.
  replace (10 * (d2 / 10) + d2 mod 10) with d2 by dlia.
  unfold date_compare.
  destruct (y1 ?= y2); [destruct (m1 ?= m2); [destruct (d1 ?= d2)| |]| |];
    reflexivity.
Qed.

Lemma split_at_other (sep c : ascii) (r : string) :
  (c =? sep)%char = false ->
  split_at sep (String c r) =
  match split_at sep r with
  | Some (a, b) => Some (String c a, b)
  | None => None
  end.
Proof. intros H. cbn [split_at]. rewrite H. reflexivity. Qed.

Lemma split_at_sep (sep : ascii) (r : string) :
  split_at sep (String sep r) = Some ("", r).
Proof. cbn [split_at]. rewrite Ascii.eqb_refl. reflexivity. Qed.

Lemma year4_field_digits (y : Z) :
  0 <= y <= 9999 -> year4_field (four_digits y) = Some y.
Proof.
  intros H. unfold four_digits, year4_field.
  destruct (digit_char_facts (y / 1000) ltac:(dlia)) as (-> & _ & _ & _ & _ & E1).
  destruct (digit_char_facts (y / 100 mod 10) ltac:(dlia)) as (-> & _ & _ & _ & _ & E2).
  destruct (digit_char_facts (y / 10 mod 10) ltac:(dlia)) as (-> & _ & _ & _ & _ & E3).
  destruct (digit_char_facts (y mod 10) ltac:(dlia)) as (-> & _ & _ & _ & _ & E4).
  cbn [andb digits_val]. rewrite E1, E2, E3, E4. f_equal. dlia.
Qed.

Lemma month_field_digits (m : Z) :
  1 <= m <= 12 -> month_field (two_digits m) = Some m.
Proof.
  intros H. unfold two_digits, month_field.
  destruct (digit_char_facts (m / 10) ltac:(dlia)) as (-> & -> & _).
  destruct (digit_char_facts (m mod 10) ltac:(dlia)) as (-> & -> & _).
  cbn [andb]. cbv zeta.
  replace (10 * (m / 10) + m mod 10) with m by dlia.
  destruct (Z.leb_spec 1 m); [|lia]. destruct (Z.leb_spec m 12); [|lia].
  reflexivity.
Qed.

Lemma day_field_digits (d : Z) :
  1 <= d <= 31 -> day_field (two_digits d) = Some d.
Proof.
  intros H. unfold two_digits, day_field.
  destruct (digit_char_facts (d / 10) ltac:(dlia)) as (-> & -> & _ & -> & _).
  destruct (digit_char_facts (d mod 10) ltac:(dlia)) as (-> & -> & _).
  cbn [andb]. cbv zeta.
  replace (10 * (d / 10) + d mod 10) with d by dlia.
  destruct (Z.leb_spec 1 d); [|lia]. destruct (Z.leb_spec d 31); [|lia].
  reflexivity.
Qed.

Lemma days_in_month_bounds (y m : Z) : 28 <= days_in_month y m <= 31.
Proof.
  rewrite days_in_month_flag. pose proof (leap_flag_bounds y).
  destruct (m =? 2); [lia|]. destruct (_ || _); lia.
Qed.

(** [datetime.strptime(d.strftime('%Y-%m-%d'), '%Y-%m-%d')] is [d]. *)
Lemma strptime_strftime (y m d : Z) :
  1000 <= y <= 9999 -> valid_day y m d ->
  strptime_iso (strftime_ymd y m d) = Some (y, m, d).
Proof.
  intros Hy (Hm & Hd). pose proof (days_in_month_bounds y m) as Hb.
  rewrite strftime_digits by lia.
  unfold strptime_iso.
  assert (S1 : split_at "-" (four_digits y ++
                 String "-" (two_digits m ++ String "-" (two_digits d))) =
               Some (four_digits y, two_digits m ++ String "-" (two_digits d))).
  { unfold four_digits. cbn [append].
    destruct (digit_char_facts (y / 1000) ltac:(dlia)) as (_ & _ & A1 & _).
    destruct (digit_char_facts (y / 100 mod 10) ltac:(dlia)) as (_ & _ & A2 & _).
    destruct (digit_char_facts (y / 10 mod 10) ltac:(dlia)) as (_ & _ & A3 & _).
    destruct (digit_char_facts (y mod 10) ltac:(dlia)) as (_ & _ & A4 & _).
    rewrite (split_at_other _ _ _ A1), (split_at_other _ _ _ A2),
      (split_at_other _ _ _ A3), (split_at_other _ _ _ A4), split_at_sep.
    reflexivity. }
  assert (S2 : split_at "-" (two_digits m ++ String "-" (two_digits d)) =
               Some (two_digits m, two_digits d)).
  { unfold two_digits at 1. cbn [append].
    destruct (digit_char_facts (m / 10) ltac:(dlia)) as (_ & _ & A1 & _).
    destruct (digit_char_facts (m mod 10) ltac:(dlia)) as (_ & _ & A2 & _).
    rewrite (split_at_other _ _ _ A1), (split_at_other _ _ _ A2), split_at_sep.
    reflexivity. }
  rewrite S1, S2, (year4_field_digits y ltac:(lia)),
    (month_field_digits m Hm), (day_field_digits d ltac:(lia)).
  destruct (Z.leb_spec 1 y); [|lia].
  destruct (Z.leb_spec d (days_in_month y m)); [|lia].
  reflexivity.
Qed.

(** A day of the years 1000 to 9999 from its ordinal. *)
Lemma fromordinal_range (n : Z) :
  toordinal 1000 1 1 <= n <= 3652059 ->
  let '(y, m, d) := fromordinal n in
  1000 <= y <= 9999 /\ valid_day y m d /\ toordinal y m d = n.
Proof.
  intros H. pose proof (toordinal_fromordinal n) as T.
  destruct (fromordinal n) as ((y, m), d). destruct T as (V & E).
  split; [|split; assumption].
  assert (V1 : valid_day 1000 1 1) by (unfold valid_day; cbn; lia).
  assert (V2 : valid_day 9999 12 31) by (unfold valid_day; cbn; lia).
  pose proof (toordinal_compare 1000 1 1 y m d V1 V) as C1.
  pose proof (toordinal_compare y m d 9999 12 31 V V2) as C2.
  assert (E2 : toordinal 9999 12 31 = 3652059) by reflexivity.
  rewrite E in C1, C2. rewrite E2 in C2.
  destruct V as (Hm & Hd).
  unfold date_compare in C1, C2.
  split.
  - destruct (Z.compare_spec 1000 y) as [?|?|G]; [lia|lia|].
    exfalso. apply Z.compare_gt_iff in C1. lia.
  - destruct (Z.compare_spec y 9999) as [?|?|G]; [lia|lia|].
    exfalso. apply Z.compare_gt_iff in C2. lia.
Qed.

End CalendarFacts.

(* ===================================================================== *)
(** * Extra properties: date ranges *)
(* ===================================================================== *)

Module DateWindows.

Import PyStr BankStatementParser BudgetTracker Calendar Reports CalendarFacts.

Lemma strftime_leb (y1 m1 d1 y2 m2 d2 : Z) :
  1000 <= y1 <= 9999 -> valid_day y1 m1 d1 ->
  1000 <= y2 <= 9999 -> valid_day y2 m2 d2 ->
  (strftime_ymd y1 m1 d1 <=? strftime_ymd y2 m2 d2)%string =
  (toordinal y1 m1 d1 <=? toordinal y2 m2 d2).
Proof.
  intros Hy1 V1 Hy2 V2.
  pose proof (days_in_month_bounds y1 m1). pose proof (days_in_month_bounds y2 m2).
  unfold String.leb, Z.leb.
  rewrite (toordinal_compare _ _ _ _ _ _ V1 V2).
  destruct V1 as (? & ?), V2 as (? & ?).
  rewrite strftime_compare by lia. reflexivity.
Qed.

Lemma shifted_date_text (base : Z * Z * Z) (n : Z) :
  toordinal 1000 1 1 <= ordinal base + n <= 3652059 ->
  exists y m d,
    shifted_date base n = Ret (strftime_ymd y m d) /\
    1000 <= y <= 9999 /\ valid_day y m d /\
    toordinal y m d = ordinal base + n.
Proof.
  destruct base as ((yb, mb), db). cbn [ordinal]. intros H.
  assert (L : 1 <= toordinal 1000 1 1) by (vm_compute; discriminate).
  pose proof (fromordinal_range _ H) as R.
  unfold shifted_date. cbv zeta.
  destruct (Z.leb_spec 1 (toordinal yb mb db + n)); [|lia].
  destruct (Z.leb_spec (toordinal yb mb db + n) 3652059); [|lia].
  cbn [andb].
  destruct (fromordinal (toordinal yb mb db + n)) as ((y, m), d).
  exists y, m, d. destruct R as (Hy & V & E).
  split; [reflexivity|]. split; [exact Hy|]. split; [exact V|exact E].
Qed.

Lemma strptime_iso_valid (s : string) (y m d : Z) :
  strptime_iso s = Some (y, m, d) -> 1 <= y <= 9999 /\ valid_day y m d.
Proof.
  unfold strptime_iso.
  destruct (split_at "-" s) as [[ys rest]|]; [|discriminate].
  destruct (split_at "-" rest) as [[ms ds]|]; [|discriminate].
  destruct (year4_field ys) as [y'|] eqn:Y; [|discriminate].
  destruct (month_field ms) as [m'|] eqn:M; [|discriminate].
  destruct (day_field ds) as [d'|] eqn:D; [|discriminate].
  destruct ((1 <=? y') && (d' <=? days_in_month y' m')) eqn:E; [|discriminate].
  intros H. injection H as <- <- <-.
  apply andb_prop in E. destruct E as [E1 E2].
  apply Z.leb_le in E1. apply Z.leb_le in E2.
  pose proof (ParserExtras.day_field_bounds _ _ D).
  pose proof (ParserExtras.month_field_bounds _ _ M).
  pose proof (ParserExtras.year4_field_bounds _ _ Y).
  unfold valid_day. lia.
Qed.

(** X17: the date of a statement row read from a text, in the year 1000
    or later, is stored as a text that [find_matching_transactions] reads
    back as the same day: [strptime] of the [strftime('%Y-%m-%d')] text
    gives the year, month and day of the date. *)
Theorem statement_date_parses_back (s : string) (dt : datetime) :
  parse_date (CStr s) = Some dt -> 1000 <= year dt ->
  strptime_iso (strftime dt) = Some (year dt, month dt, day dt).
Proof.
  intros P Hy.
  assert (V : 1 <= year dt <= 9999 /\ valid_day (year dt) (month dt) (day dt)).
  { unfold parse_date in P. unfold valid_day.
    destruct (strptime year2_field (strip s)) as [d2|] eqn:E2.
    - injection P as <-.
      pose proof (ParserExtras.strptime_valid year2_field 1969 2068
                    ParserExtras.year2_field_bounds _ _ E2). lia.
    - pose proof (ParserExtras.strptime_valid year4_field 0 9999
                    ParserExtras.year4_field_bounds _ _ P). lia. }
  unfold strftime. apply strptime_strftime; [lia|exact (proj2 V)].
Qed.

Lemma statement_date_parses_back_witness :
  strptime_iso (strftime (midnight 2024 2 1)) = Some (2024, 2, 1).
Proof.
  apply (statement_date_parses_back " 01/02/24 " (midnight 2024 2 1)).
  - reflexivity.
  - cbn. lia.
Defined.

(** X18: the tolerance window of [find_matching_transactions], in days
    of the calendar.  For a date text that [strptime] reads as the day
    [base] and a tolerance that keeps the window in the years 1000 to
    9999, the call returns rows and changes nothing; a row dated with the
    ISO text of a day of these years is returned exactly when it is a
    debit of the table with the amount asked for, comes from a bank
    statement, is not referenced by a validation row, and its day is at
    most [tolerance] days before or after [base]. *)
Theorem matching_window (amount : Q) (date : string) (tolerance : Z)
  (base : Z * Z * Z) (c : connection) :
  strptime_iso date = Some base ->
  0 <= tolerance ->
  toordinal 1000 1 1 <= ordinal base - tolerance ->
  ordinal base + tolerance <= 3652059 ->
  exists rows,
    find_matching_transactions amount date tolerance c = (Ret rows, c) /\
    forall r y m d,
      row_date r = strftime_ymd y m d -> 1000 <= y <= 9999 -> valid_day y m d ->
      (In r rows <->
       In r (transactions (view c)) /\
       row_type r = "debit" /\ (row_amount r == amount)%Q /\
       row_source r = "bank_statement" /\
       ~ In (row_id r) (validated_bank_ids (view c)) /\
       Z.abs (toordinal y m d - ordinal base) <= tolerance).
Proof.
  intros P Ht Hlo Hhi.
  destruct (shifted_date_text base (- tolerance) ltac:(lia))
    as (y1 & m1 & d1 & S1 & Hy1 & V1 & O1).
  destruct (shifted_date_text base tolerance ltac:(lia))
    as (y2 & m2 & d2 & S2 & Hy2 & V2 & O2).
  unfold find_matching_transactions. rewrite P, S1, S2. unfold select.
  eexists. split; [reflexivity|].
  intros r y m d Hd Hy V. rewrite filter_In. unfold matches_query.
  rewrite Hd, (strftime_leb _ _ _ _ _ _ Hy1 V1 Hy V),
    (strftime_leb _ _ _ _ _ _ Hy V Hy2 V2), O1, O2.
  rewrite !andb_true_iff, negb_true_iff, !Z.leb_le, !String.eqb_eq,
    Qeq_bool_iff.
  assert (X : existsb (Z.eqb (row_id r)) (validated_bank_ids (view c)) = false
              <-> ~ In (row_id r) (validated_bank_ids (view c))).
  { rewrite <- not_true_iff_false, existsb_exists. split.
    - intros N I. apply N. exists (row_id r). split; [exact I|apply Z.eqb_refl].
    - intros N (x & I & E). apply Z.eqb_eq in E. subst x. exact (N I). }
  rewrite X. intuition lia.
Qed.

Lemma matching_window_witness :
  exists rows,
    find_matching_transactions 1000 "2024-02-03" 5 Examples.ingested =
      (Ret rows, Examples.ingested) /\
    forall r y m d,
      row_date r = strftime_ymd y m d -> 1000 <= y <= 9999 -> valid_day y m d ->
      (In r rows <->
       In r (transactions (view Examples.ingested)) /\
       row_type r = "debit" /\ (row_amount r == 1000)%Q /\
       row_source r = "bank_statement" /\
       ~ In (row_id r) (validated_bank_ids (view Examples.ingested)) /\
       Z.abs (toordinal y m d - ordinal (2024, 2, 3)) <= 5).
Proof.
  apply (matching_window 1000 "2024-02-03" 5 (2024, 2, 3) Examples.ingested).
  - reflexivity.
  - lia.
  - vm_compute. discriminate.
  - vm_compute. discriminate.
Defined.

Lemma le_texts (numeric : string -> option Sqlite.number) (a b : string) :
  numeric a = None -> numeric b = None ->
  Sqlite.le numeric a b = String.leb a b.
Proof.
  intros A B. unfold Sqlite.le, Sqlite.stored. rewrite A, B. reflexivity.
Qed.

(** The conversion of the examples keeps the ISO text of a date. *)
Lemma plain_integer_keeps_iso_dates : Sqlite.keeps_iso_dates Sqlite.plain_integer.
Proof.
  intros y m d. unfold Sqlite.plain_integer, strftime_ymd.
  rewrite PyStrFacts.all_digits_app. cbn [append all_digits].
  change (isdigit "-") with false. cbn [andb].
  rewrite !andb_false_r. reflexivity.
Qed.

(** X19: the default range of [get_transaction_summary].  With no start
    date given, and an end date (the one given, or else today) in the
    years 1000 to 9999 and at least 30 days after 1000-01-01, the rows
    the query is over are such that those dated with the ISO text of a
    day of these years are exactly the rows of the table whose day is at
    most 30 days before the end date and not after it (SQLite keeps such
    a text as text).  The store is not changed; the number returned is
    the number of these rows; the call raises only when one of the two
    sums does. *)
Theorem summary_default_range (numeric : string -> option Sqlite.number)
  (float_sum : list Q -> outcome Sqlite.number)
  (today : Z * Z * Z) (ed : option (Z * Z * Z))
  (c : connection) (ye me de : Z) :
  Sqlite.keeps_iso_dates numeric ->
  match ed with Some d => d | None => today end = (ye, me, de) ->
  1000 <= ye <= 9999 -> valid_day ye me de ->
  toordinal 1000 1 1 <= toordinal ye me de - 30 ->
  exists rows,
    (forall r y m d,
       row_date r = strftime_ymd y m d -> 1000 <= y <= 9999 -> valid_day y m d ->
       (In r rows <->
        In r (transactions (view c)) /\
        toordinal ye me de - 30 <= toordinal y m d <= toordinal ye me de)) /\
    snd (get_transaction_summary numeric float_sum today None ed c) = c /\
    match fst (get_transaction_summary numeric float_sum today None ed c) with
    | Ret (n, _, _, _) => n = Z.of_nat (List.length rows)
    | Raise e =>
        rows <> [] /\
        (float_sum (amounts_of_type "debit" rows) = Raise e \/
         float_sum (amounts_of_type "credit" rows) = Raise e)
    end.
Proof.
  intros K E Hy V Hlo.
  assert (Hhi : toordinal ye me de <= 3652059).
  { assert (V2 : valid_day 9999 12 31) by (unfold valid_day; cbn; lia).
    pose proof (toordinal_compare ye me de 9999 12 31 V V2) as C.
    assert (E2 : toordinal 9999 12 31 = 3652059) by reflexivity.
    rewrite E2 in C. unfold date_compare in C. destruct V as (Hm & Hd).
    pose proof (days_in_month_bounds ye me).
    destruct (Z.compare_spec (toordinal ye me de) 3652059) as [?|?|G];
      [lia|lia|].
    exfalso.
    destruct (Z.compare_spec ye 9999); [|discriminate|lia].
    destruct (Z.compare_spec me 12); [|discriminate|lia].
    destruct (Z.compare_spec de 31); [discriminate|discriminate|lia]. }
  destruct (shifted_date_text (ye, me, de) (-30) ltac:(cbn [ordinal]; lia))
    as (y1 & m1 & d1 & S1 & Hy1 & V1 & O1).
  cbn [ordinal] in O1.
  unfold get_transaction_summary. rewrite E, S1. cbv zeta.
  set (rows := List.filter
                 (between numeric (strftime_ymd y1 m1 d1) (isoformat (ye, me, de)))
                 (transactions (view c))).
  exists rows. split.
  { intros r y m d Hd Hyr Vr. unfold rows. rewrite filter_In.
    unfold between, isoformat.
    rewrite Hd, !le_texts by apply K.
    rewrite (strftime_leb _ _ _ _ _ _ Hy1 V1 Hyr Vr),
      (strftime_leb _ _ _ _ _ _ Hyr Vr Hy V), O1.
    rewrite andb_true_iff, !Z.leb_le. intuition lia. }
  destruct (sum_of_type float_sum "debit" rows) as [debits|e] eqn:D.
  - destruct (sum_of_type float_sum "credit" rows) as [credits|e] eqn:C.
    + cbn [fst snd]. split; reflexivity.
    + cbn [fst snd]. split; [reflexivity|].
      unfold sum_of_type in C. destruct rows as [|r rest]; [discriminate C|].
      split; [discriminate|]. right. exact C.
  - cbn [fst snd]. split; [reflexivity|].
    unfold sum_of_type in D. destruct rows as [|r rest]; [discriminate D|].
    split; [discriminate|]. left. exact D.
Qed.

Lemma summary_default_range_witness :
  exists rows,
    (forall r y m d,
       row_date r = strftime_ymd y m d -> 1000 <= y <= 9999 -> valid_day y m d ->
       (In r rows <->
        In r (transactions (view Examples.reconciled)) /\
        toordinal 2024 2 10 - 30 <= toordinal y m d <= toordinal 2024 2 10)) /\
    snd (get_transaction_summary Sqlite.plain_integer Sqlite.exact_sum
           (2024, 2, 10) None None Examples.reconciled) = Examples.reconciled /\
    match fst (get_transaction_summary Sqlite.plain_integer Sqlite.exact_sum
                 (2024, 2, 10) None None Examples.reconciled) with
    | Ret (n, _, _, _) => n = Z.of_nat (List.length rows)
    | Raise e =>
        rows <> [] /\
        (Sqlite.exact_sum (amounts_of_type "debit" rows) = Raise e \/
         Sqlite.exact_sum (amounts_of_type "credit" rows) = Raise e)
    end.
Proof.
  apply (summary_default_range Sqlite.plain_integer Sqlite.exact_sum
           (2024, 2, 10) None Examples.reconciled 2024 2 10).
  - exact plain_integer_keeps_iso_dates.
  - reflexivity.
  - lia.
  - unfold valid_day. cbn. lia.
  - vm_compute. discriminate.
Defined.

End DateWindows.
